(** * taskflow-pro: the task/project domain rules, embedded and verified

    A shallow embedding of the backend's domain logic:
    - [models/Task.js]     : derived values, subtask methods, query statics,
                             the validators and the save hooks;
    - [models/Project.js]  : membership methods and the pre-save hook;
    - [routes/tasks.js]    : the handlers that list, create, update, delete
                             and toggle;
    - [routes/projects.js] : the handlers that create, update and delete a
                             project and that add and remove members;
    - [middleware/auth.js] : the two authentication middlewares;
    - the dashboard [/stats] and [/project-progress] handlers.

    Modelling conventions.
    - An [ObjectId] is the string [toString()] yields; every comparison in the
      source goes through [toString() === ...].
    - A [Date] is a number of milliseconds, an unset date is [None].
    - A JavaScript Number is a double. The integers the code counts and
      sums are exact in it, and [Math.round] and [Math.ceil] are exact
      functions of their argument. [Double] gives the result of a division
      or of a product: the double nearest to the exact result, ties to
      even. A percentage [Math.round((a / b) * 100)] is modelled with its
      two roundings. A single quotient of two integers that is rounded at
      once, [Math.round(total / n)] and [Math.ceil(total / limit)], is
      written with the exact quotient: the double quotient gives the same
      integer ([Math_round_div_exact], [Math_ceil_div_exact]). The fields
      the schema keeps as percentages ([progress]) hold integers.
    - A collection is a finite map from [_id] to document. [save()] runs the
      schema's validators, the pre-save hook, the write and the post-save
      hook. [Task.save] and [Project.save] are the part that follows a
      validation that passed; [ValidatedTask] puts the validators of the
      modelled paths in front, as the task routes meet them, and the
      project routes check the validators of the fields they send.
      [findByIdAndUpdate] writes without running either hook. *)

From Stdlib Require Import ZArith QArith Qround Qpower Lqa Lia.
From stdpp Require Import base strings list gmap fin_maps.

Open Scope Z_scope.

(** ** Numbers *)

Definition Math_round (x : Q) : Z := Qfloor (x + (1 # 2))%Q.

Definition Math_max (a b : Z) : Z := Z.max a b.

Definition Number (n : Z) : Q := inject_Z n.

(** Double precision: the result of a division or a product is the double
    nearest to the exact result, the one with the even significand at a
    tie. The model covers the normal range (no overflow to [Infinity], no
    subnormal result): the values formed here are quotients and percentages
    of counts, far from both ends of it. The callers divide by a count they
    have tested to be positive. *)
Module Double.

(** The integer nearest to [x], the even one of the two at a tie. *)
Definition round_half_even (x : Q) : Z :=
  let f := Qfloor x in
  match (x - inject_Z f ?= 1 # 2)%Q with
  | Lt => f
  | Eq => if Z.even f then f else f + 1
  | Gt => f + 1
  end.

(** The exponent of the last place of a positive [x]: the [e] with
    [2^52 <= x / 2^e < 2^53], found from the sizes of the numerator and of
    the denominator. *)
Definition ulp_exponent (x : Q) : Z :=
  let d := Z.log2 (Qnum x) - Z.log2 (Z.pos (Qden x)) in
  if Qle_bool (2 ^ d) x then d - 52 else d - 53.

(** The double nearest to [x]: a significand of 53 bits at that exponent. *)
Definition nearest (x : Q) : Q :=
  match (x ?= 0)%Q with
  | Eq => 0
  | Gt =>
      let e := ulp_exponent x in
      inject_Z (round_half_even (x / 2 ^ e)) * 2 ^ e
  | Lt =>
      let e := ulp_exponent (- x) in
      - (inject_Z (round_half_even (- x / 2 ^ e)) * 2 ^ e)
  end%Q.

Definition div (x y : Q) : Q := nearest (x / y).

Definition mul (x y : Q) : Q := nearest (x * y).

(** Half the distance from 1 to the next double, the largest relative
    error of one rounding. *)
Definition unit_roundoff : Q := 1 # 9007199254740992.

End Double.

(** [r] is an integer nearest to [a / b], for a positive [b]: it is at most
    one half away from the quotient. *)
Definition nearest_integer (a b r : Z) : Prop :=
  - b ≤ 2 * (b * r - a) ≤ b.

Definition ObjectId : Type := string.
Definition Date : Type := Z.

(** A thrown [Error(message)] or a normal return. *)
Inductive Result (A : Type) : Type :=
| Return (a : A)
| Throw (message : string).
Arguments Return {A} a.
Arguments Throw {A} message.

(** The schema's [maxlength] validator of a string path. *)
Definition maxlength (n : nat) (value : string) : bool :=
  (String.length value <=? n)%nat.

(** ** models/Task.js: schema, derived values and the pre-save hook *)

Module TaskSchema.

Inductive Status : Set :=
| todo | in_progress | in_review | completed | cancelled.

Inductive Priority : Set := low | medium | high | urgent.

#[global] Instance Status_eq_dec : EqDecision Status.
Proof. solve_decision. Defined.

#[global] Instance Priority_eq_dec : EqDecision Priority.
Proof. solve_decision. Defined.

Record Subtask : Type := mkSubtask {
  sub_id : ObjectId;
  title : string;
  isCompleted : bool
}.

(** The document. [modifiedStatus] is what [isModified("status")] answers:
    set by an assignment that changes [status] (and on a new document),
    cleared once the document is saved. *)
Record t : Type := mk {
  _id : ObjectId;
  project : ObjectId;
  assignee : option ObjectId;
  creator : ObjectId;
  status : Status;
  priority : Priority;
  dueDate : option Date;
  progress : Z;
  subtasks : list Subtask;
  isArchived : bool;
  completedAt : option Date;
  startedAt : option Date;
  modifiedStatus : bool
}.

Definition set_status (s : Status) (this : t) : t :=
  mk this.(_id) this.(project) this.(assignee) this.(creator)
     s this.(priority) this.(dueDate) this.(progress) this.(subtasks)
     this.(isArchived) this.(completedAt) this.(startedAt)
     (if decide (s = this.(status)) then this.(modifiedStatus) else true).

Definition set_progress (p : Z) (this : t) : t :=
  mk this.(_id) this.(project) this.(assignee) this.(creator)
     this.(status) this.(priority) this.(dueDate) p this.(subtasks)
     this.(isArchived) this.(completedAt) this.(startedAt)
     this.(modifiedStatus).

Definition set_subtasks (l : list Subtask) (this : t) : t :=
  mk this.(_id) this.(project) this.(assignee) this.(creator)
     this.(status) this.(priority) this.(dueDate) this.(progress) l
     this.(isArchived) this.(completedAt) this.(startedAt)
     this.(modifiedStatus).

Definition set_completedAt (d : Date) (this : t) : t :=
  mk this.(_id) this.(project) this.(assignee) this.(creator)
     this.(status) this.(priority) this.(dueDate) this.(progress)
     this.(subtasks) this.(isArchived) (Some d) this.(startedAt)
     this.(modifiedStatus).

Definition set_startedAt (d : Date) (this : t) : t :=
  mk this.(_id) this.(project) this.(assignee) this.(creator)
     this.(status) this.(priority) this.(dueDate) this.(progress)
     this.(subtasks) this.(isArchived) this.(completedAt) (Some d)
     this.(modifiedStatus).

Definition set_assignee (a : ObjectId) (this : t) : t :=
  mk this.(_id) this.(project) (Some a) this.(creator)
     this.(status) this.(priority) this.(dueDate) this.(progress)
     this.(subtasks) this.(isArchived) this.(completedAt) this.(startedAt)
     this.(modifiedStatus).

(** The write clears the modification marks. *)
Definition persisted (this : t) : t :=
  mk this.(_id) this.(project) this.(assignee) this.(creator)
     this.(status) this.(priority) this.(dueDate) this.(progress)
     this.(subtasks) this.(isArchived) this.(completedAt) this.(startedAt)
     false.

(** [virtual("isOverdue")] *)
Definition isOverdue (now : Date) (this : t) : bool :=
  match this.(dueDate) with
  | None => false
  | Some d =>
      (d <? now)
      && negb (bool_decide (this.(status) = completed))
      && negb (bool_decide (this.(status) = cancelled))
  end.

(** [virtual("completedSubtasksCount")] *)
Definition completedSubtasksCount (this : t) : nat :=
  length (List.filter (λ subtask, isCompleted subtask) this.(subtasks)).

(** [virtual("subtasksProgress")] *)
Definition subtasksProgress (this : t) : Z :=
  if decide (length this.(subtasks) = 0%nat) then 100
  else
    Math_round
      (Double.mul
         (Double.div (Number (Z.of_nat (completedSubtasksCount this)))
            (Number (Z.of_nat (length this.(subtasks)))))
         (Number 100)).

(** [pre("save")] *)
Definition preSave (now : Date) (this : t) : t :=
  let this :=
    if this.(modifiedStatus) then
      if bool_decide (this.(status) = completed)
         && bool_decide (this.(completedAt) = None)
      then set_progress 100 (set_completedAt now this)
      else if bool_decide (this.(status) = in_progress)
              && bool_decide (this.(startedAt) = None)
      then set_startedAt now this
      else this
    else this in
  if decide (this.(status) = completed) then set_progress 100 this
  else if decide (this.(status) = todo) then set_progress 0 this
  else this.

(** The document as [save()] writes it. *)
Definition saved (now : Date) (this : t) : t := persisted (preSave now this).

(** The validators of the modelled paths: [dueDate], when set, is later
    than the clock ([value > new Date()]), and [progress] is within [min]
    and [max]. [save()] runs them before the pre-save hook, on the paths a
    loaded document came with as on the assigned ones. The other paths
    pass: their validators do not depend on the clock and the routes that
    store them check the same bounds. *)
Definition validate (now : Date) (this : t) : bool :=
  match this.(dueDate) with Some value => now <? value | None => true end
  && (0 <=? this.(progress)) && (this.(progress) <=? 100).

End TaskSchema.

(** ** models/Project.js: schema, membership queries and the pre-save hook *)

Module ProjectSchema.

Inductive Status : Set :=
| planning | active | on_hold | completed | archived.

Inductive Role : Set := r_owner | r_admin | r_member | r_viewer.

#[global] Instance Status_eq_dec : EqDecision Status.
Proof. solve_decision. Defined.

#[global] Instance Role_eq_dec : EqDecision Role.
Proof. solve_decision. Defined.

Record Member : Type := mkMember {
  user : ObjectId;
  role : Role;
  joinedAt : Date
}.

Record t : Type := mk {
  _id : ObjectId;
  owner : ObjectId;
  members : list Member;
  status : Status;
  progress : Z
}.

Definition set_members (l : list Member) (this : t) : t :=
  mk this.(_id) this.(owner) l this.(status) this.(progress).

Definition set_status (s : Status) (this : t) : t :=
  mk this.(_id) this.(owner) this.(members) s this.(progress).

Definition set_progress (p : Z) (this : t) : t :=
  mk this.(_id) this.(owner) this.(members) this.(status) p.

(** [methods.isMember] *)
Definition isMember (userId : ObjectId) (this : t) : bool :=
  existsb (λ member, String.eqb member.(user) userId) this.(members)
  || String.eqb this.(owner) userId.

(** [methods.getUserRole]; [None] is the source's [null]. *)
Definition getUserRole (userId : ObjectId) (this : t) : option Role :=
  if String.eqb this.(owner) userId then Some r_owner
  else
    match List.find (λ member, String.eqb member.(user) userId) this.(members) with
    | Some member => Some member.(role)
    | None => None
    end.

(** [pre("save")] *)
Definition preSave (this : t) : t :=
  let this := if this.(progress) <? 0 then set_progress 0 this else this in
  let this := if 100 <? this.(progress) then set_progress 100 this else this in
  if bool_decide (this.(progress) = 100)
     && negb (bool_decide (this.(status) = completed))
  then set_status completed this
  else if (0 <? this.(progress)) && bool_decide (this.(status) = planning)
  then set_status active this
  else this.

End ProjectSchema.

(** ** The two collections and the writes *)

Module Db.

Record t : Type := mk {
  tasks : gmap ObjectId TaskSchema.t;
  projects : gmap ObjectId ProjectSchema.t
}.

Definition set_tasks (m : gmap ObjectId TaskSchema.t) (db : t) : t :=
  mk m db.(projects).

Definition set_projects (m : gmap ObjectId ProjectSchema.t) (db : t) : t :=
  mk db.(tasks) m.

End Db.

(** ** The Task model: queries, [save] with both hooks, saving methods

    The saves of this module are those of a document that passes
    validation; [ValidatedTask] below puts the validation in front. *)

Module Task.

Import TaskSchema.

Definition findById (id : ObjectId) (db : Db.t) : option TaskSchema.t :=
  db.(Db.tasks) !! id.

(** [Task.find({ project })] *)
Definition find_project (projectId : ObjectId) (db : Db.t) : list TaskSchema.t :=
  List.filter (λ task, String.eqb task.(project) projectId)
    (map_to_list db.(Db.tasks)).*2.

Definition findByIdAndDelete (id : ObjectId) (db : Db.t) : Db.t :=
  Db.set_tasks (delete id db.(Db.tasks)) db.

(** [Task.findByIdAndUpdate(id, updates)]: no hook runs. *)
Definition findByIdAndUpdate (id : ObjectId) (updates : TaskSchema.t → TaskSchema.t)
    (db : Db.t) : Db.t :=
  Db.set_tasks (alter updates id db.(Db.tasks)) db.

(** [post("save")]: the project's progress becomes the rounded mean of the
    progress of the tasks found for it. The quotient is the exact one,
    which [Math.round] takes to the same integer as the double one. *)
Definition postSave (doc : TaskSchema.t) (db : Db.t) : Db.t :=
  let tasks := find_project doc.(project) db in
  if (0 <? length tasks)%nat then
    let totalProgress :=
      fold_left (λ sum task, sum + task.(progress)) tasks 0 in
    let averageProgress :=
      Math_round (Number totalProgress / Number (Z.of_nat (length tasks)))%Q in
    Db.set_projects
      (alter (ProjectSchema.set_progress averageProgress) doc.(project)
         db.(Db.projects)) db
  else db.

(** [this.save()] past validation: pre-save hook, write, post-save hook. *)
Definition save (now : Date) (this : TaskSchema.t) (db : Db.t)
    : TaskSchema.t * Db.t :=
  let doc := saved now this in
  (doc, postSave doc (Db.set_tasks (<[doc.(_id) := doc]> db.(Db.tasks)) db)).

(** [this.subtasks.id(subtaskId)] followed by the flip of its flag. *)
Fixpoint flip_subtask (subtaskId : ObjectId) (l : list Subtask)
    : option (list Subtask) :=
  match l with
  | [] => None
  | subtask :: l' =>
      if String.eqb subtask.(sub_id) subtaskId
      then Some (mkSubtask subtask.(sub_id) subtask.(title)
                   (negb subtask.(isCompleted)) :: l')
      else cons subtask <$> flip_subtask subtaskId l'
  end.

(** [methods.toggleSubtask] *)
Definition toggleSubtask (now : Date) (subtaskId : ObjectId)
    (this : TaskSchema.t) (db : Db.t) : Result (TaskSchema.t * Db.t) :=
  match flip_subtask subtaskId this.(subtasks) with
  | Some l => Return (save now (set_subtasks l this) db)
  | None => Throw "Subtask not found"
  end.

(** [methods.updateProgressFromSubtasks] *)
Definition updateProgressFromSubtasks (now : Date) (this : TaskSchema.t)
    (db : Db.t) : TaskSchema.t * Db.t :=
  let this :=
    if (0 <? length this.(subtasks))%nat
    then set_progress (subtasksProgress this) this
    else this in
  save now this db.

End Task.

(** ** The saving methods as a caller meets them: validation first

    A document that fails validation is rejected with a ValidationError and
    nothing is written; otherwise the call is the one of [Task]. *)

Module ValidatedTask.

Import TaskSchema.

(** [this.save()] *)
Definition save (now : Date) (this : TaskSchema.t) (db : Db.t)
    : Result (TaskSchema.t * Db.t) :=
  if validate now this then Return (Task.save now this db)
  else Throw "Task validation failed".

(** [methods.toggleSubtask] *)
Definition toggleSubtask (now : Date) (subtaskId : ObjectId)
    (this : TaskSchema.t) (db : Db.t) : Result (TaskSchema.t * Db.t) :=
  match Task.flip_subtask subtaskId this.(subtasks) with
  | Some l => save now (set_subtasks l this) db
  | None => Throw "Subtask not found"
  end.

(** [methods.updateProgressFromSubtasks] *)
Definition updateProgressFromSubtasks (now : Date) (this : TaskSchema.t)
    (db : Db.t) : Result (TaskSchema.t * Db.t) :=
  let this :=
    if (0 <? length this.(subtasks))%nat
    then set_progress (subtasksProgress this) this
    else this in
  save now this db.

End ValidatedTask.

(** ** The Project model *)

Module Project.

Import ProjectSchema.

Definition findById (id : ObjectId) (db : Db.t) : option ProjectSchema.t :=
  db.(Db.projects) !! id.

(** [this.save()] past validation: pre-save hook, then the write. The
    validators of a project do not read the clock, and what the routes
    store has passed them: a stored project that is saved again passes. *)
Definition save (this : ProjectSchema.t) (db : Db.t) : ProjectSchema.t * Db.t :=
  let doc := preSave this in
  (doc, Db.set_projects (<[doc.(_id) := doc]> db.(Db.projects)) db).

(** [methods.addMember] *)
Definition addMember (now : Date) (userId : ObjectId) (role : Role)
    (this : ProjectSchema.t) (db : Db.t) : Result (ProjectSchema.t * Db.t) :=
  let existingMember :=
    List.find (λ member, String.eqb member.(user) userId) this.(members) in
  match existingMember with
  | Some _ => Throw "User is already a member of this project"
  | None =>
      Return
        (save (set_members (this.(members) ++ [mkMember userId role now]) this) db)
  end.

(** [methods.removeMember] *)
Definition removeMember (userId : ObjectId) (this : ProjectSchema.t) (db : Db.t)
    : ProjectSchema.t * Db.t :=
  save
    (set_members
       (List.filter (λ member, negb (String.eqb member.(user) userId))
          this.(members)) this) db.

End Project.

(** ** The HTTP layer *)

(** [res.status(code).json({ success, message })]; a plain [res.json] is 200. *)
Record Response : Type := json {
  statusCode : Z;
  success : bool;
  message : string
}.

(** *** routes/tasks.js *)

Module TaskRoutes.

Import TaskSchema.

(** The fields of the request body that reach a field of the modelled
    document; [None] is an absent ([undefined]) field. *)
Record Body : Type := mkBody {
  body_assignee : option ObjectId;
  body_status : option Status;
  body_progress : option Z
}.

Record Request : Type := mkRequest {
  userId : ObjectId;
  params_id : ObjectId;
  validationErrors_isEmpty : bool;
  body : Body
}.

(** The [updates] object applied to the stored document. *)
Definition apply_updates (b : Body) (task : TaskSchema.t) : TaskSchema.t :=
  let task := match b.(body_assignee) with
              | Some a => set_assignee a task | None => task end in
  let task := match b.(body_status) with
              | Some s => persisted (set_status s task) | None => task end in
  match b.(body_progress) with
  | Some p => set_progress p task | None => task end.

(** [runValidators: true]: the schema's [min]/[max] on [progress]. *)
Definition updates_valid (b : Body) : bool :=
  match b.(body_progress) with
  | Some p => (0 <=? p) && (p <=? 100)
  | None => true
  end.

(** [maxlength] of a label, which no request validator repeats. The labels
    are the strings the schema's [trim] leaves. *)
Definition labels_valid (labels : list string) : bool :=
  forallb (maxlength 20) labels.

(** [router.post("/")]; [newId] is the identifier the store gives the
    document; [projectId], [body_priority], [body_dueDate] and
    [body_labels] are the fields of the body that only this handler reads,
    the due date as [new Date(dueDate)] reads it. The labels are checked
    with the document but not kept in the model of it. *)
Definition post_task (now : Date) (newId : ObjectId) (projectId : ObjectId)
    (body_priority : option Priority) (body_dueDate : option Date)
    (body_labels : list string)
    (req : Request) (db : Db.t) : Response * Db.t :=
  if negb req.(validationErrors_isEmpty) then
    (json 400 false "Validation failed", db)
  else
    match Project.findById projectId db with
    | None => (json 404 false "Project not found", db)
    | Some projectDoc =>
        if negb (ProjectSchema.isMember req.(userId) projectDoc) then
          (json 403 false "Access denied. You are not a member of this project.", db)
        else if match req.(body).(body_assignee) with
                | Some a => negb (ProjectSchema.isMember a projectDoc)
                | None => false
                end then
          (json 400 false "Assignee must be a member of the project", db)
        else
          let task :=
            TaskSchema.mk newId projectId
              (Some (default req.(userId) req.(body).(body_assignee)))
              req.(userId)
              (default todo req.(body).(body_status))
              (default medium body_priority) body_dueDate 0 [] false None None true in
          if negb (labels_valid body_labels) then
            (json 500 false "Server error creating task", db)
          else
            match ValidatedTask.save now task db with
            | Throw _ => (json 500 false "Server error creating task", db)
            | Return (_, db) => (json 201 true "Task created successfully", db)
            end
    end.

(** [router.put("/:id")] *)
Definition put_task (req : Request) (db : Db.t) : Response * Db.t :=
  if negb req.(validationErrors_isEmpty) then
    (json 400 false "Validation failed", db)
  else
    match Task.findById req.(params_id) db with
    | None => (json 404 false "Task not found", db)
    | Some task =>
        match Project.findById task.(project) db with
        | None =>
            (json 403 false "Access denied. You are not a member of this project.", db)
        | Some project =>
            if negb (ProjectSchema.isMember req.(userId) project) then
              (json 403 false "Access denied. You are not a member of this project.", db)
            else if match req.(body).(body_assignee) with
                    | Some a => negb (ProjectSchema.isMember a project)
                    | None => false
                    end then
              (json 400 false "Assignee must be a member of the project", db)
            else if negb (updates_valid req.(body)) then
              (json 500 false "Server error updating task", db)
            else
              (json 200 true "Task updated successfully",
               Task.findByIdAndUpdate req.(params_id) (apply_updates req.(body)) db)
        end
    end.

(** [router.delete("/:id")] *)
Definition delete_task (req : Request) (db : Db.t) : Response * Db.t :=
  match Task.findById req.(params_id) db with
  | None => (json 404 false "Task not found", db)
  | Some task =>
      match Project.findById task.(project) db with
      | None =>
          (json 403 false "Access denied. You are not a member of this project.", db)
      | Some project =>
          if negb (ProjectSchema.isMember req.(userId) project) then
            (json 403 false "Access denied. You are not a member of this project.", db)
          else
            let userRole := ProjectSchema.getUserRole req.(userId) project in
            let isCreator := String.eqb task.(creator) req.(userId) in
            if negb isCreator
               && negb (bool_decide (userRole = Some ProjectSchema.r_owner))
               && negb (bool_decide (userRole = Some ProjectSchema.r_admin))
            then
              (json 403 false
                 "Access denied. Only task creator, project owner, or admin can delete.",
               db)
            else
              (json 200 true "Task deleted successfully",
               Task.findByIdAndDelete req.(params_id) db)
      end
  end.

(** [router.put("/:id/subtasks/:subtaskId")]; the two saves read the clock
    at [now1] and [now2]. *)
Definition put_subtask (now1 now2 : Date) (subtaskId : ObjectId)
    (req : Request) (db : Db.t) : Response * Db.t :=
  match Task.findById req.(params_id) db with
  | None => (json 404 false "Task not found", db)
  | Some task =>
      match Project.findById task.(project) db with
      | None =>
          (json 403 false "Access denied. You are not a member of this project.", db)
      | Some project =>
          if negb (ProjectSchema.isMember req.(userId) project) then
            (json 403 false "Access denied. You are not a member of this project.", db)
          else
            match ValidatedTask.toggleSubtask now1 subtaskId task db with
            | Throw msg =>
                if String.eqb msg "Subtask not found"
                then (json 404 false msg, db)
                else (json 500 false "Server error updating subtask", db)
            | Return (task, db) =>
                match ValidatedTask.updateProgressFromSubtasks now2 task db with
                | Throw _ => (json 500 false "Server error updating subtask", db)
                | Return (_, db) =>
                    (json 200 true "Subtask updated successfully", db)
                end
            end
      end
  end.

End TaskRoutes.

(** *** routes/projects.js *)

Module ProjectRoutes.

Import ProjectSchema.

(** [router.post("/:id/members")]; [userToAdd] is what
    [User.findByEmail(email)] found, [body_role] the optional [role]. *)
Definition post_member (now : Date) (req_userId params_id : ObjectId)
    (validationErrors_isEmpty : bool) (userToAdd : option ObjectId)
    (body_role : option Role) (db : Db.t) : Response * Db.t :=
  if negb validationErrors_isEmpty then
    (json 400 false "Validation failed", db)
  else
    match Project.findById params_id db with
    | None => (json 404 false "Project not found", db)
    | Some project =>
        let userRole := getUserRole req_userId project in
        if negb (bool_decide (userRole = Some r_owner))
           && negb (bool_decide (userRole = Some r_admin))
        then
          (json 403 false
             "Access denied. Only project owner and admins can add members.", db)
        else
          let role := default r_member body_role in
          match userToAdd with
          | None => (json 404 false "User not found with this email", db)
          | Some userToAdd_id =>
              match Project.addMember now userToAdd_id role project db with
              | Throw msg =>
                  if String.eqb msg "User is already a member of this project"
                  then (json 400 false msg, db)
                  else (json 500 false "Server error adding member", db)
              | Return (_, db) => (json 200 true "Member added successfully", db)
              end
          end
    end.

(** [router.delete("/:id/members/:userId")] *)
Definition delete_member (req_userId params_id params_userId : ObjectId)
    (db : Db.t) : Response * Db.t :=
  match Project.findById params_id db with
  | None => (json 404 false "Project not found", db)
  | Some project =>
      let userRole := getUserRole req_userId project in
      let isRemovingSelf := String.eqb params_userId req_userId in
      if negb isRemovingSelf
         && (negb (bool_decide (userRole = Some r_owner))
             && negb (bool_decide (userRole = Some r_admin)))
      then
        (json 403 false
           "Access denied. Only project owner, admins, or the member themselves can remove membership.",
         db)
      else if String.eqb project.(owner) params_userId then
        (json 400 false "Cannot remove project owner from project", db)
      else
        (json 200 true "Member removed successfully",
         (Project.removeMember params_userId project db).2)
  end.

End ProjectRoutes.

(** *** The dashboard [/stats] handler *)

Module Dashboard.

Import TaskSchema.

Record Metrics : Type := mkMetrics {
  completionRate : Z;
  overdueRate : Z;
  productivity : Z
}.

(** The metrics block, from the three counts it reads. *)
Definition metrics (totalTasks completedTasks overdueTasks : Z) : Metrics :=
  let completionRate :=
    if 0 <? totalTasks
    then Math_round
           (Double.mul (Double.div (Number completedTasks) (Number totalTasks))
              (Number 100))
    else 0 in
  let overdueRate :=
    if 0 <? totalTasks
    then Math_round
           (Double.mul (Double.div (Number overdueTasks) (Number totalTasks))
              (Number 100))
    else 0 in
  mkMetrics completionRate overdueRate
    (Math_max 0 (completionRate - overdueRate)).

(** [Task.countDocuments({ $or: [{assignee}, {creator}], isArchived: false, ... })] *)
Definition countDocuments (userId : ObjectId) (extra : TaskSchema.t → bool)
    (db : Db.t) : Z :=
  Z.of_nat
    (length
       (List.filter
          (λ task,
             (bool_decide (task.(assignee) = Some userId)
              || String.eqb task.(creator) userId)
             && negb task.(isArchived) && extra task)
          (map_to_list db.(Db.tasks)).*2)).

(** [router.get("/stats")], the task metrics of the answer. *)
Definition get_stats (now : Date) (userId : ObjectId) (db : Db.t) : Metrics :=
  let totalTasks := countDocuments userId (λ _, true) db in
  let completedTasks :=
    countDocuments userId (λ task, bool_decide (task.(status) = completed)) db in
  let overdueTasks :=
    countDocuments userId
      (λ task,
         match task.(dueDate) with Some d => d <? now | None => false end
         && negb (bool_decide (task.(status) = completed))
         && negb (bool_decide (task.(status) = cancelled))) db in
  metrics totalTasks completedTasks overdueTasks.

End Dashboard.

(** ** models/Task.js: the query statics *)

Module TaskQueries.

Import TaskSchema.

(** The stored tasks, in the order the store lists them. *)
Definition all_tasks (db : Db.t) : list TaskSchema.t :=
  (map_to_list db.(Db.tasks)).*2.

(** [$or: [{ assignee: userId }, { creator: userId }]] *)
Definition of_user (userId : ObjectId) (task : TaskSchema.t) : bool :=
  bool_decide (task.(assignee) = Some userId) || String.eqb task.(creator) userId.

(** [status: { $nin: ["completed", "cancelled"] }] *)
Definition status_open (task : TaskSchema.t) : bool :=
  negb (bool_decide (task.(status) = completed))
  && negb (bool_decide (task.(status) = cancelled)).

(** [dueDate: { $lt: now }]; a task without a due date does not match. *)
Definition due_before (now : Date) (task : TaskSchema.t) : bool :=
  match task.(dueDate) with Some d => d <? now | None => false end.

(** [statics.findOverdue], before [populate]. *)
Definition findOverdue (now : Date) (userId : ObjectId) (db : Db.t)
    : list TaskSchema.t :=
  List.filter
    (λ task, of_user userId task && due_before now task && status_open task
             && negb task.(isArchived))
    (all_tasks db).

End TaskQueries.

(** ** routes/tasks.js: the task list *)

Module TaskList.

Import TaskSchema TaskQueries.

Definition Math_ceil (x : Q) : Z := Qceiling x.

(** [req.query], as the validators let it through: the identifiers are
    well formed, [page] and [limit] are read as integers. *)
Record Query : Type := mkQuery {
  q_project : option ObjectId;
  q_status : option Status;
  q_priority : option Priority;
  q_assignee : option ObjectId;
  q_search : option string;
  q_overdue : option string;
  q_page : option Z;
  q_limit : option Z
}.

Record Pagination : Type := mkPagination {
  currentPage : Z;
  totalPages : Z;
  totalTasks : Z;
  hasNextPage : bool;
  hasPrevPage : bool
}.

(** [query("page").optional().isInt({ min: 1 })] and
    [query("limit").optional().isInt({ min: 1, max: 100 })]. *)
Definition page_valid (q : Query) : bool :=
  match q.(q_page) with Some p => 1 <=? p | None => true end.

Definition limit_valid (q : Query) : bool :=
  match q.(q_limit) with Some n => (1 <=? n) && (n <=? 100) | None => true end.

Definition on_page (k : Z) (q : Query) : Query :=
  mkQuery q.(q_project) q.(q_status) q.(q_priority) q.(q_assignee)
    q.(q_search) q.(q_overdue) (Some k) q.(q_limit).

Definition with_status (s : option Status) (q : Query) : Query :=
  mkQuery q.(q_project) s q.(q_priority) q.(q_assignee)
    q.(q_search) q.(q_overdue) q.(q_page) q.(q_limit).

(** A search string counts when it is present and not empty. *)
Definition searching (q : Query) : option string :=
  match q.(q_search) with
  | Some "" => None
  | Some s => Some s
  | None => None
  end.

Section Handler.

(** The store's text index and its sort, by text score under a search and
    by creation date otherwise. *)
Variable text_matches : string → TaskSchema.t → bool.
Variable sorted : option string → list TaskSchema.t → list TaskSchema.t.

(** The [query] object the handler builds, as a test on a task. *)
Definition matches (now : Date) (userId : ObjectId) (q : Query)
    (task : TaskSchema.t) : bool :=
  let overdue := bool_decide (q.(q_overdue) = Some "true") in
  of_user userId task
  && negb task.(isArchived)
  && match q.(q_project) with
     | Some p => String.eqb task.(project) p | None => true end
  && (if overdue then status_open task
      else match q.(q_status) with
           | Some s => bool_decide (task.(status) = s) | None => true end)
  && match q.(q_priority) with
     | Some p => bool_decide (task.(priority) = p) | None => true end
  && match q.(q_assignee) with
     | Some a => bool_decide (task.(assignee) = Some a) | None => true end
  && (if overdue then due_before now task else true)
  && match searching q with
     | Some s => text_matches s task | None => true end.

(** [router.get("/")] *)
Definition get_tasks (now : Date) (userId : ObjectId)
    (otherErrors_isEmpty : bool) (q : Query) (db : Db.t)
    : Response * option (list TaskSchema.t * Pagination) :=
  if negb (otherErrors_isEmpty && page_valid q && limit_valid q) then
    (json 400 false "Invalid query parameters", None)
  else
    let page := default 1 q.(q_page) in
    let limit := default 20 q.(q_limit) in
    let found := List.filter (matches now userId q) (all_tasks db) in
    let skip := (page - 1) * limit in
    let tasks :=
      take (Z.to_nat limit) (drop (Z.to_nat skip) (sorted (searching q) found)) in
    let totalTasks := Z.of_nat (length found) in
    let totalPages := Math_ceil (Number totalTasks / Number limit) in
    (json 200 true "",
     Some (tasks,
           mkPagination page totalPages totalTasks
             (page <? totalPages) (1 <? page))).

End Handler.

(** The tasks of an answer, none for a refusal, and its page count. *)
Definition page_tasks (out : Response * option (list TaskSchema.t * Pagination))
    : list TaskSchema.t :=
  match out.2 with Some (tasks, _) => tasks | None => [] end.

Definition page_count (out : Response * option (list TaskSchema.t * Pagination))
    : Z :=
  match out.2 with Some (_, pg) => pg.(totalPages) | None => 0 end.

End TaskList.

(** ** middleware/auth.js *)

Module AuthMiddleware.

Record User : Type := mkUser {
  isActive : bool;
  role : string
}.

(** What [jwt.verify(token, secret)] does: it returns the payload, of which
    the middleware reads [userId], or throws an error with one of two
    names, or some other error. *)
Inductive Verified : Type :=
| Decoded (userId : string)
| TokenExpiredError
| JsonWebTokenError
| OtherError.

(** The middleware answers, or hands over with [next()], having set
    [req.userId], to the [userId] of the payload as it is spelt there, and
    [req.user], or neither. *)
Inductive Outcome : Type :=
| Respond (r : Response)
| Next (req_user : option (string * User)).

(** [authHeader.substring(7)] *)
Definition substring_7 (authHeader : string) : string :=
  String.substring 7 (String.length authHeader - 7) authHeader.

Section Verify.

Variable verify : string → Verified.

(** The cast of a string to an ObjectId that [findById] starts with: the
    identifier a well-formed string denotes, none for any other string. *)
Variable castObjectId : string → option ObjectId.

(** [User.findById(id)]: it throws a CastError for an id that cannot be
    cast, and finds the user stored under the identifier otherwise. *)
Definition User_findById (id : string) (users : gmap ObjectId User)
    : Result (option User) :=
  match castObjectId id with
  | Some _id => Return (users !! _id)
  | None => Throw "Cast to ObjectId failed"
  end.

(** [authMiddleware]. An error of [User.findById] is caught with those of
    [jwt.verify]; its name is neither of the two the handler knows, so it
    is thrown again and answered by the outer handler. *)
Definition authMiddleware (authHeader : option string)
    (users : gmap ObjectId User) : Outcome :=
  match authHeader with
  | None => Respond (json 401 false "Access denied. No token provided.")
  | Some authHeader =>
      if negb (String.prefix "Bearer " authHeader) then
        Respond (json 401 false "Access denied. No token provided.")
      else
        let token := substring_7 authHeader in
        if String.eqb token "" then
          Respond (json 401 false "Access denied. Invalid token format.")
        else
          match verify token with
          | Decoded userId =>
              match User_findById userId users with
              | Return None =>
                  Respond (json 401 false "Token is valid but user no longer exists.")
              | Return (Some user) =>
                  if negb user.(isActive) then
                    Respond
                      (json 401 false
                         "Account is deactivated. Please contact support.")
                  else Next (Some (userId, user))
              | Throw _ =>
                  Respond (json 500 false "Server error during authentication.")
              end
          | TokenExpiredError =>
              Respond (json 401 false "Token has expired. Please login again.")
          | JsonWebTokenError =>
              Respond (json 401 false "Invalid token. Please login again.")
          | OtherError =>
              Respond (json 500 false "Server error during authentication.")
          end
  end.

(** [optionalAuth]: every error of the inner block is ignored. *)
Definition optionalAuth (authHeader : option string)
    (users : gmap ObjectId User) : Outcome :=
  match authHeader with
  | Some authHeader =>
      if String.prefix "Bearer " authHeader then
        let token := substring_7 authHeader in
        match verify token with
        | Decoded userId =>
            match User_findById userId users with
            | Return (Some user) =>
                if user.(isActive) then Next (Some (userId, user)) else Next None
            | Return None => Next None
            | Throw _ => Next None
            end
        | _ => Next None
        end
      else Next None
  | None => Next None
  end.

End Verify.

(** [adminOnly], on the [req.user] an earlier middleware left. *)
Definition adminOnly (req_user : option (string * User)) : Outcome :=
  match req_user with
  | Some (_, user) =>
      if negb (String.eqb user.(role) "admin") then
        Respond (json 403 false "Access denied. Admin privileges required.")
      else Next req_user
  | None => Respond (json 403 false "Access denied. Admin privileges required.")
  end.

End AuthMiddleware.

(** ** routes/projects.js: create, update, delete *)

Module ProjectCrud.

Import ProjectSchema.

(** The fields of the body that reach a field of the modelled document,
    and the two that the schema validates and no request validator checks
    as the schema does: [endDate], as [new Date(endDate)] reads it, and
    [tags], as the schema's [trim] leaves them, none when the field is
    absent. *)
Record Body : Type := mkBody {
  body_status : option Status;
  body_progress : option Z;
  body_endDate : option Date;
  body_tags : list string
}.

(** The validator of [endDate]: [!value || value > this.startDate]. On a
    new document [this.startDate] is its default, the clock at the
    creation; under [runValidators] [this] is not a document and
    [this.startDate] is undefined, which no date exceeds. *)
Definition endDate_valid (startDate : option Date) (endDate : option Date)
    : bool :=
  match endDate with
  | None => true
  | Some value =>
      match startDate with
      | Some startDate => startDate <? value
      | None => false
      end
  end.

(** [maxlength] of a tag. *)
Definition tags_valid (tags : list string) : bool :=
  forallb (maxlength 20) tags.


(** The [updates] object applied to the stored document. *)
Definition apply_updates (b : Body) (project : ProjectSchema.t) : ProjectSchema.t :=
  let project := match b.(body_status) with
                 | Some s => set_status s project | None => project end in
  match b.(body_progress) with
  | Some p => set_progress p project | None => project end.

(** [runValidators: true]: the schema's [min]/[max] on [progress], the
    validator of [endDate] and [maxlength] on the tags. *)
Definition updates_valid (b : Body) : bool :=
  match b.(body_progress) with
  | Some p => (0 <=? p) && (p <=? 100)
  | None => true
  end
  && endDate_valid None b.(body_endDate)
  && tags_valid b.(body_tags).


(** [Task.deleteMany({ project })] *)
Definition Task_deleteMany (projectId : ObjectId) (db : Db.t) : Db.t :=
  Db.set_tasks
    (filter (λ kt, kt.2.(TaskSchema.project) ≠ projectId) db.(Db.tasks)) db.

(** [router.delete("/:id")] *)
Definition delete_project (req_userId params_id : ObjectId) (db : Db.t)
    : Response * Db.t :=
  match Project.findById params_id db with
  | None => (json 404 false "Project not found", db)
  | Some project =>
      if negb (String.eqb project.(owner) req_userId) then
        (json 403 false "Access denied. Only project owner can delete.", db)
      else
        let db := Task_deleteMany project.(_id) db in
        (json 200 true "Project and all associated tasks deleted successfully",
         Db.set_projects (delete params_id db.(Db.projects)) db)
  end.

End ProjectCrud.

(** ** The dashboard [/project-progress] handler: task statistics *)

Module ProjectProgress.

Import TaskSchema.

(** The status as the store spells it, the key of [statusCounts]. *)
Definition status_name (s : Status) : string :=
  match s with
  | todo => "todo"
  | in_progress => "in-progress"
  | in_review => "in-review"
  | completed => "completed"
  | cancelled => "cancelled"
  end.

(** A row of the aggregation: [{ _id: status, count }]. *)
Record Stat : Type := mkStat {
  stat_id : Status;
  count : nat
}.

(** [Task.aggregate([{ $match: { project } }, { $group: { _id: "$status",
    count: { $sum: 1 } } }])]: one row for each status that occurs. *)
Definition aggregate_by_status (projectId : ObjectId) (db : Db.t) : list Stat :=
  let tasks := Task.find_project projectId db in
  (λ s, mkStat s (length (List.filter (λ task, bool_decide (task.(status) = s)) tasks)))
    <$> remove_dups (status <$> tasks).

(** [taskStats.forEach((stat) => { statusCounts[stat._id] = stat.count })] *)
Definition statusCounts (taskStats : list Stat) : gmap string nat :=
  fold_left (λ obj stat, <[status_name stat.(stat_id) := stat.(count)]> obj)
    taskStats ∅.

Record TaskStats : Type := mkTaskStats {
  ts_todo : nat;
  ts_inProgress : nat;
  ts_inReview : nat;
  ts_completed : nat;
  ts_cancelled : nat;
  ts_total : nat
}.

(** The [taskStats] object of an enhanced project. *)
Definition taskStats (projectId : ObjectId) (db : Db.t) : TaskStats :=
  let statusCounts := statusCounts (aggregate_by_status projectId db) in
  mkTaskStats
    (default 0%nat (statusCounts !! "todo"))
    (default 0%nat (statusCounts !! "in-progress"))
    (default 0%nat (statusCounts !! "in-review"))
    (default 0%nat (statusCounts !! "completed"))
    (default 0%nat (statusCounts !! "cancelled"))
    (sum_list (map_to_list statusCounts).*2).

End ProjectProgress.

(** ** Auxiliary notions for the statements *)

Module ProjectAux.

Import ProjectSchema.

(** The status the project pre-save hook leaves, from the status it finds
    and the progress once clamped. *)
Definition promoted (s : Status) (clamped : Z) : Status :=
  if bool_decide (clamped = 100) && negb (bool_decide (s = completed))
  then completed
  else if (0 <? clamped) && bool_decide (s = planning) then active
  else s.

End ProjectAux.

Module TaskAux.

Import TaskSchema.

(** A subtask with its completion flag inverted. *)
Definition flipped (s : Subtask) : Subtask :=
  mkSubtask s.(sub_id) s.(title) (negb s.(isCompleted)).

End TaskAux.

(** The sum the arithmetic mean of a list divides. *)
Definition sum_of (l : list Z) : Z := foldr Z.add 0 l.

(** ** A document between load and write: assignments and saves *)

Module Trace.

Import TaskSchema.

Inductive Event : Type :=
| Assign_status (s : Status)
| Assign_progress (p : Z)
| Assign_subtasks (l : list Subtask)
| Save (now : Date).

Definition step (e : Event) (this : TaskSchema.t) : TaskSchema.t :=
  match e with
  | Assign_status s => set_status s this
  | Assign_progress p => set_progress p this
  | Assign_subtasks l => set_subtasks l this
  | Save now => saved now this
  end.

Definition run (es : list Event) (this : TaskSchema.t) : TaskSchema.t :=
  fold_left (λ this e, step e this) es this.

(** The number of events of the trace that change [completedAt]. *)
Fixpoint completedAt_writes (es : list Event) (this : TaskSchema.t) : nat :=
  match es with
  | [] => 0
  | e :: es' =>
      ((if decide ((step e this).(completedAt) = this.(completedAt))
        then 0 else 1)
       + completedAt_writes es' (step e this))%nat
  end.

End Trace.

(** ** Sample data *)

Module Sample.

Import TaskSchema.

Definition ann : ObjectId := "66f1a0000000000000000001".
Definition bob : ObjectId := "66f1a0000000000000000002".
Definition cat : ObjectId := "66f1a0000000000000000003".
Definition dan : ObjectId := "66f1a0000000000000000004".
Definition site : ObjectId := "66f2b0000000000000000001".
Definition draft : ObjectId := "66f3c0000000000000000001".
Definition review : ObjectId := "66f3c0000000000000000002".
Definition sub1 : ObjectId := "66f4d0000000000000000001".
Definition sub2 : ObjectId := "66f4d0000000000000000002".
Definition sub3 : ObjectId := "66f4d0000000000000000003".

(** A project owned by [ann]; [bob] is a viewer, [cat] a plain member and
    [dan] is not on the project. *)
Definition site_project : ProjectSchema.t :=
  ProjectSchema.mk site ann
    [ProjectSchema.mkMember bob ProjectSchema.r_viewer 1000;
     ProjectSchema.mkMember cat ProjectSchema.r_member 2000]
    ProjectSchema.planning 0.

Definition three_subtasks : list Subtask :=
  [mkSubtask sub1 "outline" false;
   mkSubtask sub2 "figures" false;
   mkSubtask sub3 "proofread" false].

(** A task as [router.post("/")] leaves it by default: status todo. *)
Definition draft_todo : TaskSchema.t :=
  TaskSchema.mk draft site (Some ann) ann todo medium None 0 three_subtasks
    false None None false.

Definition draft_in_progress : TaskSchema.t :=
  TaskSchema.mk draft site (Some ann) ann in_progress medium None 0
    three_subtasks false None None false.

(** The same task with a due date that has passed at time 10. *)
Definition draft_overdue : TaskSchema.t :=
  TaskSchema.mk draft site (Some ann) ann in_progress medium (Some 5) 0
    three_subtasks false None None false.

(** A task in progress with a single open subtask. *)
Definition review_one_subtask : TaskSchema.t :=
  TaskSchema.mk review site (Some cat) cat in_progress medium None 0
    [mkSubtask sub1 "read" false] false None None false.

(** Two tasks of the project, at progress 40 and 60. *)
Definition draft_40 : TaskSchema.t :=
  TaskSchema.mk draft site (Some ann) ann in_progress medium None 40 []
    false None None false.

Definition review_60 : TaskSchema.t :=
  TaskSchema.mk review site (Some cat) cat in_review medium None 60 []
    false None None false.


(** Two completed tasks of the project. *)
Definition draft_done : TaskSchema.t :=
  TaskSchema.mk draft site (Some ann) ann completed medium None 100 []
    false (Some 500) None false.

Definition review_done : TaskSchema.t :=
  TaskSchema.mk review site (Some cat) cat completed medium None 100 []
    false (Some 600) None false.

(** A task of the project whose creator, [dan], is not on the project. *)
Definition draft_by_dan : TaskSchema.t :=
  TaskSchema.mk draft site (Some ann) dan in_progress medium None 0 []
    false None None false.

Definition db_of (tasks : list TaskSchema.t) (p : ProjectSchema.t) : Db.t :=
  Db.mk (list_to_map ((λ task, (task.(_id), task)) <$> tasks))
    {[ p.(ProjectSchema._id) := p ]}.

Definition request (userId taskId : ObjectId) (b : TaskRoutes.Body)
    : TaskRoutes.Request :=
  TaskRoutes.mkRequest userId taskId true b.

Definition no_fields : TaskRoutes.Body := TaskRoutes.mkBody None None None.

End Sample.

(** * Properties *)

(** ** Rounding *)

Lemma Math_round_ratio (a b : Z) :
  0 < b → Math_round (Number a / Number b)%Q = (2 * a + b) / (2 * b).
Proof.
  intros Hb. destruct b as [|p|p]; try lia.
  unfold Math_round, Number.
  rewrite (Qfloor_comp _ ((2 * a + Z.pos p) # (2 * p))).
  - reflexivity.
  - unfold Qeq, Qdiv, Qmult, Qinv, Qplus, inject_Z. simpl. lia.
Qed.


(** Two nearest integers of the same quotient are at most one apart. *)
Lemma nearest_integer_close (a b r r' : Z) :
  0 < b → nearest_integer a b r → nearest_integer a b r' → Z.abs (r - r') ≤ 1.
Proof. unfold nearest_integer. intros Hb H1 H2. nia. Qed.

(** Away from a tie, the nearest integer is the one rounding half up gives. *)
Lemma nearest_integer_half_up (a b r : Z) :
  0 < b → nearest_integer a b r → (2 * a + b) mod (2 * b) ≠ 0 →
  r = (2 * a + b) / (2 * b).
Proof.
  unfold nearest_integer. intros Hb Hr Hm.
  pose proof (Z.div_mod (2 * a + b) (2 * b) ltac:(lia)) as Hdm.
  pose proof (Z.mod_pos_bound (2 * a + b) (2 * b) ltac:(lia)) as Hb'.
  nia.
Qed.

(** ** Double precision: the error of a rounding *)

Section DoubleFacts.

Import Double.
Open Scope Q_scope.

Lemma round_half_even_close (x : Q) :
  x - (1 # 2) <= inject_Z (round_half_even x) <= x + (1 # 2).
Proof.
  unfold round_half_even.
  pose proof (Qfloor_le x) as Hl. pose proof (Qlt_floor x) as Hu.
  rewrite inject_Z_plus in Hu. change (inject_Z 1) with 1 in Hu.
  destruct (x - inject_Z (Qfloor x) ?= 1 # 2) eqn:Hc.
  - apply Qeq_alt in Hc. destruct (Z.even (Qfloor x)).
    + lra.
    + rewrite inject_Z_plus. change (inject_Z 1) with 1. lra.
  - apply Qlt_alt in Hc. lra.
  - apply Qgt_alt in Hc. rewrite inject_Z_plus. change (inject_Z 1) with 1. lra.
Qed.

Lemma pow2_pos (e : Z) : 0 < 2 ^ e.
Proof. by apply Qpower_0_lt. Qed.

Lemma pow2_inject (n : Z) : (0 <= n)%Z → 2 ^ n == inject_Z (2 ^ n).
Proof. intros Hn. by rewrite Zpower_Qpower. Qed.

(** A positive rational lies between the powers of two that the sizes of
    its numerator and of its denominator give. *)
Lemma log2_bounds (x : Q) :
  0 < x →
  let d := (Z.log2 (Qnum x) - Z.log2 (Z.pos (Qden x)))%Z in
  2 ^ (d - 1) <= x ∧ x < 2 ^ (d + 1).
Proof.
  intros Hx. destruct x as [a b]. cbn [Qnum Qden].
  assert (Ha : (0 < a)%Z) by (unfold Qlt in Hx; cbn in Hx; lia).
  pose proof (Z.log2_spec a Ha) as [Ha1 Ha2].
  pose proof (Z.log2_spec (Z.pos b) ltac:(lia)) as [Hb1 Hb2].
  pose proof (Z.log2_nonneg a) as Hla.
  pose proof (Z.log2_nonneg (Z.pos b)) as Hlb.
  set (la := Z.log2 a) in *. set (lb := Z.log2 (Z.pos b)) in *.
  split.
  - replace (la - lb - 1)%Z with (la - (lb + 1))%Z by lia.
    rewrite Qpower_minus by done.
    rewrite !pow2_inject by lia.
    apply Qle_shift_div_r.
    + change 0 with (inject_Z 0). rewrite <- Zlt_Qlt. lia.
    + unfold Qle, Qmult, inject_Z. cbn [Qnum Qden].
      rewrite Z.pow_succ_r in Hb2 by lia.
      replace (lb + 1)%Z with (Z.succ lb) by lia. rewrite Z.pow_succ_r by lia. nia.
  - replace (la - lb + 1)%Z with ((la + 1) - lb)%Z by lia.
    rewrite Qpower_minus by done.
    rewrite !pow2_inject by lia.
    apply Qlt_shift_div_l.
    + change 0 with (inject_Z 0). rewrite <- Zlt_Qlt. lia.
    + unfold Qlt, Qmult, inject_Z. cbn [Qnum Qden].
      replace (la + 1)%Z with (Z.succ la) by lia. nia.
Qed.

(** The exponent is the one of the last place: the significand
    [x / 2^e] lies between 2^52 and 2^53. *)
Lemma ulp_exponent_spec (x : Q) :
  0 < x → 2 ^ (ulp_exponent x + 52) <= x ∧ x < 2 ^ (ulp_exponent x + 53).
Proof.
  intros Hx. pose proof (log2_bounds x Hx) as [Hl Hu]. cbn zeta in Hl, Hu.
  unfold ulp_exponent.
  set (d := (Z.log2 (Qnum x) - Z.log2 (Z.pos (Qden x)))%Z) in *.
  destruct (Qle_bool (2 ^ d) x) eqn:Hc.
  - apply Qle_bool_iff in Hc.
    replace (d - 52 + 52)%Z with d by lia.
    replace (d - 52 + 53)%Z with (d + 1)%Z by lia.
    done.
  - assert (Hlt : x < 2 ^ d).
    { apply Qnot_le_lt. intros H. apply Qle_bool_iff in H. congruence. }
    replace (d - 53 + 52)%Z with (d - 1)%Z by lia.
    replace (d - 53 + 53)%Z with d by lia.
    done.
Qed.

(** One rounding moves a value by at most its [unit_roundoff]-th part. *)
Lemma nearest_error (x : Q) :
  0 <= x → x * (1 - unit_roundoff) <= nearest x <= x * (1 + unit_roundoff).
Proof.
  intros Hx. unfold nearest, unit_roundoff.
  destruct (x ?= 0) eqn:Hc.
  - apply Qeq_alt in Hc. rewrite Hc. lra.
  - apply Qlt_alt in Hc. lra.
  - apply Qgt_alt in Hc.
    pose proof (ulp_exponent_spec x Hc) as [Hl _].
    set (e := ulp_exponent x) in *.
    rewrite Qpower_plus in Hl by done.
    change (2 ^ 52) with (4503599627370496 # 1) in Hl.
    pose proof (pow2_pos e) as Hs.
    pose proof (round_half_even_close (x / 2 ^ e)) as [Hm1 Hm2].
    set (m := inject_Z (round_half_even (x / 2 ^ e))) in *.
    set (s := 2 ^ e) in *.
    assert (Hz : x / s * s == x) by (field; lra).
    set (z := x / s) in *.
    assert (H1 : (z - (1 # 2)) * s <= m * s) by (apply Qmult_le_compat_r; lra).
    assert (H2 : m * s <= (z + (1 # 2)) * s) by (apply Qmult_le_compat_r; lra).
    split; lra.
Qed.

Lemma nearest_nonneg (x : Q) : 0 <= x → 0 <= nearest x.
Proof.
  intros Hx. pose proof (nearest_error x Hx) as [H _].
  unfold unit_roundoff in H.
  assert (0 <= x * (1 - (1 # 9007199254740992))) by (apply Qmult_le_0_compat; lra).
  lra.
Qed.

(** [(a / b) * 100] in double precision, for [0 <= a <= b]: within two
    roundings of the exact value. *)
Lemma percent_error (a b : Z) :
  (0 <= a <= b)%Z → (0 < b)%Z →
  let x := inject_Z (100 * a) / inject_Z b in
  let y := mul (div (Number a) (Number b)) (Number 100) in
  0 <= x <= 100
  ∧ x * (1 - unit_roundoff) * (1 - unit_roundoff) <= y
  ∧ y <= x * (1 + unit_roundoff) * (1 + unit_roundoff).
Proof.
  intros Ha Hb. cbn zeta. unfold mul, div, Number.
  assert (HB : 0 < inject_Z b)
    by (change 0 with (inject_Z 0); rewrite <- Zlt_Qlt; lia).
  assert (HA : 0 <= inject_Z a)
    by (change 0 with (inject_Z 0); rewrite <- Zle_Qle; lia).
  assert (HAB : inject_Z a <= inject_Z b) by (rewrite <- Zle_Qle; lia).
  rewrite inject_Z_mult. change (inject_Z 100) with 100.
  set (A := inject_Z a) in *. set (B := inject_Z b) in *.
  assert (Hq : A / B * B == A) by (field; lra).
  set (q := A / B) in *.
  assert (Hx : 100 * A / B == 100 * q) by (unfold q; field; lra).
  rewrite Hx.
  assert (Hq0 : 0 <= q) by (apply Qle_shift_div_l; lra).
  assert (Hq1 : q <= 1) by (apply Qle_shift_div_r; lra).
  pose proof (nearest_error q Hq0) as [H1 H2].
  pose proof (nearest_nonneg q Hq0) as H0.
  set (y1 := nearest q) in *.
  assert (Hy : 0 <= y1 * 100) by lra.
  pose proof (nearest_error (y1 * 100) Hy) as [H3 H4].
  set (y2 := nearest (y1 * 100)) in *.
  unfold unit_roundoff in *.
  split; [lra|]. split.
  - eapply Qle_trans; [|exact H3].
    apply Qmult_le_compat_r; lra.
  - eapply Qle_trans; [exact H4|].
    apply Qmult_le_compat_r; lra.
Qed.

(** The percentage of a part is between 0 and 100. *)
Lemma Math_round_percent_range (a b : Z) :
  (0 <= a <= b)%Z → (0 < b)%Z →
  (0 <= Math_round (mul (div (Number a) (Number b)) (Number 100)) <= 100)%Z.
Proof.
  intros Ha Hb.
  destruct (percent_error a b Ha Hb) as ([Hx0 Hx1] & Hl & Hu).
  set (x := inject_Z (100 * a) / inject_Z b) in *.
  set (y := mul _ _) in *. clearbody x y.
  unfold Math_round.
  pose proof (Qfloor_le (y + (1 # 2))) as Hf1.
  pose proof (Qlt_floor (y + (1 # 2))) as Hf2.
  rewrite inject_Z_plus in Hf2. change (inject_Z 1) with 1 in Hf2.
  set (r := Qfloor (y + (1 # 2))) in *.
  unfold unit_roundoff in *.
  assert (Hy0 : 0 <= y).
  { eapply Qle_trans; [|exact Hl]. repeat apply Qmult_le_0_compat; lra. }
  assert (Hy1 : y <= 100 * (1 + (1 # 9007199254740992))
                       * (1 + (1 # 9007199254740992))).
  { eapply Qle_trans; [exact Hu|]. repeat apply Qmult_le_compat_r; lra. }
  split.
  - assert (H : inject_Z (-1) < inject_Z r)
      by (change (inject_Z (-1)) with (-1 # 1); lra).
    rewrite <- Zlt_Qlt in H. lia.
  - assert (H : inject_Z r < inject_Z 101)
      by (change (inject_Z 101) with (101 # 1); lra).
    rewrite <- Zlt_Qlt in H. lia.
Qed.

(** The percentage is an integer nearest to [100 * a / b]: for a whole of
    fewer than 2^32 parts, the two roundings are too small to carry the
    product over a half-way point, they can only decide a tie. *)
Lemma Math_round_percent_nearest (a b : Z) :
  (0 <= a <= b)%Z → (0 < b < 2 ^ 32)%Z →
  nearest_integer (100 * a) b
    (Math_round (mul (div (Number a) (Number b)) (Number 100))).
Proof.
  intros Ha [Hb Hb32].
  destruct (percent_error a b Ha Hb) as ([Hx0 Hx1] & Hl & Hu).
  set (y := mul _ _) in *.
  unfold Math_round.
  pose proof (Qfloor_le (y + (1 # 2))) as Hf1.
  pose proof (Qlt_floor (y + (1 # 2))) as Hf2.
  rewrite inject_Z_plus in Hf2. change (inject_Z 1) with 1 in Hf2.
  set (r := Qfloor (y + (1 # 2))) in *.
  assert (HB : 0 < inject_Z b)
    by (change 0 with (inject_Z 0); rewrite <- Zlt_Qlt; lia).
  assert (HB32 : inject_Z b < 4294967296)
    by (change 4294967296 with (inject_Z (2 ^ 32)); rewrite <- Zlt_Qlt; lia).
  assert (HA : 0 <= inject_Z a)
    by (change 0 with (inject_Z 0); rewrite <- Zle_Qle; lia).
  assert (HAB : inject_Z a <= inject_Z b) by (rewrite <- Zle_Qle; lia).
  rewrite inject_Z_mult in *. change (inject_Z 100) with 100 in *.
  set (A := inject_Z a) in *. set (B := inject_Z b) in *.
  set (R := inject_Z r) in *.
  assert (Hq : A / B * B == A) by (field; lra).
  assert (Hx : 100 * A / B == 100 * (A / B)) by (field; lra).
  rewrite Hx in *. clear Hx.
  set (q := A / B) in *.
  unfold unit_roundoff in *.
  assert (Hq0 : 0 <= q) by lra.
  assert (Hq1 : q <= 1) by lra.
  assert (Hup : 2 * B * R < 200 * A + B + 1).
  { assert (2 * B * R <= 2 * B * (y + (1 # 2))) by (apply Qmult_le_l; lra).
    assert (2 * B * y
            <= 2 * B * (100 * q * (1 + (1 # 9007199254740992))
                        * (1 + (1 # 9007199254740992))))
      by (apply Qmult_le_l; lra).
    nra. }
  assert (Hlo : 200 * A - B - 1 < 2 * B * R).
  { assert (2 * B * (y + (1 # 2)) < 2 * B * (R + 1)) by (apply Qmult_lt_l; lra).
    assert (2 * B * (100 * q * (1 - (1 # 9007199254740992))
                     * (1 - (1 # 9007199254740992)))
            <= 2 * B * y)
      by (apply Qmult_le_l; lra).
    nra. }
  unfold nearest_integer.
  assert (Hup' : inject_Z (2 * b * r) < inject_Z (200 * a + b + 1)).
  { rewrite !inject_Z_plus, !inject_Z_mult. fold A B R.
    change (inject_Z 2) with 2. change (inject_Z 200) with 200.
    change (inject_Z 1) with 1. lra. }
  assert (Hlo' : inject_Z (200 * a - b - 1) < inject_Z (2 * b * r)).
  { unfold Z.sub. rewrite !inject_Z_plus, !inject_Z_opp, !inject_Z_mult.
    fold A B R.
    change (inject_Z 2) with 2. change (inject_Z 200) with 200.
    change (inject_Z 1) with 1. lra. }
  rewrite <- Zlt_Qlt in Hup', Hlo'. lia.
Qed.

Lemma round_half_even_integer (x : Q) (z : Z) :
  x == inject_Z z → round_half_even x = z.
Proof.
  intros Hx. unfold round_half_even.
  assert (Hf : Qfloor x = z) by (rewrite (Qfloor_comp _ _ Hx); apply Qfloor_Z).
  rewrite Hf.
  assert (Hc : (x - inject_Z z ?= 1 # 2) = Lt).
  { apply Qlt_alt. assert (H0 : x - inject_Z z == 0) by (rewrite Hx; ring).
    rewrite H0. done. }
  by rewrite Hc.
Qed.

(** An integer or a half-integer below 2^52 is a double. *)
Lemma nearest_half_integer (x : Q) (k : Z) :
  x == inject_Z k / 2 → (0 < k < 2 ^ 53)%Z → nearest x == x.
Proof.
  intros Hx [Hk0 Hk1].
  assert (HK0 : 0 < inject_Z k)
    by (change 0 with (inject_Z 0); rewrite <- Zlt_Qlt; lia).
  assert (HK1 : inject_Z k < 9007199254740992)
    by (change 9007199254740992 with (inject_Z (2 ^ 53)); rewrite <- Zlt_Qlt; lia).
  assert (Hx0 : 0 < x) by (rewrite Hx; apply Qlt_shift_div_l; lra).
  assert (Hx1 : x < 2 ^ 52).
  { change (2 ^ 52) with (4503599627370496 # 1). rewrite Hx.
    apply Qlt_shift_div_r; lra. }
  unfold nearest. rewrite (proj1 (Qgt_alt x 0) Hx0).
  pose proof (ulp_exponent_spec x Hx0) as [Hl _].
  set (e := ulp_exponent x) in *.
  assert (He : (e + 52 < 52)%Z).
  { apply (Qpower_lt_compat_l_inv 2); [|done]. eapply Qle_lt_trans; eauto. }
  set (j := (- e - 1)%Z).
  assert (Hj : (0 <= j)%Z) by lia.
  assert (Hpow : 2 ^ e == / (2 * inject_Z (2 ^ j))).
  { replace e with (- (j + 1))%Z by lia.
    rewrite Qpower_opp, Qpower_plus by done.
    rewrite (pow2_inject j Hj). change (2 ^ 1) with 2.
    apply Qinv_comp. ring. }
  assert (HP : 0 < inject_Z (2 ^ j)).
  { change 0 with (inject_Z 0). rewrite <- Zlt_Qlt. by apply Z.pow_pos_nonneg. }
  assert (Hsig : x / 2 ^ e == inject_Z (k * 2 ^ j)).
  { rewrite Hpow, inject_Z_mult, Hx. field. lra. }
  rewrite (round_half_even_integer _ _ Hsig).
  rewrite Hpow, inject_Z_mult, Hx. field. lra.
Qed.

Lemma Qfloor_unique (y : Q) (r : Z) :
  inject_Z r <= y → y < inject_Z r + 1 → Qfloor y = r.
Proof.
  intros H1 H2.
  pose proof (Qfloor_le y) as Hl. pose proof (Qlt_floor y) as Hu.
  rewrite inject_Z_plus in Hu. change (inject_Z 1) with 1 in Hu.
  assert (Ha : inject_Z r < inject_Z (Qfloor y + 1)).
  { rewrite inject_Z_plus. change (inject_Z 1) with 1.
    eapply Qle_lt_trans; eauto. }
  assert (Hb : inject_Z (Qfloor y) < inject_Z (r + 1)).
  { rewrite inject_Z_plus. change (inject_Z 1) with 1.
    eapply Qle_lt_trans; eauto. }
  rewrite <- Zlt_Qlt in Ha, Hb. lia.
Qed.

Lemma Qceiling_unique (y : Q) (c : Z) :
  inject_Z c - 1 < y → y <= inject_Z c → Qceiling y = c.
Proof.
  intros H1 H2. unfold Qceiling.
  rewrite (Qfloor_unique (- y) (- c)); [lia| |].
  - rewrite inject_Z_opp. lra.
  - rewrite inject_Z_opp. lra.
Qed.


End DoubleFacts.

(** ** The task pre-save hook, field by field *)

Section TaskPreSave.

Import TaskSchema.

Lemma preSave_status now this : (preSave now this).(status) = this.(status).
Proof.
  unfold preSave.
  destruct this as [i pr a c s p d g l ar [ca|] [sa|] []]; destruct s; reflexivity.
Qed.

Lemma preSave_progress now this :
  (preSave now this).(progress) =
    if decide (this.(status) = completed) then 100
    else if decide (this.(status) = todo) then 0
    else this.(progress).
Proof.
  unfold preSave.
  destruct this as [i pr a c s p d g l ar [ca|] [sa|] []]; destruct s; reflexivity.
Qed.

Lemma preSave_completedAt now this :
  (preSave now this).(completedAt) =
    if this.(modifiedStatus) && bool_decide (this.(status) = completed)
       && bool_decide (this.(completedAt) = None)
    then Some now else this.(completedAt).
Proof.
  unfold preSave.
  destruct this as [i pr a c s p d g l ar [ca|] [sa|] []]; destruct s; reflexivity.
Qed.

Lemma preSave_subtasks now this : (preSave now this).(subtasks) = this.(subtasks).
Proof.
  unfold preSave.
  destruct this as [i pr a c s p d g l ar [ca|] [sa|] []]; destruct s; reflexivity.
Qed.

Lemma preSave_id now this : (preSave now this).(_id) = this.(_id).
Proof.
  unfold preSave.
  destruct this as [i pr a c s p d g l ar [ca|] [sa|] []]; destruct s; reflexivity.
Qed.

Lemma preSave_project now this : (preSave now this).(project) = this.(project).
Proof.
  unfold preSave.
  destruct this as [i pr a c s p d g l ar [ca|] [sa|] []]; destruct s; reflexivity.
Qed.

(** Once saved, a document that is saved again unchanged is written as is. *)
Lemma saved_fixpoint now now' this : saved now' (saved now this) = saved now this.
Proof.
  destruct this as [i pr a c s p d g l ar [ca|] [sa|] []]; destruct s;
    lazy; reflexivity.
Qed.

Lemma subtasksProgress_ext this this' :
  this'.(subtasks) = this.(subtasks) → subtasksProgress this' = subtasksProgress this.
Proof.
  intros H. unfold subtasksProgress, completedSubtasksCount. by rewrite H.
Qed.

Lemma completedSubtasksCount_le this :
  (completedSubtasksCount this ≤ length this.(subtasks))%nat.
Proof. unfold completedSubtasksCount. apply List.filter_length_le. Qed.

Lemma subtasksProgress_nonempty this :
  this.(subtasks) ≠ [] →
  subtasksProgress this =
    Math_round
      (Double.mul
         (Double.div (Number (Z.of_nat (completedSubtasksCount this)))
            (Number (Z.of_nat (length this.(subtasks)))))
         (Number 100)).
Proof.
  intros Hne. unfold subtasksProgress.
  destruct (decide (length this.(subtasks) = 0%nat)) as [H0|H0]; [|done].
  destruct this.(subtasks); [done | discriminate].
Qed.

(** The derived percentage stays within the bounds the schema puts on
    [progress]. *)
Lemma subtasksProgress_range this : 0 ≤ subtasksProgress this ≤ 100.
Proof.
  destruct (decide (this.(subtasks) = [])) as [Hnil|Hne].
  - unfold subtasksProgress. rewrite Hnil. rewrite decide_True by done. lia.
  - rewrite (subtasksProgress_nonempty _ Hne).
    pose proof (completedSubtasksCount_le this) as Hle.
    assert (Hpos : 0 < Z.of_nat (length this.(subtasks)))
      by (destruct this.(subtasks); [done | cbn; lia]).
    apply Math_round_percent_range; lia.
Qed.

End TaskPreSave.

(** ** Saving a task: what the document and the store hold afterwards *)

Section TaskSave.

Import TaskSchema.

Lemma postSave_tasks doc db : (Task.postSave doc db).(Db.tasks) = db.(Db.tasks).
Proof. unfold Task.postSave. by case_match. Qed.

Lemma save_doc now this db : (Task.save now this db).1 = saved now this.
Proof. reflexivity. Qed.

Lemma save_stored now this db :
  (Task.save now this db).2.(Db.tasks) !! this.(_id) = Some (saved now this).
Proof.
  unfold Task.save. cbn [snd]. rewrite postSave_tasks. cbn.
  unfold saved at 1. cbn. rewrite preSave_id. apply lookup_insert_eq.
Qed.

End TaskSave.

(** ** Status and progress after a save *)

Section StatusProgress.

Import TaskSchema.

(** C2, as the hook implements it. After a save, the written document has
    the status it was saved with; a completed task has progress 100 and a
    todo task has progress 0; under any other status the save keeps the
    progress the document had, whatever it is. The document is the one the
    store then holds. *)
Theorem save_progress_follows_status (now : Date) (this : TaskSchema.t) (db : Db.t) :
  let doc := (Task.save now this db).1 in
  (Task.save now this db).2.(Db.tasks) !! this.(_id) = Some doc
  ∧ doc.(status) = this.(status)
  ∧ (doc.(status) = completed → doc.(progress) = 100)
  ∧ (doc.(status) = todo → doc.(progress) = 0)
  ∧ (doc.(status) ≠ completed → doc.(status) ≠ todo →
     doc.(progress) = this.(progress)).
Proof.
  cbn zeta. rewrite save_doc. split; [apply save_stored|].
  assert (Hs : (saved now this).(status) = this.(status))
    by (unfold saved; cbn; apply preSave_status).
  assert (Hp : (saved now this).(progress) = (preSave now this).(progress))
    by reflexivity.
  rewrite Hs, Hp, preSave_progress.
  repeat split; intros; repeat case_decide; congruence.
Qed.

Lemma save_progress_follows_status_witness :
  ((Task.save 5 Sample.draft_40 (Sample.db_of [] Sample.site_project)).1).(progress)
  = 40.
Proof.
  pose proof (save_progress_follows_status 5 Sample.draft_40
                (Sample.db_of [] Sample.site_project)) as (_ & Hs & _ & _ & H).
  rewrite H; [reflexivity | rewrite Hs; discriminate | rewrite Hs; discriminate].
Defined.

(** C2 as stated fails from right to left: toggling the only subtask of a
    task in progress, through the route, leaves it stored with progress 100
    and status in-progress. *)
Lemma progress_100_not_completed :
  let db := Sample.db_of [Sample.review_one_subtask] Sample.site_project in
  let out :=
    TaskRoutes.put_subtask 10 11 Sample.sub1
      (Sample.request Sample.cat Sample.review Sample.no_fields) db in
  out.1.(statusCode) = 200
  ∧ ∃ task, out.2.(Db.tasks) !! Sample.review = Some task
            ∧ task.(progress) = 100
            ∧ task.(status) = in_progress
            ∧ ¬ (task.(progress) = 100 ↔ task.(status) = completed).
Proof.
  cbn zeta. split; [vm_compute; reflexivity|].
  eexists. split; [vm_compute; reflexivity|].
  cbn. repeat split; try reflexivity. intros [H _]. by specialize (H eq_refl).
Qed.

End StatusProgress.

(** ** The completion timestamp *)

Section CompletedAt.

Import TaskSchema Trace.

Lemma saved_completedAt now this :
  (saved now this).(completedAt) =
    if this.(modifiedStatus) && bool_decide (this.(status) = completed)
       && bool_decide (this.(completedAt) = None)
    then Some now else this.(completedAt).
Proof. unfold saved. cbn. apply preSave_completedAt. Qed.

Lemma step_keeps_completedAt e this d :
  this.(completedAt) = Some d → (step e this).(completedAt) = Some d.
Proof.
  intros H. destruct e as [s|p|l|now]; try (cbn; exact H).
  cbn [step]. rewrite saved_completedAt, H.
  by rewrite (bool_decide_eq_false_2 (Some d = None)), andb_false_r.
Qed.

Lemma run_keeps_completedAt es : ∀ this d,
  this.(completedAt) = Some d → (run es this).(completedAt) = Some d.
Proof.
  induction es as [|e es IH]; intros this d H; [done|].
  cbn. apply IH. by apply step_keeps_completedAt.
Qed.

Lemma step_writes_completedAt e this :
  (step e this).(completedAt) ≠ this.(completedAt) →
  this.(completedAt) = None
  ∧ ∃ now, e = Save now ∧ this.(modifiedStatus) = true
           ∧ this.(status) = completed
           ∧ (step e this).(completedAt) = Some now.
Proof.
  destruct e as [s|p|l|now]; try (cbn; done).
  cbn [step]. rewrite saved_completedAt.
  destruct (modifiedStatus this); cbn; [|done].
  case_bool_decide as Hs; cbn; [|done].
  case_bool_decide as Hc; cbn; [|done].
  intros _. split; [done|]. by exists now.
Qed.

Lemma no_write_once_set es : ∀ this d,
  this.(completedAt) = Some d → completedAt_writes es this = 0%nat.
Proof.
  induction es as [|e es IH]; intros this d H; [done|].
  cbn. rewrite (step_keeps_completedAt e this d H), H.
  rewrite decide_True by done.
  by rewrite (IH _ d (step_keeps_completedAt e this d H)).
Qed.

Lemma at_most_one_write es : ∀ this, (completedAt_writes es this ≤ 1)%nat.
Proof.
  induction es as [|e es IH]; intros this; cbn; [lia|].
  case_decide as Hw.
  - apply IH.
  - destruct (step_writes_completedAt e this Hw) as (_ & now & _ & _ & _ & Hn).
    rewrite (no_write_once_set es _ now Hn). lia.
Qed.

(** C4. A save assigns [completedAt] exactly when the status was changed,
    is completed, and no completion date is set yet, and it assigns the
    time of that save. Over any sequence of status, progress and subtask
    assignments and saves, a date that is set is neither cleared nor
    replaced, so the field is written at most once. *)
Theorem completedAt_assigned_once (es : list Event) (this : TaskSchema.t) :
  (∀ now,
     (saved now this).(completedAt) =
       if this.(modifiedStatus) && bool_decide (this.(status) = completed)
          && bool_decide (this.(completedAt) = None)
       then Some now else this.(completedAt))
  ∧ (∀ d, this.(completedAt) = Some d → (run es this).(completedAt) = Some d)
  ∧ (completedAt_writes es this ≤ 1)%nat.
Proof.
  split; [intros now; apply saved_completedAt|].
  split; [intros d; apply run_keeps_completedAt | apply at_most_one_write].
Qed.

(** A task completed at time 7 is moved back to todo, saved, completed
    again and saved: the date of the first completion stands. *)
Lemma completedAt_assigned_once_witness :
  (run [Assign_status todo; Save 8; Assign_status completed; Save 9]
     (run [Assign_status completed; Save 7] Sample.draft_todo)).(completedAt)
  = Some 7.
Proof.
  apply (completedAt_assigned_once
           [Assign_status todo; Save 8; Assign_status completed; Save 9]
           (run [Assign_status completed; Save 7] Sample.draft_todo)).
  reflexivity.
Defined.

End CompletedAt.

(** ** Progress from subtasks *)

Section SubtaskProgress.

Import TaskSchema.

Lemma updateProgressFromSubtasks_doc now this db :
  (Task.updateProgressFromSubtasks now this db).1 =
    saved now (if (0 <? length this.(subtasks))%nat
               then set_progress (subtasksProgress this) this else this).
Proof. reflexivity. Qed.

Lemma length_pos_nonempty {A} (l : list A) :
  (0 <? length l)%nat = true ↔ l ≠ [].
Proof. destruct l; cbn; split; (done || congruence || discriminate). Qed.

(** C7, as the method and the save it ends with implement it. For a task
    whose status is neither todo nor completed: with subtasks (fewer than
    2^32, the bound of an array), the call leaves progress at
    [subtasksProgress], which is an integer nearest to
    100 * completed / total, and the one that rounding half up gives unless
    that quotient falls half-way between two integers, where the double
    arithmetic decides; without subtasks, the call leaves progress as it
    was, although [subtasksProgress] is 100. Under status todo or
    completed, the save that ends the call sets progress to 0 or 100.
    With 1 of 3 subtasks completed [subtasksProgress] is 33; with 23 of 40,
    half-way between 57 and 58, it is 57. *)
Theorem updateProgressFromSubtasks_progress (now : Date) (this : TaskSchema.t)
    (db : Db.t) :
  let doc := (Task.updateProgressFromSubtasks now this db).1 in
  let total := Z.of_nat (length this.(subtasks)) in
  let done_ := Z.of_nat (completedSubtasksCount this) in
  (this.(status) = todo → doc.(progress) = 0)
  ∧ (this.(status) = completed → doc.(progress) = 100)
  ∧ (this.(status) ≠ todo → this.(status) ≠ completed →
     (this.(subtasks) ≠ [] → total < 2 ^ 32 →
      doc.(progress) = subtasksProgress this
      ∧ nearest_integer (100 * done_) total doc.(progress)
      ∧ ((200 * done_ + total) mod (2 * total) ≠ 0 →
         doc.(progress) = (200 * done_ + total) / (2 * total)))
     ∧ (this.(subtasks) = [] →
        doc.(progress) = this.(progress) ∧ subtasksProgress this = 100))
  ∧ (total = 3 → done_ = 1 → subtasksProgress this = 33)
  ∧ (total = 40 → done_ = 23 → subtasksProgress this = 57).
Proof.
  cbn zeta.
  assert (Hat : ∀ n c v : Z,
            0 < n →
            Math_round (Double.mul (Double.div (Number c) (Number n)) (Number 100)) = v →
            Z.of_nat (length this.(subtasks)) = n →
            Z.of_nat (completedSubtasksCount this) = c →
            subtasksProgress this = v).
  { intros n c v Hn Hv Hl Hc.
    rewrite subtasksProgress_nonempty
      by (destruct this.(subtasks); cbn in *; [lia | done]).
    by rewrite Hl, Hc. }
  assert (Hp : ∀ x, (saved now x).(progress) = (preSave now x).(progress))
    by reflexivity.
  assert (Hst : (if (0 <? length this.(subtasks))%nat
                 then set_progress (subtasksProgress this) this
                 else this).(status) = this.(status)) by (by case_match).
  rewrite updateProgressFromSubtasks_doc, Hp, preSave_progress, Hst.
  split; [intros ->; reflexivity|].
  split; [intros ->; reflexivity|].
  split; [|split; [apply (Hat 3 1 33) | apply (Hat 40 23 57)];
           (done || (vm_compute; reflexivity))].
  intros Ht Hc. rewrite !decide_False by done.
  split.
  - intros Hne H32. apply length_pos_nonempty in Hne as Hlen. rewrite Hlen. cbn.
    split; [done|].
    assert (Hpos : 0 < Z.of_nat (length this.(subtasks)))
      by (destruct this.(subtasks); [done | cbn; lia]).
    pose proof (completedSubtasksCount_le this) as Hle.
    assert (Hn : nearest_integer (100 * Z.of_nat (completedSubtasksCount this))
                   (Z.of_nat (length this.(subtasks))) (subtasksProgress this)).
    { rewrite (subtasksProgress_nonempty _ Hne).
      apply Math_round_percent_nearest; lia. }
    split; [done|]. intros Htie.
    replace (200 * Z.of_nat (completedSubtasksCount this))
      with (2 * (100 * Z.of_nat (completedSubtasksCount this))) in * by lia.
    by apply nearest_integer_half_up.
  - intros Hnil. rewrite Hnil. cbn. split; [done|].
    unfold subtasksProgress. by rewrite Hnil.
Qed.

(** One of three subtasks is completed and the task is in progress:
    [subtasksProgress] is 33 and so is the progress after the call. *)
Lemma updateProgressFromSubtasks_progress_witness :
  let this :=
    set_subtasks
      [mkSubtask Sample.sub1 "outline" true;
       mkSubtask Sample.sub2 "figures" false;
       mkSubtask Sample.sub3 "proofread" false] Sample.draft_in_progress in
  subtasksProgress this = 33
  ∧ ((Task.updateProgressFromSubtasks 12 this
        (Sample.db_of [this] Sample.site_project)).1).(progress) = 33.
Proof.
  cbn zeta. split; [vm_compute; reflexivity|].
  match goal with
  | |- (?d.1).(progress) = _ =>
      match d with
      | Task.updateProgressFromSubtasks ?n ?t ?db =>
          pose proof (updateProgressFromSubtasks_progress n t db) as (_ & _ & H & _)
      end
  end.
  destruct H as [H _]; [discriminate | discriminate |].
  destruct H as (_ & _ & H); [discriminate | cbn; lia |].
  rewrite H; [reflexivity | vm_compute; discriminate].
Defined.

(** Where the quotient falls half-way the double arithmetic decides: 23 of
    40 subtasks are 57.5 percent, the quotient 23/40 is rounded down to a
    double, the product by 100 stays below 57.5, and the progress is 57;
    1 of 8 is 12.5 percent exactly in doubles too, and the progress is 13. *)
Example subtasksProgress_at_a_tie :
  let some_done (c n : nat) :=
    set_subtasks
      (replicate c (mkSubtask Sample.sub1 "step" true)
       ++ replicate (n - c) (mkSubtask Sample.sub2 "step" false))
      Sample.draft_in_progress in
  subtasksProgress (some_done 23 40)%nat = 57
  ∧ (200 * 23 + 40) / (2 * 40) = 58
  ∧ subtasksProgress (some_done 1 8)%nat = 13.
Proof. cbn zeta. repeat split; vm_compute; reflexivity. Qed.

(** C7 as stated fails on a task in its default status. One of the three
    subtasks of a todo task is toggled through the route: the derived
    value is 33, the stored progress is 0. *)
Lemma todo_task_progress_not_from_subtasks :
  let db := Sample.db_of [Sample.draft_todo] Sample.site_project in
  let out :=
    TaskRoutes.put_subtask 10 11 Sample.sub1
      (Sample.request Sample.ann Sample.draft Sample.no_fields) db in
  out.1.(statusCode) = 200
  ∧ ∃ task, out.2.(Db.tasks) !! Sample.draft = Some task
            ∧ completedSubtasksCount task = 1%nat
            ∧ length task.(subtasks) = 3%nat
            ∧ subtasksProgress task = 33
            ∧ task.(progress) = 0.
Proof.
  cbn zeta. split; [vm_compute; reflexivity|].
  eexists. split; [vm_compute; reflexivity|].
  repeat split; reflexivity.
Qed.

End SubtaskProgress.

(** ** Repeating the recomputation *)

Section Idempotence.

Import TaskSchema.

Lemma find_project_tasks pid db db' :
  db'.(Db.tasks) = db.(Db.tasks) → Task.find_project pid db' = Task.find_project pid db.
Proof. intros H. unfold Task.find_project. by rewrite H. Qed.

Lemma postSave_idempotent doc db :
  Task.postSave doc (Task.postSave doc db) = Task.postSave doc db.
Proof.
  unfold Task.postSave at 1.
  rewrite (find_project_tasks _ db (Task.postSave doc db)) by apply postSave_tasks.
  unfold Task.postSave.
  destruct (0 <? length (Task.find_project (project doc) db))%nat; [|done].
  destruct db as [ts ps]. unfold Db.set_projects. cbn. f_equal.
  apply alter_id. intros x. rewrite lookup_alter_eq.
  destruct (ps !! project doc) as [y|]; cbn; [|done].
  by intros [= <-].
Qed.

Lemma save_saved_again now now' this db :
  Task.save now' (Task.save now this db).1 (Task.save now this db).2
  = Task.save now this db.
Proof.
  unfold Task.save at 1. rewrite save_doc, saved_fixpoint.
  unfold Task.save. cbn [snd]. f_equal.
  set (doc := saved now this).
  set (db1 := Db.set_tasks (<[_id doc:=doc]> (Db.tasks db)) db).
  assert (Hw : Db.set_tasks (<[_id doc:=doc]> (Db.tasks (Task.postSave doc db1)))
                 (Task.postSave doc db1) = Task.postSave doc db1).
  { rewrite postSave_tasks.
    replace (<[_id doc:=doc]> (Db.tasks db1)) with (Db.tasks (Task.postSave doc db1)).
    - by destruct (Task.postSave doc db1).
    - rewrite postSave_tasks. subst db1. cbn. by rewrite insert_insert_eq. }
  rewrite Hw. apply postSave_idempotent.
Qed.

Lemma saved_set_progress now now' p this :
  saved now' (set_progress p (saved now (set_progress p this)))
  = saved now (set_progress p this).
Proof.
  destruct this as [i pr a c s q d g l ar [ca|] [sa|] []]; destruct s;
    lazy; reflexivity.
Qed.

Lemma save_ext now now' this this' db :
  saved now this = saved now' this' → Task.save now this db = Task.save now' this' db.
Proof. intros H. unfold Task.save. by rewrite H. Qed.

(** C8. A second call of [updateProgressFromSubtasks], on the document and
    store the first call produced, gives the same progress; it gives the
    same document and the same store altogether. *)
Theorem updateProgressFromSubtasks_idempotent (now1 now2 : Date)
    (this : TaskSchema.t) (db : Db.t) :
  let once := Task.updateProgressFromSubtasks now1 this db in
  let twice := Task.updateProgressFromSubtasks now2 once.1 once.2 in
  twice.1.(progress) = once.1.(progress) ∧ twice = once.
Proof.
  cbn zeta.
  assert (H : Task.updateProgressFromSubtasks now2
                (Task.updateProgressFromSubtasks now1 this db).1
                (Task.updateProgressFromSubtasks now1 this db).2
              = Task.updateProgressFromSubtasks now1 this db);
    [|by rewrite H].
  unfold Task.updateProgressFromSubtasks.
  destruct (0 <? length this.(subtasks))%nat eqn:Hlen.
  - set (sp := subtasksProgress this).
    rewrite save_doc.
    assert (Hsub : (saved now1 (set_progress sp this)).(subtasks) = this.(subtasks))
      by (unfold saved; cbn; by rewrite preSave_subtasks).
    rewrite Hsub, Hlen, (subtasksProgress_ext this _ Hsub). fold sp.
    rewrite (save_ext now2 now2 _ (saved now1 (set_progress sp this)))
      by (by rewrite saved_set_progress, saved_fixpoint).
    rewrite <- (save_doc now1 (set_progress sp this) db) at 1.
    apply save_saved_again.
  - rewrite save_doc.
    assert (Hsub : (saved now1 this).(subtasks) = this.(subtasks))
      by (unfold saved; cbn; by rewrite preSave_subtasks).
    rewrite Hsub, Hlen.
    rewrite <- (save_doc now1 this db) at 1.
    apply save_saved_again.
Qed.

End Idempotence.

(** ** The project's aggregate progress *)

Section AggregateProgress.

Import TaskSchema.

Lemma fold_left_progress (l : list TaskSchema.t) : ∀ a,
  fold_left (λ sum task, sum + task.(progress)) l a = a + sum_of (progress <$> l).
Proof.
  unfold sum_of. induction l as [|x l IH]; intros a; cbn; [lia|]. rewrite IH. lia.
Qed.

(** The value the hook writes. *)
Lemma postSave_nonempty doc db :
  Task.find_project doc.(project) db ≠ [] →
  let tasks := Task.find_project doc.(project) db in
  let average :=
    Math_round (Number (sum_of (progress <$> tasks))
                / Number (Z.of_nat (length tasks)))%Q in
  Task.postSave doc db =
    Db.set_projects
      (alter (ProjectSchema.set_progress average) doc.(project) db.(Db.projects)) db.
Proof.
  intros Hne. cbn zeta. unfold Task.postSave.
  apply length_pos_nonempty in Hne. rewrite Hne.
  by rewrite fold_left_progress, Z.add_0_l.
Qed.

Lemma postSave_empty doc db :
  Task.find_project doc.(project) db = [] → Task.postSave doc db = db.
Proof. intros H. unfold Task.postSave. by rewrite H. Qed.

Lemma saved_in_find_project now this db :
  saved now this
  ∈ Task.find_project this.(project) (Task.save now this db).2.
Proof.
  unfold Task.save. cbn [snd].
  rewrite (find_project_tasks _ _ _ (postSave_tasks _ _)).
  unfold Task.find_project. cbn.
  apply list_elem_of_In, List.filter_In. split.
  - apply list_elem_of_In, list_elem_of_fmap.
    exists (_id (saved now this), saved now this). split; [done|].
    apply elem_of_map_to_list, lookup_insert_eq.
  - unfold saved. cbn. rewrite preSave_project. apply String.eqb_refl.
Qed.

(** The tasks found for a project are the stored documents that name it;
    a deleted task is no longer stored, an archived one still is. *)
Lemma find_project_spec pid db (task : TaskSchema.t) :
  task ∈ Task.find_project pid db
  ↔ ∃ id, db.(Db.tasks) !! id = Some task ∧ task.(project) = pid.
Proof.
  unfold Task.find_project.
  rewrite list_elem_of_In, List.filter_In, <- list_elem_of_In, list_elem_of_fmap.
  rewrite String.eqb_eq. split.
  - intros [([id x] & -> & Hin) Hp]. apply elem_of_map_to_list in Hin.
    by exists id.
  - intros (id & Hl & Hp). split; [|done].
    exists (id, task). split; [done|]. by apply elem_of_map_to_list.
Qed.

Lemma findByIdAndDelete_lookup id db :
  (Task.findByIdAndDelete id db).(Db.tasks) !! id = None.
Proof. unfold Task.findByIdAndDelete. cbn. apply lookup_delete_eq. Qed.

(** After a task save the stored project has the rounded mean of the
    progress of the tasks stored for it, and is otherwise as before. *)
Lemma save_writes_rounded_mean now this db p :
  db.(Db.projects) !! this.(project) = Some p →
  let db' := (Task.save now this db).2 in
  let tasks := Task.find_project this.(project) db' in
  tasks ≠ []
  ∧ db'.(Db.projects) !! this.(project)
    = Some (ProjectSchema.set_progress
              (Math_round (Number (sum_of (progress <$> tasks))
                           / Number (Z.of_nat (length tasks)))%Q) p).
Proof.
  intros Hp. cbn zeta.
  pose proof (saved_in_find_project now this db) as Hin.
  set (db' := (Task.save now this db).2) in *.
  set (tasks := Task.find_project this.(project) db') in *.
  assert (Hne : tasks ≠ [])
    by (intros E; rewrite E in Hin; by apply not_elem_of_nil in Hin).
  split; [done|].
  subst db'. unfold Task.save. cbn [snd].
  set (doc := saved now this).
  set (db1 := Db.set_tasks _ db).
  assert (Hpr : doc.(project) = this.(project))
    by (subst doc; unfold saved; cbn; apply preSave_project).
  assert (Ht : Task.find_project doc.(project) db1 = tasks).
  { subst tasks. rewrite Hpr. symmetry. apply find_project_tasks.
    unfold Task.save. cbn [snd]. apply postSave_tasks. }
  rewrite postSave_nonempty by (by rewrite Ht).
  cbn zeta. rewrite Ht. unfold Db.set_projects. cbn [Db.projects].
  rewrite Hpr, lookup_alter_eq.
  subst db1. cbn [Db.projects Db.set_tasks]. rewrite Hp. reflexivity.
Qed.





End AggregateProgress.

(** ** Who may update a task *)

Section TaskAccess.

Import TaskSchema TaskRoutes.

Lemma existsb_find {A} (f : A → bool) (l : list A) :
  existsb f l = true ↔ is_Some (List.find f l).
Proof.
  induction l as [|x l IH]; cbn.
  - split; [done | by intros [? ?]].
  - destruct (f x); cbn; [split; eauto | exact IH].
Qed.

(** [isMember] holds exactly of the users [getUserRole] gives a role. *)
Lemma isMember_getUserRole userId p :
  ProjectSchema.isMember userId p = true
  ↔ is_Some (ProjectSchema.getUserRole userId p).
Proof.
  unfold ProjectSchema.isMember, ProjectSchema.getUserRole.
  destruct (String.eqb (ProjectSchema.owner p) userId).
  - rewrite orb_true_r. split; eauto.
  - rewrite orb_false_r, existsb_find.
    destruct (List.find _ _); split; intros [? ?]; eauto; done.
Qed.

(** C1, as the handler implements it. For a well-formed update of a stored
    task, the answer is the authorization denial (403) exactly when the
    requester has no role on the task's project, or the project is gone; a
    denial changes nothing. Whoever has a role, viewer and plain member
    included, passes the check, and the task's creator plays no part. *)
Theorem put_task_access (req : Request) (db : Db.t) (task : TaskSchema.t) :
  req.(validationErrors_isEmpty) = true →
  Task.findById req.(params_id) db = Some task →
  let out := put_task req db in
  (out.1.(statusCode) ≠ 403
   ↔ ∃ p, Project.findById task.(project) db = Some p
          ∧ is_Some (ProjectSchema.getUserRole req.(userId) p))
  ∧ (out.1.(statusCode) = 403 → out.2 = db)
  ∧ (∀ p, Project.findById task.(project) db = Some p →
          (ProjectSchema.getUserRole req.(userId) p = Some ProjectSchema.r_member
           ∨ ProjectSchema.getUserRole req.(userId) p = Some ProjectSchema.r_viewer) →
          out.1.(statusCode) ≠ 403).
Proof.
  intros Hv Ht. cbn zeta. unfold put_task. rewrite Hv, Ht. cbn [negb].
  destruct (Project.findById (project task) db) as [p|] eqn:Hp.
  - destruct (ProjectSchema.isMember (userId req) p) eqn:Hm; cbn [negb].
    + apply isMember_getUserRole in Hm.
      assert (Hok : (if match body_assignee (body req) with
                        | Some a => negb (ProjectSchema.isMember a p)
                        | None => false
                        end
                     then (json 400 false "Assignee must be a member of the project", db)
                     else if negb (updates_valid (body req))
                     then (json 500 false "Server error updating task", db)
                     else (json 200 true "Task updated successfully",
                           Task.findByIdAndUpdate (params_id req)
                             (apply_updates (body req)) db)).1.(statusCode) ≠ 403)
        by (repeat case_match; cbn; lia).
      split; [|split].
      * split; [intros _; eauto | intros _; exact Hok].
      * intros E. by destruct Hok.
      * intros _ _ _. exact Hok.
    + assert (Hn : ¬ is_Some (ProjectSchema.getUserRole (userId req) p)).
      { rewrite <- isMember_getUserRole, Hm. discriminate. }
      cbn. split; [|split].
      * split; [done|]. intros (p' & [= <-] & Hr). by destruct Hn.
      * done.
      * intros p' [= <-] [Hr|Hr]; destruct Hn; rewrite Hr; eauto.
  - cbn. split; [|split].
    + split; [done|]. by intros (p & ? & _).
    + done.
    + by intros p.
Qed.

(** [bob], a viewer who did not create the task, sends an update. *)
Lemma put_task_access_witness :
  (put_task (Sample.request Sample.bob Sample.draft
               (mkBody None (Some completed) None))
     (Sample.db_of [Sample.draft_todo] Sample.site_project)).1.(statusCode) ≠ 403.
Proof.
  apply (put_task_access
           (Sample.request Sample.bob Sample.draft (mkBody None (Some completed) None))
           (Sample.db_of [Sample.draft_todo] Sample.site_project)
           Sample.draft_todo eq_refl eq_refl).
  exists Sample.site_project. split; [reflexivity|]. by exists ProjectSchema.r_viewer.
Defined.

(** C1 as stated fails in both directions. [bob] is a viewer and not the
    creator: his update is accepted and stored. [dan] created the task but
    has no role on the project: his update is denied. *)
Lemma viewer_updates_and_creator_is_denied :
  let by_bob :=
    put_task (Sample.request Sample.bob Sample.draft (mkBody None (Some completed) None))
      (Sample.db_of [Sample.draft_todo] Sample.site_project) in
  let by_dan :=
    put_task (Sample.request Sample.dan Sample.draft (mkBody None (Some completed) None))
      (Sample.db_of [Sample.draft_by_dan] Sample.site_project) in
  (ProjectSchema.getUserRole Sample.bob Sample.site_project = Some ProjectSchema.r_viewer
   ∧ Sample.draft_todo.(creator) ≠ Sample.bob
   ∧ by_bob.1 = json 200 true "Task updated successfully"
   ∧ status <$> by_bob.2.(Db.tasks) !! Sample.draft = Some completed)
  ∧ (Sample.draft_by_dan.(creator) = Sample.dan
     ∧ by_dan.1.(statusCode) = 403).
Proof.
  cbn zeta. repeat split; try (vm_compute; reflexivity). discriminate.
Qed.

(** The rule the update route does not apply is the one of the delete
    route: among the members of the project, it refuses exactly those who
    neither created the task nor are owner or admin. *)
Lemma delete_task_access (req : Request) (db : Db.t) (task : TaskSchema.t)
    (p : ProjectSchema.t) :
  Task.findById req.(params_id) db = Some task →
  Project.findById task.(project) db = Some p →
  ProjectSchema.isMember req.(userId) p = true →
  (delete_task req db).1.(statusCode) = 200
  ↔ (task.(creator) = req.(userId)
     ∨ ProjectSchema.getUserRole req.(userId) p = Some ProjectSchema.r_owner
     ∨ ProjectSchema.getUserRole req.(userId) p = Some ProjectSchema.r_admin).
Proof.
  intros Ht Hp Hm. unfold delete_task. rewrite Ht, Hp, Hm. cbn [negb].
  destruct (String.eqb (creator task) (userId req)) eqn:Hc.
  - apply String.eqb_eq in Hc. cbn. split; [by left | done].
  - apply String.eqb_neq in Hc. cbn [negb andb].
    repeat case_bool_decide; cbn; split; try done; try tauto;
      intros [?|[?|?]]; done.
Qed.

(** A task created as completed gets its completion date and progress 100
    at that first save, and the project's progress follows. *)
Example post_task_completed :
  let out :=
    post_task 900 Sample.draft Sample.site None None []
      (Sample.request Sample.cat Sample.draft (mkBody None (Some completed) None))
      (Sample.db_of [] Sample.site_project) in
  out.1.(statusCode) = 201
  ∧ (λ task, (task.(creator), task.(assignee), task.(progress), task.(completedAt)))
      <$> out.2.(Db.tasks) !! Sample.draft
    = Some (Sample.cat, Some Sample.cat, 100, Some 900)
  ∧ ProjectSchema.progress <$> out.2.(Db.projects) !! Sample.site = Some 100.
Proof. cbn zeta. repeat split; vm_compute; reflexivity. Qed.

End TaskAccess.

(** ** Adding and removing members *)

Section Membership.

Import ProjectSchema.

Lemma preSave_members this : (preSave this).(members) = this.(members).
Proof.
  unfold preSave, set_progress, set_status. repeat case_match; reflexivity.
Qed.

Lemma preSave_owner this : (preSave this).(owner) = this.(owner).
Proof.
  unfold preSave, set_progress, set_status. repeat case_match; reflexivity.
Qed.

(** [addMember] throws exactly when the user is in the members list. *)
Lemma addMember_throws_iff now userId role this db :
  Project.addMember now userId role this db
    = Throw "User is already a member of this project"
  ↔ ∃ member, member ∈ this.(members) ∧ member.(user) = userId.
Proof.
  unfold Project.addMember.
  destruct (List.find _ _) as [m|] eqn:Hf.
  - split; [intros _ | done].
    apply List.find_some in Hf as [Hin Heq].
    exists m. split; [by apply list_elem_of_In | by apply String.eqb_eq].
  - split; [done|]. intros (m & Hin & Heq).
    apply list_elem_of_In in Hin.
    pose proof (List.find_none _ _ Hf m Hin) as Hn. cbn in Hn.
    apply String.eqb_neq in Hn. done.
Qed.

(** A second [addMember] of the same user, on the project the first one
    returned, throws. *)
Lemma addMember_twice now now' userId role role' this db p1 db1 :
  Project.addMember now userId role this db = Return (p1, db1) →
  Project.addMember now' userId role' p1 db1
    = Throw "User is already a member of this project".
Proof.
  unfold Project.addMember at 1.
  destruct (List.find _ (members this)) eqn:Hf; [done|].
  intros [= <- <-]. apply addMember_throws_iff.
  exists (mkMember userId role now). split; [|done].
  rewrite preSave_members. cbn. apply elem_of_app. right. apply list_elem_of_singleton. done.
Qed.

(** C5, the failing call. The owner of a project that has no member entry
    for her sends her own address to the add-member route: [addMember] does
    not throw, the route answers 200 and the stored project now lists its
    owner among the members, while [isMember] already counted her a member
    before the call. *)
Theorem addMember_accepts_owner :
  let db := Sample.db_of [] Sample.site_project in
  let out :=
    ProjectRoutes.post_member 3000 Sample.ann Sample.site true (Some Sample.ann)
      None db in
  isMember Sample.ann Sample.site_project = true
  ∧ out.1 = json 200 true "Member added successfully"
  ∧ members <$> out.2.(Db.projects) !! Sample.site
    = Some (Sample.site_project.(members) ++ [mkMember Sample.ann r_member 3000]).
Proof. cbn zeta. repeat split; vm_compute; reflexivity. Qed.

(** The guard of the remove route, for a target that is the owner. *)
Lemma delete_member_owner_response req_userId params_id db p :
  Project.findById params_id db = Some p →
  ProjectRoutes.delete_member req_userId params_id p.(owner) db =
    (if bool_decide (getUserRole req_userId p = Some r_owner)
        || bool_decide (getUserRole req_userId p = Some r_admin)
     then json 400 false "Cannot remove project owner from project"
     else json 403 false
            "Access denied. Only project owner, admins, or the member themselves can remove membership.",
     db).
Proof.
  intros Hp. unfold ProjectRoutes.delete_member. rewrite Hp.
  rewrite String.eqb_refl.
  destruct (String.eqb (owner p) req_userId) eqn:Heq.
  - assert (Hr : getUserRole req_userId p = Some r_owner)
      by (unfold getUserRole; by rewrite Heq).
    rewrite Hr. reflexivity.
  - cbn [negb andb].
    destruct (bool_decide (getUserRole req_userId p = Some r_owner));
      destruct (bool_decide (getUserRole req_userId p = Some r_admin)); reflexivity.
Qed.

(** C6, as the route implements it. Asked to remove the owner of a stored
    project, the route never succeeds and leaves the store as it was. It
    answers the conflict, 400 "Cannot remove project owner from project",
    when the requester is the owner or an admin of the project, and the
    authorization denial, 403, for every other requester. *)
Theorem delete_member_owner (req_userId params_id : ObjectId) (db : Db.t)
    (p : ProjectSchema.t) :
  Project.findById params_id db = Some p →
  let out := ProjectRoutes.delete_member req_userId params_id p.(owner) db in
  let privileged :=
    getUserRole req_userId p = Some r_owner
    ∨ getUserRole req_userId p = Some r_admin in
  out.2 = db
  ∧ out.1.(success) = false
  ∧ (privileged →
     out.1 = json 400 false "Cannot remove project owner from project")
  ∧ (¬ privileged → out.1.(statusCode) = 403).
Proof.
  intros Hp. cbn zeta. rewrite (delete_member_owner_response _ _ _ _ Hp).
  cbn [fst snd]. split; [done|].
  repeat case_bool_decide; cbn; repeat split; try done; intros; tauto.
Qed.

Lemma delete_member_owner_witness :
  (ProjectRoutes.delete_member Sample.ann Sample.site Sample.ann
     (Sample.db_of [] Sample.site_project)).1
  = json 400 false "Cannot remove project owner from project".
Proof.
  apply (delete_member_owner Sample.ann Sample.site
           (Sample.db_of [] Sample.site_project) Sample.site_project eq_refl).
  left. reflexivity.
Defined.

(** C6 as stated fails for a requester without privilege, and for the
    method on its own. [bob], a viewer, asks to remove the owner: the
    answer is the authorization denial, not the conflict. Called directly,
    [removeMember] with the owner's id returns normally, and drops the
    owner's entry from a members list that has one. *)
Lemma remove_owner_not_always_conflict :
  let db := Sample.db_of [] Sample.site_project in
  let listed :=
    set_members (mkMember Sample.ann r_member 3000 :: Sample.site_project.(members))
      Sample.site_project in
  (ProjectRoutes.delete_member Sample.bob Sample.site Sample.ann db).1.(statusCode)
    = 403
  ∧ (Project.removeMember Sample.ann listed db).1.(members)
    = Sample.site_project.(members)
  ∧ (Project.removeMember Sample.ann listed db).1.(members) ≠ listed.(members).
Proof. cbn zeta. repeat split; try (vm_compute; reflexivity). discriminate. Qed.

End Membership.

(** ** Dashboard metrics *)

Section DashboardMetrics.

Import Dashboard.

Lemma metrics_zero_total completedTasks overdueTasks :
  metrics 0 completedTasks overdueTasks = mkMetrics 0 0 0.
Proof. reflexivity. Qed.

Lemma metrics_productivity totalTasks completedTasks overdueTasks :
  let m := metrics totalTasks completedTasks overdueTasks in
  m.(productivity) = Z.max 0 (m.(completionRate) - m.(overdueRate)).
Proof. reflexivity. Qed.

(** C9. With no task counted, the completion rate and the overdue rate are
    both 0: the guard returns 0 before any quotient is formed. For every
    input, the productivity is the larger of 0 and the difference of the
    two rates, hence not negative. Both hold of the metrics block on any
    three counts and of the handler on any store. *)
Theorem dashboard_metrics_safe :
  (∀ totalTasks completedTasks overdueTasks,
     totalTasks = 0 →
     (metrics totalTasks completedTasks overdueTasks).(completionRate) = 0
     ∧ (metrics totalTasks completedTasks overdueTasks).(overdueRate) = 0)
  ∧ (∀ totalTasks completedTasks overdueTasks,
       let m := metrics totalTasks completedTasks overdueTasks in
       m.(productivity) = Z.max 0 (m.(completionRate) - m.(overdueRate))
       ∧ 0 ≤ m.(productivity))
  ∧ (∀ now userId db,
       let m := get_stats now userId db in
       (countDocuments userId (λ _, true) db = 0 →
        m.(completionRate) = 0 ∧ m.(overdueRate) = 0)
       ∧ 0 ≤ m.(productivity)).
Proof.
  split; [|split].
  - intros t c o ->. by rewrite metrics_zero_total.
  - intros t c o. cbn zeta. rewrite metrics_productivity. split; [done | lia].
  - intros now userId db. cbn zeta. unfold get_stats. split.
    + intros ->. by rewrite metrics_zero_total.
    + rewrite metrics_productivity. lia.
Qed.

(** [dan] has no task in a store that holds two tasks of other users. *)
Lemma dashboard_metrics_safe_witness :
  (get_stats 50 Sample.dan
     (Sample.db_of [Sample.draft_40; Sample.review_60] Sample.site_project)).(completionRate)
  = 0.
Proof.
  destruct dashboard_metrics_safe as (_ & _ & H).
  destruct (H 50 Sample.dan
              (Sample.db_of [Sample.draft_40; Sample.review_60] Sample.site_project))
    as [H0 _].
  apply H0. vm_compute. reflexivity.
Defined.

End DashboardMetrics.

(** ** The project pre-save hook *)

Section ProjectPreSave.

Import ProjectSchema.

(** The progress once clamped into the range from 0 to 100. *)
Lemma preSave_progress_clamped this :
  (preSave this).(progress) = Z.min 100 (Z.max 0 this.(progress)).
Proof.
  unfold preSave, set_progress, set_status.
  repeat (case_match; cbn in * ); lia.
Qed.

Lemma preSave_status_promoted this :
  let clamped := Z.min 100 (Z.max 0 this.(progress)) in
  (preSave this).(status) =
    if bool_decide (clamped = 100) && negb (bool_decide (this.(status) = completed))
    then completed
    else if (0 <? clamped) && bool_decide (this.(status) = planning)
    then active
    else this.(status).
Proof.
  cbn zeta. unfold preSave.
  assert (Hc : (let this0 := if this.(progress) <? 0 then set_progress 0 this else this in
                if 100 <? this0.(progress) then set_progress 100 this0 else this0)
               = set_progress (Z.min 100 (Z.max 0 this.(progress))) this).
  { cbn zeta. destruct this as [i o m s p]. unfold set_progress. cbn.
    repeat (case_match; cbn in * ); f_equal; lia. }
  cbn zeta in Hc. rewrite Hc. cbn [progress status set_progress].
  repeat case_match; reflexivity.
Qed.

(** A task save changes the status of no stored project. *)
Lemma save_keeps_project_status now task db id :
  status <$> (Task.save now task db).2.(Db.projects) !! id
  = status <$> db.(Db.projects) !! id.
Proof.
  unfold Task.save. cbn [snd]. unfold Task.postSave.
  destruct (0 <? _)%nat; [|done].
  unfold Db.set_projects, Db.set_tasks. cbn [Db.projects].
  destruct (decide (id = TaskSchema.project (TaskSchema.saved now task))) as [->|Hne].
  - rewrite lookup_alter_eq. by destruct (Db.projects db !! _).
  - by rewrite lookup_alter_ne.
Qed.

(** C10, as the two hooks implement it. The project pre-save hook first
    brings the progress into the range from 0 to 100; on the value so
    obtained, a progress of 100 makes every status completed, and otherwise
    a positive progress makes the planning status active, and nothing else
    changes the status; owner and members are kept. The recomputation a
    task save drives rewrites the progress of the stored project without
    running this hook: it changes the status of no project. The status
    follows at the project's next save, where a planning project whose
    recomputed progress is positive is no longer planning. *)
Theorem project_preSave_promotes :
  (∀ this : ProjectSchema.t,
     let clamped := Z.min 100 (Z.max 0 this.(progress)) in
     let doc := preSave this in
     doc.(progress) = clamped
     ∧ 0 ≤ doc.(progress) ≤ 100
     ∧ (clamped = 100 → doc.(status) = completed)
     ∧ (clamped ≠ 100 → 0 < clamped → this.(status) = planning →
        doc.(status) = active)
     ∧ (clamped ≠ 100 → ¬ (0 < clamped ∧ this.(status) = planning) →
        doc.(status) = this.(status))
     ∧ doc.(owner) = this.(owner) ∧ doc.(members) = this.(members)
     ∧ doc.(_id) = this.(_id))
  ∧ (∀ now task db id,
       status <$> (Task.save now task db).2.(Db.projects) !! id
       = status <$> db.(Db.projects) !! id)
  ∧ (∀ now task db p,
       db.(Db.projects) !! task.(TaskSchema.project) = Some p →
       p.(status) = planning →
       let db' := (Task.save now task db).2 in
       ∃ p', db'.(Db.projects) !! task.(TaskSchema.project) = Some p'
             ∧ p'.(status) = planning
             ∧ (0 < p'.(progress) → (Project.save p' db').1.(status) ≠ planning)).
Proof.
  split; [|split; [apply save_keeps_project_status|]].
  - intros this. cbn zeta.
    rewrite preSave_progress_clamped, preSave_owner, preSave_members.
    pose proof (preSave_status_promoted this) as Hs. cbn zeta in Hs. rewrite Hs.
    repeat split; try lia.
    + intros E. rewrite (bool_decide_eq_true_2 _ E). cbn.
      destruct (status this); cbn; by rewrite ?andb_false_r.
    + intros H1 H2 H3. rewrite H3.
      rewrite bool_decide_eq_false_2 by done. cbn.
      by rewrite (proj2 (Z.ltb_lt _ _) H2).
    + intros H1 H2. rewrite bool_decide_eq_false_2 by done. cbn.
      destruct (0 <? _) eqn:E; cbn; [|done].
      clear Hs. case_bool_decide as E2; [|done].
      apply Z.ltb_lt in E. destruct H2. by split.
    + unfold preSave, set_progress, set_status. repeat case_match; reflexivity.
  - intros now task db p Hp Hst. cbn zeta.
    destruct (save_writes_rounded_mean now task db p Hp) as [_ Hl].
    set (average := Math_round _) in Hl.
    exists (set_progress average p). split; [exact Hl|]. split; [exact Hst|].
    cbn [progress set_progress]. intros Hpos.
    unfold Project.save. cbn [fst].
    pose proof (preSave_status_promoted (set_progress average p)) as Hs.
    cbn zeta in Hs. rewrite Hs. clear Hs.
    cbn [progress status set_progress]. rewrite Hst.
    rewrite (bool_decide_eq_false_2 (planning = completed)) by done.
    rewrite (bool_decide_eq_true_2 (planning = planning)) by done.
    cbn [negb]. rewrite !andb_true_r.
    case_bool_decide; [done|].
    rewrite (proj2 (Z.ltb_lt 0 (Z.min 100 (Z.max 0 average))) ltac:(lia)). done.
Qed.

(** Two tasks at 40 and 60 under a planning project: a task save leaves the
    stored project planning at progress 50, and the project's next save
    makes it active. *)
Lemma project_preSave_promotes_witness :
  let db := Sample.db_of [Sample.draft_40; Sample.review_60] Sample.site_project in
  let db' := (Task.save 20 Sample.draft_40 db).2 in
  ∃ p', db'.(Db.projects) !! Sample.site = Some p'
        ∧ p'.(status) = planning
        ∧ (Project.save p' db').1.(status) = active.
Proof.
  cbn zeta.
  destruct project_preSave_promotes as (_ & _ & H).
  destruct (H 20 Sample.draft_40
              (Sample.db_of [Sample.draft_40; Sample.review_60] Sample.site_project)
              Sample.site_project eq_refl eq_refl) as (p' & Hl & Hs & _).
  exists p'. split; [exact Hl|]. split; [exact Hs|].
  assert (Hv : (Task.save 20 Sample.draft_40
                  (Sample.db_of [Sample.draft_40; Sample.review_60]
                     Sample.site_project)).2.(Db.projects) !! Sample.site
               = Some (set_progress 50 Sample.site_project))
    by (vm_compute; reflexivity).
  change (TaskSchema.project Sample.draft_40) with Sample.site in Hl.
  rewrite Hv in Hl. injection Hl as <-. reflexivity.
Defined.

(** C10 as stated fails in its last sentence. No task save changes the
    status of a project; in particular, both tasks of a planning project
    are completed and one is saved: the stored project has progress 100 and
    is still planning, where the pre-save hook would make it completed. *)
Lemma recomputation_keeps_status :
  (∀ now task db id,
     status <$> (Task.save now task db).2.(Db.projects) !! id
     = status <$> db.(Db.projects) !! id)
  ∧ (let db := Sample.db_of [Sample.draft_done; Sample.review_done]
                 Sample.site_project in
     (Task.save 700 Sample.draft_done db).2.(Db.projects) !! Sample.site
       = Some (set_progress 100 Sample.site_project)
     ∧ (set_progress 100 Sample.site_project).(status) = planning
     ∧ (preSave (set_progress 100 Sample.site_project)).(status) = completed).
Proof.
  split; [apply save_keeps_project_status|].
  cbn zeta. repeat split; vm_compute; reflexivity.
Qed.

End ProjectPreSave.

(** * Further properties of the modelled code *)

(** ** Roles and membership queries *)

Section Roles.

Import ProjectSchema.

Lemma find_user_In userId (l : list Member) m :
  List.find (λ member, String.eqb member.(user) userId) l = Some m →
  m ∈ l ∧ m.(user) = userId.
Proof.
  intros H. apply List.find_some in H as [Hin Heq].
  split; [by apply list_elem_of_In | by apply String.eqb_eq].
Qed.

Lemma find_user_None userId (l : list Member) :
  List.find (λ member, String.eqb member.(user) userId) l = None
  ↔ ∀ m, m ∈ l → m.(user) ≠ userId.
Proof.
  induction l as [|x l IH]; cbn.
  - split; [intros _ m Hm; by apply not_elem_of_nil in Hm | done].
  - destruct (String.eqb (user x) userId) eqn:E.
    + apply String.eqb_eq in E. split; [done|].
      intros H. destruct (H x); [left | done].
    + apply String.eqb_neq in E. rewrite IH. split.
      * intros H m Hm. apply elem_of_cons in Hm as [->|Hm]; [done | by apply H].
      * intros H m Hm. apply H. by right.
Qed.

(** The two membership queries agree, the owner's role is always owner, and
    the role of anyone else is read from an entry of the members list. *)
Theorem membership_queries_agree (userId : ObjectId) (p : ProjectSchema.t) :
  (isMember userId p = true ↔ is_Some (getUserRole userId p))
  ∧ getUserRole p.(owner) p = Some r_owner
  ∧ (isMember userId p = false ↔ getUserRole userId p = None)
  ∧ (∀ r, userId ≠ p.(owner) → getUserRole userId p = Some r →
          ∃ m, m ∈ p.(members) ∧ m.(user) = userId ∧ m.(role) = r).
Proof.
  split; [apply isMember_getUserRole|]. split; [|split].
  - unfold getUserRole. by rewrite String.eqb_refl.
  - pose proof (isMember_getUserRole userId p) as H.
    destruct (isMember userId p); destruct (getUserRole userId p) as [r|] eqn:E.
    + split; done.
    + destruct (proj1 H eq_refl) as [? ?]. done.
    + destruct H as [_ H]. discriminate H. by exists r.
    + done.
  - intros r Hne. unfold getUserRole.
    rewrite (proj2 (String.eqb_neq _ _)) by done.
    destruct (List.find _ _) as [m|] eqn:Hf; [|done].
    intros [= <-]. apply find_user_In in Hf as [Hin Hu]. by exists m.
Qed.

Lemma membership_queries_agree_witness :
  ∃ m, m ∈ Sample.site_project.(members)
       ∧ m.(user) = Sample.bob ∧ m.(role) = r_viewer.
Proof.
  apply (membership_queries_agree Sample.bob Sample.site_project);
    [discriminate | reflexivity].
Defined.

End Roles.

(** ** Adding and removing a member, step by step *)

Section MemberList.

Import ProjectSchema.

Lemma preSave__id this : (preSave this).(_id) = this.(_id).
Proof.
  unfold preSave, set_progress, set_status. repeat case_match; reflexivity.
Qed.

Lemma getUserRole_ext userId p p' :
  p'.(owner) = p.(owner) → p'.(members) = p.(members) →
  getUserRole userId p' = getUserRole userId p.
Proof. intros Ho Hm. unfold getUserRole. by rewrite Ho, Hm. Qed.

Lemma isMember_ext userId p p' :
  p'.(owner) = p.(owner) → p'.(members) = p.(members) →
  isMember userId p' = isMember userId p.
Proof. intros Ho Hm. unfold isMember. by rewrite Ho, Hm. Qed.

Lemma find_user_app userId (l l' : list Member) :
  List.find (λ member, String.eqb member.(user) userId) (l ++ l') =
    match List.find (λ member, String.eqb member.(user) userId) l with
    | Some m => Some m
    | None => List.find (λ member, String.eqb member.(user) userId) l'
    end.
Proof.
  induction l as [|x l IH]; cbn; [done|]. by destruct (String.eqb _ _).
Qed.

Lemma project_save_doc this db : (Project.save this db).1 = preSave this.
Proof. reflexivity. Qed.

Lemma project_save_stored this db :
  (Project.save this db).2.(Db.projects) !! this.(_id) = Some (preSave this)
  ∧ (Project.save this db).2.(Db.tasks) = db.(Db.tasks)
  ∧ ∀ id, id ≠ this.(_id) →
          (Project.save this db).2.(Db.projects) !! id = db.(Db.projects) !! id.
Proof.
  unfold Project.save. cbn. rewrite preSave__id. repeat split.
  - apply lookup_insert_eq.
  - intros id Hne. by apply lookup_insert_ne.
Qed.

(** What a successful [addMember] does. The new entry goes to the end of
    the members list, behind the entries that were there; the user is then
    a member, with the role asked for unless the user is the owner; nobody
    else's role moves; users stay unique in the list if they were; the
    project is written under its id and no task is touched. *)
Theorem addMember_appends (now : Date) (userId : ObjectId) (r : Role)
    (p p' : ProjectSchema.t) (db db' : Db.t) :
  Project.addMember now userId r p db = Return (p', db') →
  p'.(members) = p.(members) ++ [mkMember userId r now]
  ∧ p'.(owner) = p.(owner)
  ∧ isMember userId p' = true
  ∧ (userId ≠ p.(owner) → getUserRole userId p' = Some r)
  ∧ (∀ other, other ≠ userId → getUserRole other p' = getUserRole other p)
  ∧ (NoDup (user <$> p.(members)) → NoDup (user <$> p'.(members)))
  ∧ db'.(Db.projects) !! p.(_id) = Some p'
  ∧ db'.(Db.tasks) = db.(Db.tasks).
Proof.
  unfold Project.addMember.
  destruct (List.find _ (members p)) eqn:Hf; [done|].
  intros [= <- <-].
  set (q := set_members (members p ++ [mkMember userId r now]) p).
  assert (Hm : (preSave q).(members) = members p ++ [mkMember userId r now])
    by (by rewrite preSave_members).
  assert (Ho : (preSave q).(owner) = owner p) by (by rewrite preSave_owner).
  change (Project.save q db).1 with (preSave q).
  split; [done|]. split; [done|]. split; [|split; [|split; [|split]]].
  - unfold isMember. rewrite Hm, existsb_app. cbn.
    by rewrite String.eqb_refl, orb_true_r.
  - intros Hne. unfold getUserRole. rewrite Ho, Hm.
    rewrite (proj2 (String.eqb_neq _ _)) by done.
    rewrite find_user_app, Hf. cbn [List.find user]. by rewrite String.eqb_refl.
  - intros other Hne. unfold getUserRole. rewrite Ho, Hm.
    destruct (String.eqb (owner p) other); [done|].
    rewrite find_user_app.
    cbn [List.find user].
    rewrite (proj2 (String.eqb_neq userId other)) by congruence.
    by destruct (List.find (λ member, String.eqb member.(user) other) (members p)).
  - intros Hnd. rewrite Hm, fmap_app. cbn.
    apply NoDup_app. split; [done|]. split; [|apply NoDup_singleton].
    intros x Hx Hx'. apply list_elem_of_singleton in Hx' as ->.
    apply list_elem_of_fmap in Hx as (m & Hu & Hin).
    by apply (proj1 (find_user_None userId (members p)) Hf m Hin).
  - destruct (project_save_stored q db) as (Hs & Ht & _). split; [exact Hs | exact Ht].
Qed.

(** [dan] is added to the sample project as an admin. *)
Lemma addMember_appends_witness :
  getUserRole Sample.dan
    (preSave (set_members
                (Sample.site_project.(members) ++ [mkMember Sample.dan r_admin 4000])
                Sample.site_project))
  = Some r_admin.
Proof.
  refine (proj1 (proj2 (proj2 (proj2
    (addMember_appends 4000 Sample.dan r_admin Sample.site_project _
       (Sample.db_of [] Sample.site_project) _ eq_refl)))) _).
  discriminate.
Defined.

Lemma filter_not_user_id userId (l : list Member) :
  (∀ m, m ∈ l → m.(user) ≠ userId) →
  List.filter (λ member, negb (String.eqb member.(user) userId)) l = l.
Proof.
  induction l as [|x l IH]; intros H; cbn; [done|].
  rewrite (proj2 (String.eqb_neq (user x) userId)) by (apply H; left).
  cbn. f_equal. apply IH. intros m Hm. apply H. by right.
Qed.

(** What [removeMember] does. The members list loses every entry of the
    user and keeps the others in their order; a list without such an entry
    is left as it is. Unless the user is the owner, the user is no member
    afterwards; nobody else's role moves. The project is written under its
    id and no task is touched. *)
Theorem removeMember_filters (userId : ObjectId) (p : ProjectSchema.t) (db : Db.t) :
  let out := Project.removeMember userId p db in
  out.1.(members)
    = List.filter (λ member, negb (String.eqb member.(user) userId)) p.(members)
  ∧ (∀ m, m ∈ out.1.(members) ↔ m ∈ p.(members) ∧ m.(user) ≠ userId)
  ∧ ((∀ m, m ∈ p.(members) → m.(user) ≠ userId) → out.1.(members) = p.(members))
  ∧ (userId ≠ p.(owner) →
     isMember userId out.1 = false ∧ getUserRole userId out.1 = None)
  ∧ (∀ other, other ≠ userId → getUserRole other out.1 = getUserRole other p)
  ∧ out.2.(Db.projects) !! p.(_id) = Some out.1
  ∧ out.2.(Db.tasks) = db.(Db.tasks).
Proof.
  cbn zeta. unfold Project.removeMember.
  set (l := List.filter _ (members p)).
  set (q := set_members l p).
  rewrite project_save_doc.
  assert (Hm : (preSave q).(members) = l) by (by rewrite preSave_members).
  assert (Ho : (preSave q).(owner) = owner p) by (by rewrite preSave_owner).
  assert (Hin : ∀ m, m ∈ l ↔ m ∈ members p ∧ user m ≠ userId).
  { intros m. subst l. rewrite list_elem_of_In, List.filter_In, <- list_elem_of_In.
    rewrite negb_true_iff, String.eqb_neq. done. }
  assert (Hnone : List.find (λ member, String.eqb member.(user) userId) l = None).
  { apply find_user_None. intros m Hm'. by apply Hin in Hm' as [_ ?]. }
  split; [done|]. split; [by rewrite Hm|]. split; [|split; [|split]].
  - intros H. rewrite Hm. subst l. by apply filter_not_user_id.
  - intros Hne.
    assert (Hr : getUserRole userId (preSave q) = None).
    { unfold getUserRole. rewrite Ho, Hm, Hnone.
      by rewrite (proj2 (String.eqb_neq _ _)). }
    split; [|done].
    destruct (isMember userId (preSave q)) eqn:E; [|done].
    apply isMember_getUserRole in E. rewrite Hr in E. by destruct E.
  - intros other Hne. unfold getUserRole. rewrite Ho, Hm.
    destruct (String.eqb (owner p) other); [done|].
    subst l. clear -Hne. induction (members p) as [|x l IH]; cbn; [done|].
    destruct (String.eqb (user x) userId) eqn:E; cbn.
    + apply String.eqb_eq in E.
      rewrite (proj2 (String.eqb_neq (user x) other)) by congruence. exact IH.
    + destruct (String.eqb (user x) other); [done | exact IH].
  - destruct (project_save_stored q db) as (Hs & Ht & _). split; [exact Hs | exact Ht].
Qed.

(** [cat] leaves the sample project. *)
Lemma removeMember_filters_witness :
  isMember Sample.cat
    (Project.removeMember Sample.cat Sample.site_project
       (Sample.db_of [] Sample.site_project)).1 = false.
Proof.
  refine (proj1 (proj1 (proj2 (proj2 (proj2
    (removeMember_filters Sample.cat Sample.site_project
       (Sample.db_of [] Sample.site_project))))) _)).
  discriminate.
Defined.

End MemberList.

(** ** The project pre-save hook, composed *)

Section ProjectHook.

Import ProjectSchema.

Lemma preSave_eq this :
  preSave this =
    mk this.(_id) this.(owner) this.(members)
       (ProjectAux.promoted this.(status) (Z.min 100 (Z.max 0 this.(progress))))
       (Z.min 100 (Z.max 0 this.(progress))).
Proof.
  pose proof (preSave_status_promoted this) as Hs. cbn zeta in Hs.
  unfold ProjectAux.promoted. rewrite <- Hs, <- preSave_progress_clamped.
  rewrite <- (preSave__id this), <- (preSave_owner this), <- (preSave_members this).
  by destruct (preSave this).
Qed.

Lemma promoted_idem s c :
  ProjectAux.promoted (ProjectAux.promoted s c) c = ProjectAux.promoted s c.
Proof.
  unfold ProjectAux.promoted.
  destruct (bool_decide (c = 100)); destruct (0 <? c); destruct s; reflexivity.
Qed.

Lemma preSave_idem this : preSave (preSave this) = preSave this.
Proof.
  rewrite (preSave_eq (preSave this)).
  rewrite preSave__id, preSave_owner, preSave_members, preSave_progress_clamped.
  pose proof (preSave_status_promoted this) as Hs. cbn zeta in Hs.
  fold (ProjectAux.promoted this.(status) (Z.min 100 (Z.max 0 this.(progress)))) in Hs.
  rewrite Hs.
  replace (Z.min 100 (Z.max 0 (Z.min 100 (Z.max 0 this.(progress)))))
    with (Z.min 100 (Z.max 0 this.(progress))) by lia.
  rewrite promoted_idem. symmetry. apply preSave_eq.
Qed.

Lemma set_members_preSave l this :
  set_members l (preSave this) = preSave (set_members l this).
Proof.
  rewrite !preSave_eq. reflexivity.
Qed.

(** Running the hook on what the hook returned changes nothing: a project
    that was saved can be saved again, unchanged, without any effect on its
    progress or status. *)
Theorem project_preSave_idempotent (this : ProjectSchema.t) (db : Db.t) :
  preSave (preSave this) = preSave this
  ∧ Project.save (Project.save this db).1 (Project.save this db).2
    = Project.save this db.
Proof.
  split; [apply preSave_idem|].
  unfold Project.save. cbn [fst snd]. rewrite preSave_idem. f_equal.
  destruct db as [ts ps]. unfold Db.set_projects. cbn. f_equal.
  apply insert_insert_eq.
Qed.

(** The hook promotes and never demotes. A completed project stays
    completed whatever its progress; a status that changes becomes active
    or completed; only a planning project without positive progress is
    planning afterwards; and a project on hold or archived whose progress
    is 100 or more comes out completed. *)
Theorem project_preSave_never_demotes (this : ProjectSchema.t) :
  (this.(status) = completed → (preSave this).(status) = completed)
  ∧ ((preSave this).(status) ≠ this.(status) →
     (preSave this).(status) = active ∨ (preSave this).(status) = completed)
  ∧ ((preSave this).(status) = planning →
     this.(status) = planning ∧ this.(progress) ≤ 0)
  ∧ (100 ≤ this.(progress) → (preSave this).(status) = completed).
Proof.
  rewrite preSave_eq. cbn [status]. unfold ProjectAux.promoted.
  destruct (bool_decide_reflect (Z.min 100 (Z.max 0 this.(progress)) = 100));
    destruct (Z.ltb_spec 0 (Z.min 100 (Z.max 0 this.(progress))));
    destruct this.(status); cbn;
    repeat split; intros; try done; try lia; eauto.
Qed.

(** An archived project at progress 100 is saved. *)
Lemma project_preSave_never_demotes_witness :
  (preSave (ProjectSchema.mk Sample.site Sample.ann [] archived 100)).(status)
  = completed.
Proof.
  apply (project_preSave_never_demotes
           (ProjectSchema.mk Sample.site Sample.ann [] archived 100)).
  cbn. lia.
Defined.

(** Removing the member that was just added gives back the project as a
    plain save would have left it, document and store: the members list is
    the one from before the addition. *)
Theorem removeMember_undoes_addMember (now : Date) (userId : ObjectId) (r : Role)
    (p p1 : ProjectSchema.t) (db db1 : Db.t) :
  Project.addMember now userId r p db = Return (p1, db1) →
  Project.removeMember userId p1 db1 = Project.save p db
  ∧ (Project.removeMember userId p1 db1).1.(members) = p.(members).
Proof.
  unfold Project.addMember.
  destruct (List.find _ (members p)) eqn:Hf; [done|].
  intros [= <- <-].
  set (m := mkMember userId r now).
  assert (Hl : List.filter (λ member, negb (String.eqb member.(user) userId))
                 (members p ++ [m]) = members p).
  { rewrite List.filter_app. cbn. rewrite String.eqb_refl. cbn.
    rewrite app_nil_r. apply filter_not_user_id. by apply find_user_None. }
  assert (Hdoc : Project.removeMember userId
                   (preSave (set_members (members p ++ [m]) p))
                   (Db.set_projects
                      (<[_id (preSave (set_members (members p ++ [m]) p)) :=
                           preSave (set_members (members p ++ [m]) p)]>
                         (Db.projects db)) db)
                 = Project.save p db).
  { unfold Project.removeMember. rewrite preSave_members.
    cbn [members set_members]. rewrite Hl.
    rewrite set_members_preSave.
    assert (Hq : set_members (members p) (set_members (members p ++ [m]) p) = p)
      by (by destruct p).
    rewrite Hq. unfold Project.save. rewrite preSave_idem.
    f_equal. destruct db as [ts ps]. unfold Db.set_projects. cbn. f_equal.
    rewrite !preSave__id. cbn. apply insert_insert_eq. }
  split; [exact Hdoc|].
  rewrite Hdoc. cbn. apply preSave_members.
Qed.

Lemma removeMember_undoes_addMember_witness :
  (Project.removeMember Sample.dan
     (Project.save
        (set_members
           (Sample.site_project.(members) ++ [mkMember Sample.dan r_admin 4000])
           Sample.site_project)
        (Sample.db_of [] Sample.site_project)).1
     (Project.save
        (set_members
           (Sample.site_project.(members) ++ [mkMember Sample.dan r_admin 4000])
           Sample.site_project)
        (Sample.db_of [] Sample.site_project)).2).1.(members)
  = Sample.site_project.(members).
Proof.
  apply (removeMember_undoes_addMember 4000 Sample.dan r_admin Sample.site_project
           _ (Sample.db_of [] Sample.site_project) _ eq_refl).
Defined.

End ProjectHook.

(** ** The member routes, outcome by outcome *)

Section MemberRoutes.

Import ProjectSchema ProjectRoutes.

Lemma role_guard_false (userRole : option Role) :
  negb (bool_decide (userRole = Some r_owner))
  && negb (bool_decide (userRole = Some r_admin)) = false
  ↔ userRole = Some r_owner ∨ userRole = Some r_admin.
Proof. repeat case_bool_decide; cbn; split; try done; eauto; intros [?|?]; done. Qed.

(** [router.post("/:id/members")] answers 200 exactly when the request is
    well formed, the project exists, the requester is its owner or an
    admin, the address belongs to a user and that user has no entry in the
    members list. The store is then the one [addMember] returns, with the
    role "member" when none was sent; in every other case the store is
    left as it was. *)
Theorem post_member_outcome (now : Date) (req_userId params_id : ObjectId)
    (valid : bool) (userToAdd : option ObjectId) (body_role : option Role)
    (db : Db.t) :
  let out := post_member now req_userId params_id valid userToAdd body_role db in
  (out.1.(statusCode) = 200
   ↔ valid = true
     ∧ ∃ p u, Project.findById params_id db = Some p
              ∧ (getUserRole req_userId p = Some r_owner
                 ∨ getUserRole req_userId p = Some r_admin)
              ∧ userToAdd = Some u
              ∧ ∀ m, m ∈ p.(members) → m.(user) ≠ u)
  ∧ (out.1.(statusCode) ≠ 200 → out.2 = db)
  ∧ (out.1.(statusCode) = 200 →
     ∃ p u p', Project.findById params_id db = Some p ∧ userToAdd = Some u
               ∧ Project.addMember now u (default r_member body_role) p db
                 = Return (p', out.2)).
Proof.
  cbn zeta. unfold post_member.
  destruct valid; cbn [negb];
    [|cbn; repeat split; try done; intros [? _]; done].
  destruct (Project.findById params_id db) as [p|] eqn:Hp;
    [|cbn; repeat split; try done; intros (_ & p & u & ? & _); done].
  destruct (negb (bool_decide (getUserRole req_userId p = Some r_owner))
            && negb (bool_decide (getUserRole req_userId p = Some r_admin)))
    eqn:Hg.
  { cbn. repeat split; try done. intros (_ & p' & u & [= <-] & Hr & _).
    apply role_guard_false in Hr. congruence. }
  apply role_guard_false in Hg.
  destruct userToAdd as [u|];
    [|cbn; repeat split; try done; intros (_ & p' & u & _ & _ & ? & _); done].
  destruct (Project.addMember now u (default r_member body_role) p db)
    as [[p' db']|msg] eqn:Ha.
  - cbn. repeat split; try done.
    + exists p, u. repeat split; try done.
      apply find_user_None. unfold Project.addMember in Ha.
      by destruct (List.find _ (members p)).
    + intros _. by exists p, u, p'.
  - assert (Hmsg : msg = "User is already a member of this project").
    { unfold Project.addMember in Ha. by destruct (List.find _ (members p)); simplify_eq. }
    subst msg. cbn. repeat split; try done.
    intros (_ & p' & u' & [= <-] & _ & [= <-] & Hno).
    apply find_user_None in Hno. unfold Project.addMember in Ha.
    by rewrite Hno in Ha.
Qed.

(** [ann], the owner, adds [dan] without naming a role. *)
Lemma post_member_outcome_witness :
  ∃ p u p', Project.findById Sample.site (Sample.db_of [] Sample.site_project) = Some p
    ∧ Some Sample.dan = Some u
    ∧ Project.addMember 4000 u (default r_member None) p
        (Sample.db_of [] Sample.site_project)
      = Return (p', (post_member 4000 Sample.ann Sample.site true (Some Sample.dan)
                       None (Sample.db_of [] Sample.site_project)).2).
Proof.
  apply (post_member_outcome 4000 Sample.ann Sample.site true (Some Sample.dan) None
           (Sample.db_of [] Sample.site_project)).
  reflexivity.
Defined.

(** [router.delete("/:id/members/:userId")] answers 200 exactly when the
    project exists, the target is not its owner, and the requester is the
    target or the project's owner or an admin. Anyone may thus ask for
    their own removal, a user without an entry included. The store is then
    the one [removeMember] returns; in every other case it is left as it
    was. *)
Theorem delete_member_outcome (req_userId params_id params_userId : ObjectId)
    (db : Db.t) :
  let out := delete_member req_userId params_id params_userId db in
  (out.1.(statusCode) = 200
   ↔ ∃ p, Project.findById params_id db = Some p
          ∧ p.(owner) ≠ params_userId
          ∧ (params_userId = req_userId
             ∨ getUserRole req_userId p = Some r_owner
             ∨ getUserRole req_userId p = Some r_admin))
  ∧ (out.1.(statusCode) ≠ 200 → out.2 = db)
  ∧ (out.1.(statusCode) = 200 →
     ∃ p, Project.findById params_id db = Some p
          ∧ out.2 = (Project.removeMember params_userId p db).2).
Proof.
  cbn zeta. unfold delete_member.
  destruct (Project.findById params_id db) as [p|] eqn:Hp;
    [|cbn; repeat split; try done; intros (p & ? & _); done].
  destruct (String.eqb params_userId req_userId) eqn:Hself; cbn [negb andb].
  - apply String.eqb_eq in Hself.
    destruct (String.eqb (owner p) params_userId) eqn:Ho.
    + apply String.eqb_eq in Ho. cbn. repeat split; try done.
      intros (p' & [= <-] & Hne & _). done.
    + apply String.eqb_neq in Ho. cbn. repeat split; try done; eauto.
  - apply String.eqb_neq in Hself.
    destruct (negb (bool_decide (getUserRole req_userId p = Some r_owner))
              && negb (bool_decide (getUserRole req_userId p = Some r_admin)))
      eqn:Hg.
    + cbn. repeat split; try done.
      intros (p' & [= <-] & _ & [?|Hr]); [done|].
      apply role_guard_false in Hr. congruence.
    + apply role_guard_false in Hg.
      destruct (String.eqb (owner p) params_userId) eqn:Ho.
      * apply String.eqb_eq in Ho. cbn. repeat split; try done.
        intros (p' & [= <-] & Hne & _). done.
      * apply String.eqb_neq in Ho. cbn. repeat split; try done; eauto.
Qed.

(** [dan], who has no entry in the sample project, asks for his own
    removal. *)
Lemma delete_member_outcome_witness :
  (delete_member Sample.dan Sample.site Sample.dan
     (Sample.db_of [] Sample.site_project)).1.(statusCode) = 200.
Proof.
  apply (delete_member_outcome Sample.dan Sample.site Sample.dan
           (Sample.db_of [] Sample.site_project)).
  exists Sample.site_project. split; [reflexivity|]. split; [discriminate|].
  by left.
Defined.

End MemberRoutes.

(** ** The task routes, outcome by outcome *)

Section TaskRouteOutcomes.

Import TaskSchema TaskRoutes.

Lemma creator_guard_false (isCreator : bool)
    (userRole : option ProjectSchema.Role) :
  negb isCreator
  && negb (bool_decide (userRole = Some ProjectSchema.r_owner))
  && negb (bool_decide (userRole = Some ProjectSchema.r_admin)) = false
  ↔ isCreator = true
    ∨ userRole = Some ProjectSchema.r_owner
    ∨ userRole = Some ProjectSchema.r_admin.
Proof.
  destruct isCreator; repeat case_bool_decide; cbn; split; try done; eauto;
    intros [?|[?|?]]; done.
Qed.

(** [router.delete("/:id")] answers 200 exactly when the task and its
    project exist, the requester is a member of the project, and created
    the task or is the project's owner or an admin. The task is then gone
    from the store, the other tasks stay, and no project is touched: the
    project's progress is not recomputed. In every other case the store is
    left as it was. *)
Theorem delete_task_outcome (req : Request) (db : Db.t) :
  let out := delete_task req db in
  (out.1.(statusCode) = 200
   ↔ ∃ task p, Task.findById req.(params_id) db = Some task
       ∧ Project.findById task.(project) db = Some p
       ∧ ProjectSchema.isMember req.(userId) p = true
       ∧ (task.(creator) = req.(userId)
          ∨ ProjectSchema.getUserRole req.(userId) p = Some ProjectSchema.r_owner
          ∨ ProjectSchema.getUserRole req.(userId) p = Some ProjectSchema.r_admin))
  ∧ (out.1.(statusCode) ≠ 200 → out.2 = db)
  ∧ (out.1.(statusCode) = 200 →
     Task.findById req.(params_id) out.2 = None
     ∧ (∀ id, id ≠ req.(params_id) → Task.findById id out.2 = Task.findById id db)
     ∧ out.2.(Db.projects) = db.(Db.projects)).
Proof.
  cbn zeta. unfold delete_task.
  destruct (Task.findById (params_id req) db) as [task|] eqn:Ht;
    [|cbn; repeat split; try done; intros (t & p & ? & _); done].
  destruct (Project.findById (project task) db) as [p|] eqn:Hp;
    [|cbn; repeat split; try done; intros (t & p & [= <-] & ? & _); congruence].
  destruct (ProjectSchema.isMember (userId req) p) eqn:Hm; cbn [negb];
    [|cbn; repeat split; try done; intros (t & p' & [= <-] & ? & ? & _); congruence].
  destruct (negb (String.eqb (creator task) (userId req)) && _ && _) eqn:Hg.
  - cbn. repeat split; try done.
    intros (t & p' & [= <-] & Hp' & _ & Hc). rewrite Hp in Hp'. injection Hp' as <-.
    assert (Hf : negb (String.eqb (creator task) (userId req))
                 && negb (bool_decide (ProjectSchema.getUserRole (userId req) p
                                       = Some ProjectSchema.r_owner))
                 && negb (bool_decide (ProjectSchema.getUserRole (userId req) p
                                       = Some ProjectSchema.r_admin)) = false).
    { apply creator_guard_false. rewrite String.eqb_eq. exact Hc. }
    congruence.
  - apply creator_guard_false in Hg. rewrite String.eqb_eq in Hg.
    cbn. repeat split; try done.
    + exists task, p. done.
    + unfold Task.findById, Task.findByIdAndDelete. cbn. apply lookup_delete_eq.
    + intros id Hne. unfold Task.findById, Task.findByIdAndDelete. cbn.
      by apply lookup_delete_ne.
Qed.

(** [cat], a plain member, deletes the task she created. *)
Lemma delete_task_outcome_witness :
  (delete_task (Sample.request Sample.cat Sample.review Sample.no_fields)
     (Sample.db_of [Sample.review_60] Sample.site_project)).1.(statusCode) = 200.
Proof.
  apply (delete_task_outcome
           (Sample.request Sample.cat Sample.review Sample.no_fields)
           (Sample.db_of [Sample.review_60] Sample.site_project)).
  exists Sample.review_60, Sample.site_project.
  split; [reflexivity|]. split; [reflexivity|]. split; [reflexivity|].
  by left.
Defined.

Lemma apply_updates_keeps b task :
  (apply_updates b task).(_id) = task.(_id)
  ∧ (apply_updates b task).(project) = task.(project)
  ∧ (apply_updates b task).(creator) = task.(creator)
  ∧ (apply_updates b task).(subtasks) = task.(subtasks)
  ∧ (apply_updates b task).(completedAt) = task.(completedAt)
  ∧ (apply_updates b task).(startedAt) = task.(startedAt).
Proof.
  unfold apply_updates.
  destruct (body_assignee b), (body_status b), (body_progress b); done.
Qed.

Lemma apply_updates_fields b task :
  (apply_updates b task).(status) = default task.(status) b.(body_status)
  ∧ (apply_updates b task).(progress) = default task.(progress) b.(body_progress)
  ∧ (apply_updates b task).(assignee)
    = match b.(body_assignee) with Some a => Some a | None => task.(assignee) end.
Proof.
  unfold apply_updates.
  destruct (body_assignee b), (body_status b), (body_progress b); done.
Qed.

(** An accepted update, [router.put("/:id")] answering 200, writes the
    fields that were sent and nothing else. The stored task takes the
    status, progress and assignee of the body where present; a new assignee
    is a member of the project and a new progress lies between 0 and 100.
    No hook runs: completion and start dates, subtasks, creator and project
    of the task are as before, whatever the new status, every other task is
    as before, and no project is touched. A refused update changes
    nothing. *)
Theorem put_task_outcome (req : Request) (db : Db.t) :
  let out := put_task req db in
  (out.1.(statusCode) ≠ 200 → out.2 = db)
  ∧ (out.1.(statusCode) = 200 →
     ∃ task p stored,
       Task.findById req.(params_id) db = Some task
       ∧ Project.findById task.(project) db = Some p
       ∧ Task.findById req.(params_id) out.2 = Some stored
       ∧ stored.(status) = default task.(status) req.(body).(body_status)
       ∧ stored.(progress) = default task.(progress) req.(body).(body_progress)
       ∧ 0 ≤ default 0 req.(body).(body_progress) ≤ 100
       ∧ (∀ a, req.(body).(body_assignee) = Some a →
               stored.(assignee) = Some a ∧ ProjectSchema.isMember a p = true)
       ∧ (req.(body).(body_assignee) = None → stored.(assignee) = task.(assignee))
       ∧ stored.(completedAt) = task.(completedAt)
       ∧ stored.(startedAt) = task.(startedAt)
       ∧ stored.(subtasks) = task.(subtasks)
       ∧ stored.(creator) = task.(creator)
       ∧ stored.(project) = task.(project)
       ∧ (∀ id, id ≠ req.(params_id) → Task.findById id out.2 = Task.findById id db)
       ∧ out.2.(Db.projects) = db.(Db.projects)).
Proof.
  cbn zeta. unfold put_task.
  destruct (validationErrors_isEmpty req); cbn [negb]; [|cbn; done].
  destruct (Task.findById (params_id req) db) as [task|] eqn:Ht; [|cbn; done].
  destruct (Project.findById (project task) db) as [p|] eqn:Hp; [|cbn; done].
  destruct (ProjectSchema.isMember (userId req) p) eqn:Hm; cbn [negb]; [|cbn; done].
  destruct (match body_assignee (body req) with
            | Some a => negb (ProjectSchema.isMember a p)
            | None => false
            end) eqn:Ha; [cbn; done|].
  destruct (updates_valid (body req)) eqn:Hv; cbn [negb]; [|cbn; done].
  cbn [fst snd statusCode]. split; [done|]. intros _.
  destruct (apply_updates_keeps (body req) task) as (Hid & Hpr & Hcr & Hsub & Hca & Hsa).
  destruct (apply_updates_fields (body req) task) as (Hst & Hpg & Has).
  exists task, p, (apply_updates (body req) task).
  split; [done|]. split; [done|]. split.
  { unfold Task.findById, Task.findByIdAndUpdate. cbn.
    unfold Task.findById in Ht. by rewrite lookup_alter_eq, Ht. }
  split; [done|]. split; [done|]. split.
  { unfold updates_valid in Hv. destruct (body_progress (body req)); cbn; lia. }
  split.
  { intros a Hb. rewrite Hb in Ha, Has. split; [done|].
    by apply negb_false_iff in Ha. }
  split; [intros Hb; by rewrite Hb in Has|].
  repeat split; try done.
  intros id Hne. unfold Task.findById, Task.findByIdAndUpdate. cbn.
  by rewrite lookup_alter_ne.
Qed.

(** [bob] marks the todo task completed: accepted, and the stored task is
    completed with progress 0 and no completion date. *)
Lemma put_task_outcome_witness :
  ∃ stored,
    Task.findById Sample.draft
      (put_task (Sample.request Sample.bob Sample.draft
                   (mkBody None (Some completed) None))
         (Sample.db_of [Sample.draft_todo] Sample.site_project)).2 = Some stored
    ∧ stored.(status) = completed ∧ stored.(progress) = 0
    ∧ stored.(completedAt) = None.
Proof.
  destruct (put_task_outcome
              (Sample.request Sample.bob Sample.draft (mkBody None (Some completed) None))
              (Sample.db_of [Sample.draft_todo] Sample.site_project))
    as [_ H].
  destruct (H eq_refl)
    as (task & p & stored & Ht & _ & Hs & Hst & Hpg & _ & _ & _ & Hca & _).
  injection Ht as <-.
  exists stored. split; [exact Hs|]. split; [exact Hst|]. split; [exact Hpg | exact Hca].
Defined.

End TaskRouteOutcomes.

(** ** Creating a task and toggling a subtask *)

Section TaskCreation.

Import TaskSchema TaskRoutes.









Lemma flip_subtask_None subtaskId l :
  Task.flip_subtask subtaskId l = None
  ↔ ∀ s, s ∈ l → s.(sub_id) ≠ subtaskId.
Proof.
  induction l as [|x l IH]; cbn.
  - split; [intros _ s Hs; by apply not_elem_of_nil in Hs | done].
  - destruct (String.eqb (sub_id x) subtaskId) eqn:E.
    + apply String.eqb_eq in E. split; [done|].
      intros H. destruct (H x); [left | done].
    + apply String.eqb_neq in E.
      destruct (Task.flip_subtask subtaskId l) eqn:Hf; cbn.
      * split; [done|]. intros H.
        assert (Hn : Some l0 = None); [|done].
        apply IH. intros s Hs. apply H. by right.
      * split; [|done]. intros _ s Hs.
        apply elem_of_cons in Hs as [->|Hs]; [done|].
        by apply (proj1 IH eq_refl).
Qed.

Lemma flip_subtask_nonempty subtaskId l l' :
  Task.flip_subtask subtaskId l = Some l' → (0 <? length l')%nat = true.
Proof.
  destruct l as [|x l]; cbn; [done|].
  destruct (String.eqb (sub_id x) subtaskId); [by intros [= <-]|].
  destruct (Task.flip_subtask subtaskId l); cbn; [by intros [= <-] | done].
Qed.

Lemma saved_dueDate now this : (saved now this).(dueDate) = this.(dueDate).
Proof.
  unfold saved, preSave.
  destruct this as [i pr a c s p d g l ar [ca|] [sa|] []]; destruct s; reflexivity.
Qed.

(** With a progress the schema admits, validation is the test of the due
    date. *)
Lemma validate_in_range now this :
  0 ≤ this.(progress) ≤ 100 →
  validate now this
  = match this.(dueDate) with Some value => now <? value | None => true end.
Proof.
  intros [H0 H1]. unfold validate.
  rewrite (proj2 (Z.leb_le _ _) H0), (proj2 (Z.leb_le _ _) H1).
  by rewrite !andb_true_r.
Qed.

(** The validated methods are the plain ones on a document that passes. *)
Lemma validated_toggleSubtask now subtaskId this db :
  ValidatedTask.toggleSubtask now subtaskId this db
  = match Task.toggleSubtask now subtaskId this db with
    | Return r =>
        if validate now this then Return r else Throw "Task validation failed"
    | Throw msg => Throw msg
    end.
Proof.
  unfold ValidatedTask.toggleSubtask, Task.toggleSubtask, ValidatedTask.save.
  by destruct (Task.flip_subtask subtaskId (subtasks this)).
Qed.

Lemma validated_updateProgressFromSubtasks now this db :
  ValidatedTask.updateProgressFromSubtasks now this db
  = if validate now
         (if (0 <? length this.(subtasks))%nat
          then set_progress (subtasksProgress this) this else this)
    then Return (Task.updateProgressFromSubtasks now this db)
    else Throw "Task validation failed".
Proof. reflexivity. Qed.

(** What a toggle that returns has found and written. *)
Lemma toggleSubtask_Return now subtaskId this db t1 db1 :
  Task.toggleSubtask now subtaskId this db = Return (t1, db1) →
  (∃ s, s ∈ this.(subtasks) ∧ s.(sub_id) = subtaskId)
  ∧ (0 <? length t1.(subtasks))%nat = true
  ∧ t1.(dueDate) = this.(dueDate).
Proof.
  unfold Task.toggleSubtask.
  destruct (Task.flip_subtask subtaskId (subtasks this)) as [l|] eqn:Hf; [|done].
  intros Heq.
  assert (Ht1 : t1 = (Task.save now (set_subtasks l this) db).1)
    by (apply (f_equal (λ r, match r with Return x => x.1 | Throw _ => t1 end))
          in Heq; symmetry; exact Heq).
  rewrite save_doc in Ht1. subst t1. clear Heq.
  split; [|split].
  - assert (Hex : ¬ ∀ s, s ∈ subtasks this → sub_id s ≠ subtaskId).
    { intros Hall. apply flip_subtask_None in Hall. congruence. }
    clear -Hex. induction (subtasks this) as [|x l' IH].
    + destruct Hex. intros s Hs. by apply not_elem_of_nil in Hs.
    + destruct (decide (sub_id x = subtaskId)) as [E|E].
      * exists x. split; [left | done].
      * destruct IH as (s & Hs & Hq).
        -- intros Hall. apply Hex. intros s Hs.
           apply elem_of_cons in Hs as [->|Hs]; [done | by apply Hall].
        -- exists s. split; [by right | done].
  - unfold saved. cbn [subtasks persisted]. rewrite preSave_subtasks.
    cbn [subtasks set_subtasks]. by apply (flip_subtask_nonempty subtaskId (subtasks this)).
  - by rewrite saved_dueDate.
Qed.

Lemma toggleSubtask_Throw now subtaskId this db msg :
  Task.toggleSubtask now subtaskId this db = Throw msg →
  msg = "Subtask not found"
  ∧ ∀ s, s ∈ this.(subtasks) → s.(sub_id) ≠ subtaskId.
Proof.
  unfold Task.toggleSubtask.
  destruct (Task.flip_subtask subtaskId (subtasks this)) as [l|] eqn:Hf; [done|].
  intros [= <-]. split; [done|]. by apply flip_subtask_None.
Qed.

Lemma validate_dueDate now this value :
  validate now this = true → this.(dueDate) = Some value → now < value.
Proof.
  unfold validate. intros Hv Hd. rewrite Hd in Hv.
  apply andb_prop in Hv as [Hv _]. apply andb_prop in Hv as [Hv _].
  by apply Z.ltb_lt in Hv.
Qed.

(** [router.put("/:id/subtasks/:subtaskId")] answers 200 exactly when the
    task and its project exist, the requester is a member of the project,
    the task has a subtask with the id sent, and the task passes the
    schema's validation at both saves: its progress is within 0..100 and
    its due date, if it has one, is later than the clock each time. So no
    subtask of a task whose due date has passed can be toggled: the answer
    is 500. On 200 the store is the one the two methods leave. On any other
    answer the store is left as it was, with one exception: when the due
    date passes between the two saves the answer is 500 and the flip the
    first save has written stays. *)
Theorem put_subtask_outcome (now1 now2 : Date) (subtaskId : ObjectId)
    (req : Request) (db : Db.t) :
  let out := put_subtask now1 now2 subtaskId req db in
  (out.1.(statusCode) = 200
   ↔ ∃ task p s, Task.findById req.(params_id) db = Some task
       ∧ Project.findById task.(project) db = Some p
       ∧ ProjectSchema.isMember req.(userId) p = true
       ∧ s ∈ task.(subtasks) ∧ s.(sub_id) = subtaskId
       ∧ validate now1 task = true
       ∧ ∀ value, task.(dueDate) = Some value → now2 < value)
  ∧ (out.1.(statusCode) = 200 →
     ∃ task t1 db1,
       Task.findById req.(params_id) db = Some task
       ∧ Task.toggleSubtask now1 subtaskId task db = Return (t1, db1)
       ∧ out.2 = (Task.updateProgressFromSubtasks now2 t1 db1).2)
  ∧ (out.1.(statusCode) ≠ 200 →
     out.2 = db
     ∨ out.1.(statusCode) = 500
       ∧ ∃ task t1 value,
           Task.findById req.(params_id) db = Some task
           ∧ task.(dueDate) = Some value ∧ now1 < value ≤ now2
           ∧ Task.toggleSubtask now1 subtaskId task db = Return (t1, out.2))
  ∧ (∀ task value,
       Task.findById req.(params_id) db = Some task →
       task.(dueDate) = Some value → value ≤ now1 →
       out.1.(statusCode) ≠ 200 ∧ out.2 = db).
Proof.
  cbn zeta. unfold put_subtask.
  destruct (Task.findById (params_id req) db) as [task|] eqn:Ht;
    [|cbn; repeat split; try done; try (by left);
      intros (t & p & s & ? & _); done].
  destruct (Project.findById (project task) db) as [p|] eqn:Hp;
    [|cbn; repeat split; try done; try (by left);
      intros (t & p & s & [= <-] & ? & _); congruence].
  destruct (ProjectSchema.isMember (userId req) p) eqn:Hm; cbn [negb];
    [|cbn; repeat split; try done; try (by left);
      intros (t & p' & s & [= <-] & ? & ? & _); congruence].
  rewrite validated_toggleSubtask.
  destruct (Task.toggleSubtask now1 subtaskId task db) as [[t1 db1]|msg] eqn:Htog.
  - destruct (toggleSubtask_Return _ _ _ _ _ _ Htog) as ((s & Hs & Hq) & Hlen & Hd1).
    destruct (validate now1 task) eqn:Hv1.
    + rewrite validated_updateProgressFromSubtasks, Hlen.
      rewrite validate_in_range
        by (cbn [progress set_progress]; apply subtasksProgress_range).
      cbn [dueDate set_progress]. rewrite Hd1.
      destruct (dueDate task) as [value|] eqn:Hdue.
      * pose proof (validate_dueDate _ _ _ Hv1 Hdue) as Hlt.
        destruct (now2 <? value) eqn:Hd2.
        -- apply Z.ltb_lt in Hd2.
           destruct (Task.updateProgressFromSubtasks now2 t1 db1) as [t2 db2] eqn:Hup.
           cbn [fst snd statusCode]. split; [|split; [|split]].
           ++ split; [intros _|done]. exists task, p, s.
              repeat split; try done.
              intros v Hv. assert (v = value) by congruence. lia.
           ++ intros _. exists task, t1, db1. by rewrite Htog, Hup.
           ++ done.
           ++ intros t v [= <-] Hv Hle. assert (v = value) by congruence. lia.
        -- apply Z.ltb_ge in Hd2. cbn [fst snd statusCode].
           split; [|split; [|split]].
           ++ split; [done|].
              intros (t & p' & s' & [= <-] & _ & _ & _ & _ & _ & H).
              specialize (H value Hdue). lia.
           ++ done.
           ++ intros _. right. split; [done|]. exists task, t1, value.
              repeat split; try done; lia.
           ++ intros t v [= <-] Hv Hle. assert (v = value) by congruence. lia.
      * destruct (Task.updateProgressFromSubtasks now2 t1 db1) as [t2 db2] eqn:Hup.
        cbn [fst snd statusCode]. split; [|split; [|split]].
        -- split; [intros _|done]. exists task, p, s.
           repeat split; try done. intros v Hv. congruence.
        -- intros _. exists task, t1, db1. by rewrite Htog, Hup.
        -- done.
        -- intros t v [= <-] Hv. congruence.
    + cbn [String.eqb Ascii.eqb Bool.eqb fst snd statusCode].
      split; [|split; [|split]].
      * split; [done|].
        intros (t & p' & s' & [= <-] & _ & _ & _ & _ & H & _). congruence.
      * done.
      * intros _. by left.
      * intros t v _ _ _. done.
  - destruct (toggleSubtask_Throw _ _ _ _ _ Htog) as [-> Hnone].
    cbn [String.eqb Ascii.eqb Bool.eqb fst snd statusCode].
    split; [|split; [|split]].
    + split; [done|].
      intros (t & p' & s & [= <-] & _ & _ & Hs & Hq & _). exfalso.
      by apply (Hnone s Hs).
    + done.
    + intros _. by left.
    + intros t v _ _ _. done.
Qed.

(** A subtask of a task whose due date has passed: the toggle is answered
    500 and nothing is written. *)
Lemma put_subtask_outcome_witness :
  let db := Sample.db_of [Sample.draft_overdue] Sample.site_project in
  let out :=
    put_subtask 10 11 Sample.sub1
      (Sample.request Sample.ann Sample.draft Sample.no_fields) db in
  out.1.(statusCode) = 500 ∧ out.2 = db.
Proof.
  cbn zeta.
  destruct (put_subtask_outcome 10 11 Sample.sub1
              (Sample.request Sample.ann Sample.draft Sample.no_fields)
              (Sample.db_of [Sample.draft_overdue] Sample.site_project))
    as (_ & _ & _ & H).
  split; [vm_compute; reflexivity|].
  apply (H Sample.draft_overdue 5); [reflexivity | reflexivity | lia].
Defined.

End TaskCreation.

(** ** Toggling a subtask *)

Section Toggle.

Import TaskSchema TaskAux.

Lemma flip_subtask_Some subtaskId l l' :
  Task.flip_subtask subtaskId l = Some l' →
  ∃ l1 s l2, l = l1 ++ s :: l2 ∧ l' = l1 ++ flipped s :: l2
             ∧ s.(sub_id) = subtaskId
             ∧ ∀ x, x ∈ l1 → x.(sub_id) ≠ subtaskId.
Proof.
  revert l'. induction l as [|x l IH]; intros l'; cbn; [done|].
  destruct (String.eqb (sub_id x) subtaskId) eqn:E.
  - apply String.eqb_eq in E. intros [= <-].
    exists [], x, l. repeat split; try done.
    intros y Hy. by apply not_elem_of_nil in Hy.
  - apply String.eqb_neq in E.
    destruct (Task.flip_subtask subtaskId l) as [l0|] eqn:Hf; cbn; [|done].
    intros [= <-].
    destruct (IH l0 eq_refl) as (l1 & s & l2 & -> & -> & Hs & Hl1).
    exists (x :: l1), s, l2. repeat split; try done.
    intros y Hy. apply elem_of_cons in Hy as [->|Hy]; [done | by apply Hl1].
Qed.

Lemma flip_subtask_at subtaskId l1 s l2 :
  s.(sub_id) = subtaskId → (∀ x, x ∈ l1 → x.(sub_id) ≠ subtaskId) →
  Task.flip_subtask subtaskId (l1 ++ s :: l2) = Some (l1 ++ flipped s :: l2).
Proof.
  intros Hs. induction l1 as [|x l1 IH]; intros Hl1; cbn.
  - by rewrite (proj2 (String.eqb_eq _ _) Hs).
  - rewrite (proj2 (String.eqb_neq (sub_id x) subtaskId)) by (apply Hl1; left).
    rewrite IH; [done|]. intros y Hy. apply Hl1. by right.
Qed.

Lemma saved_subtasks now this : (saved now this).(subtasks) = this.(subtasks).
Proof. unfold saved. cbn. apply preSave_subtasks. Qed.

Lemma count_completed_app (l1 l2 : list Subtask) :
  length (List.filter (λ subtask, isCompleted subtask) (l1 ++ l2))
  = (length (List.filter (λ subtask, isCompleted subtask) l1)
     + length (List.filter (λ subtask, isCompleted subtask) l2))%nat.
Proof. by rewrite List.filter_app, length_app. Qed.

(** What [toggleSubtask] does. It throws exactly when no subtask has the
    id. Otherwise the first subtask with that id, and no other, has its
    flag inverted: ids, titles and order of the list are kept and the
    number of completed subtasks moves by one. A second toggle of the same
    id finds the subtask and gives back the list from before the first. *)
Theorem toggleSubtask_flips_one (now : Date) (subtaskId : ObjectId)
    (this : TaskSchema.t) (db : Db.t) :
  (Task.toggleSubtask now subtaskId this db = Throw "Subtask not found"
   ↔ ∀ s, s ∈ this.(subtasks) → s.(sub_id) ≠ subtaskId)
  ∧ (∀ t1 db1,
       Task.toggleSubtask now subtaskId this db = Return (t1, db1) →
       (∃ l1 s l2,
          this.(subtasks) = l1 ++ s :: l2
          ∧ t1.(subtasks) = l1 ++ flipped s :: l2
          ∧ s.(sub_id) = subtaskId
          ∧ ∀ x, x ∈ l1 → x.(sub_id) ≠ subtaskId)
       ∧ sub_id <$> t1.(subtasks) = sub_id <$> this.(subtasks)
       ∧ title <$> t1.(subtasks) = title <$> this.(subtasks)
       ∧ (completedSubtasksCount t1 = S (completedSubtasksCount this)
          ∨ S (completedSubtasksCount t1) = completedSubtasksCount this)
       ∧ ∀ now', ∃ t2 db2,
           Task.toggleSubtask now' subtaskId t1 db1 = Return (t2, db2)
           ∧ t2.(subtasks) = this.(subtasks)).
Proof.
  unfold Task.toggleSubtask. split.
  - destruct (Task.flip_subtask subtaskId (subtasks this)) eqn:Hf.
    + split; [done|]. intros H. apply flip_subtask_None in H. congruence.
    + split; [intros _; by apply flip_subtask_None | done].
  - intros t1 db1.
    destruct (Task.flip_subtask subtaskId (subtasks this)) as [l|] eqn:Hf; [|done].
    intros Heq.
    assert (Ht1 : t1 = (Task.save now (set_subtasks l this) db).1)
      by (apply (f_equal (λ r, match r with Return x => x.1 | Throw _ => t1 end))
            in Heq; symmetry; exact Heq).
    rewrite save_doc in Ht1. subst t1. clear Heq.
    destruct (flip_subtask_Some _ _ _ Hf) as (l1 & s & l2 & Hl & -> & Hs & Hl1).
    rewrite saved_subtasks. cbn [subtasks set_subtasks].
    split; [by exists l1, s, l2|].
    rewrite Hl. split; [by rewrite !fmap_app|]. split; [by rewrite !fmap_app|].
    split.
    + unfold completedSubtasksCount. rewrite saved_subtasks.
      cbn [subtasks set_subtasks]. rewrite Hl, !count_completed_app. cbn.
      destruct (isCompleted s); cbn; lia.
    + intros now'.
      rewrite (flip_subtask_at subtaskId l1 (flipped s) l2) by done.
      eexists _, _. split; [reflexivity|].
      unfold saved. cbn [subtasks persisted]. rewrite preSave_subtasks.
      cbn [subtasks set_subtasks].
      unfold flipped. cbn. rewrite negb_involutive. by destruct s.
Qed.

(** The first subtask of the sample task is toggled twice. *)
Lemma toggleSubtask_flips_one_witness :
  ∃ t2 db2,
    Task.toggleSubtask 11 Sample.sub1
      (Task.save 10
         (set_subtasks
            (flipped (mkSubtask Sample.sub1 "outline" false)
             :: [mkSubtask Sample.sub2 "figures" false;
                 mkSubtask Sample.sub3 "proofread" false]) Sample.draft_todo)
         (Sample.db_of [Sample.draft_todo] Sample.site_project)).1
      (Task.save 10
         (set_subtasks
            (flipped (mkSubtask Sample.sub1 "outline" false)
             :: [mkSubtask Sample.sub2 "figures" false;
                 mkSubtask Sample.sub3 "proofread" false]) Sample.draft_todo)
         (Sample.db_of [Sample.draft_todo] Sample.site_project)).2
    = Return (t2, db2)
    ∧ t2.(subtasks) = Sample.draft_todo.(subtasks).
Proof.
  destruct (toggleSubtask_flips_one 10 Sample.sub1 Sample.draft_todo
              (Sample.db_of [Sample.draft_todo] Sample.site_project)) as [_ H].
  destruct (H _ _ eq_refl) as (_ & _ & _ & _ & H2).
  exact (H2 11).
Defined.

End Toggle.

(** ** The start date *)

Section StartedAt.

Import TaskSchema Trace.

Lemma saved_startedAt now this :
  (saved now this).(startedAt) =
    if this.(modifiedStatus) && bool_decide (this.(status) = in_progress)
       && bool_decide (this.(startedAt) = None)
    then Some now else this.(startedAt).
Proof.
  unfold saved, preSave.
  destruct this as [i pr a c s p d g l ar [ca|] [sa|] []]; destruct s; reflexivity.
Qed.

Lemma step_keeps_startedAt e this d :
  this.(startedAt) = Some d → (step e this).(startedAt) = Some d.
Proof.
  intros H. destruct e as [s|p|l|now]; try (cbn; exact H).
  cbn [step]. rewrite saved_startedAt, H.
  by rewrite (bool_decide_eq_false_2 (Some d = None)), andb_false_r.
Qed.

(** A save assigns [startedAt] exactly when the status was changed, is
    in-progress, and no start date is set yet, and it assigns the time of
    that save; a save that assigns the start date leaves the completion
    date alone. Over any sequence of assignments and saves, a start date
    that is set is neither cleared nor replaced, also when the task leaves
    the in-progress status and comes back. *)
Theorem startedAt_assigned_once (es : list Event) (this : TaskSchema.t) :
  (∀ now,
     (saved now this).(startedAt) =
       if this.(modifiedStatus) && bool_decide (this.(status) = in_progress)
          && bool_decide (this.(startedAt) = None)
       then Some now else this.(startedAt))
  ∧ (∀ now, (saved now this).(startedAt) ≠ this.(startedAt) →
            (saved now this).(completedAt) = this.(completedAt))
  ∧ (∀ d, this.(startedAt) = Some d → (run es this).(startedAt) = Some d).
Proof.
  split; [intros now; apply saved_startedAt|]. split.
  - intros now. rewrite saved_startedAt, saved_completedAt.
    destruct (modifiedStatus this); cbn; [|done].
    case_bool_decide as Hs; cbn; [|done].
    intros _. rewrite Hs. reflexivity.
  - revert this. induction es as [|e es IH]; intros this d H; [done|].
    cbn. apply (IH (step e this) d). by apply step_keeps_startedAt.
Qed.

(** A task started at time 3 goes to review, is saved, comes back to
    in-progress and is saved again. *)
Lemma startedAt_assigned_once_witness :
  (run [Assign_status in_review; Save 4; Assign_status in_progress; Save 5]
     (run [Assign_status in_progress; Save 3] Sample.draft_todo)).(startedAt)
  = Some 3.
Proof.
  apply (startedAt_assigned_once
           [Assign_status in_review; Save 4; Assign_status in_progress; Save 5]
           (run [Assign_status in_progress; Save 3] Sample.draft_todo)).
  reflexivity.
Defined.

End StartedAt.

(** ** Progress stays a percentage *)

Section ProgressRange.

Import TaskSchema.

Lemma sum_of_bounds (l : list Z) :
  (∀ x, x ∈ l → 0 ≤ x ≤ 100) → 0 ≤ sum_of l ≤ 100 * Z.of_nat (length l).
Proof.
  unfold sum_of. induction l as [|x l IH]; intros H; cbn [foldr length]; [lia|].
  pose proof (H x ltac:(left)) as Hx.
  pose proof (IH (λ y Hy, H y ltac:(by right))) as Hl. lia.
Qed.

Lemma rounded_mean_bounds (total n : Z) :
  0 < n → 0 ≤ total ≤ 100 * n → 0 ≤ (2 * total + n) / (2 * n) ≤ 100.
Proof.
  intros Hn Ht. split.
  - apply Z.div_pos; lia.
  - apply Z.lt_succ_r, Z.div_lt_upper_bound; lia.
Qed.

(** Progress never leaves the range from 0 to 100 through the model's own
    writes. A save and [updateProgressFromSubtasks] keep a task's progress
    in the range; and if the tasks found for a project all are in the
    range, so is the project progress the post-save hook writes. *)
Theorem progress_stays_percentage :
  (∀ now this,
     0 ≤ this.(progress) ≤ 100 → 0 ≤ (saved now this).(progress) ≤ 100)
  ∧ (∀ now this db,
       0 ≤ this.(progress) ≤ 100 →
       0 ≤ (Task.updateProgressFromSubtasks now this db).1.(progress) ≤ 100)
  ∧ (∀ doc db p,
       (∀ task, task ∈ Task.find_project doc.(project) db →
                0 ≤ task.(progress) ≤ 100) →
       db.(Db.projects) !! doc.(project) = Some p →
       0 ≤ p.(ProjectSchema.progress) ≤ 100 →
       ∃ p', (Task.postSave doc db).(Db.projects) !! doc.(project) = Some p'
             ∧ 0 ≤ p'.(ProjectSchema.progress) ≤ 100).
Proof.
  assert (Hsaved : ∀ now this,
            0 ≤ this.(progress) ≤ 100 → 0 ≤ (saved now this).(progress) ≤ 100).
  { intros now this H. unfold saved. cbn. rewrite preSave_progress.
    repeat case_decide; lia. }
  split; [exact Hsaved|]. split.
  - intros now this db H. rewrite updateProgressFromSubtasks_doc.
    apply Hsaved. case_match; [|done]. cbn. apply subtasksProgress_range.
  - intros doc db p Hall Hp Hr.
    destruct (decide (Task.find_project doc.(project) db = [])) as [Hnil|Hne].
    + rewrite postSave_empty by done. by exists p.
    + rewrite postSave_nonempty by done. cbn zeta.
      unfold Db.set_projects. cbn [Db.projects].
      rewrite lookup_alter_eq, Hp. eexists. split; [reflexivity|].
      cbn [ProjectSchema.progress ProjectSchema.set_progress].
      set (tasks := Task.find_project _ _) in *.
      assert (Hn : 0 < Z.of_nat (length tasks))
        by (destruct tasks; [done | cbn; lia]).
      rewrite Math_round_ratio by done.
      apply rounded_mean_bounds; [done|].
      rewrite <- (length_fmap progress tasks). apply sum_of_bounds.
      intros x Hx. apply list_elem_of_fmap in Hx as (t & -> & Ht). by apply Hall.
Qed.

Lemma progress_stays_percentage_witness :
  0 ≤ (saved 5 Sample.draft_40).(progress) ≤ 100.
Proof.
  destruct progress_stays_percentage as [H _].
  apply (H 5 Sample.draft_40). cbn. lia.
Defined.

End ProgressRange.

(** ** What a task save leaves alone *)

Section SaveFrame.

Import TaskSchema.

(** A task save writes one task and one number. Every other task is as
    before; every project other than the task's is as before, and a
    project the store does not hold is not created; the task's own
    project, if held, changes in its progress only. *)
Theorem task_save_frame (now : Date) (this : TaskSchema.t) (db : Db.t) :
  let out := Task.save now this db in
  (∀ id, id ≠ this.(_id) → Task.findById id out.2 = Task.findById id db)
  ∧ (∀ pid, pid ≠ this.(project) →
            Project.findById pid out.2 = Project.findById pid db)
  ∧ (∀ pid, Project.findById pid db = None → Project.findById pid out.2 = None)
  ∧ (∀ p, Project.findById this.(project) db = Some p →
          ∃ n, Project.findById this.(project) out.2
               = Some (ProjectSchema.set_progress n p)).
Proof.
  cbn zeta. split; [|split; [|split]].
  - intros id Hne. unfold Task.findById, Task.save. cbn [snd].
    rewrite postSave_tasks. cbn. unfold saved at 1. cbn. rewrite preSave_id.
    by apply lookup_insert_ne.
  - intros pid Hne. unfold Project.findById, Task.save, Task.postSave. cbn [snd].
    case_match; [|done]. cbn. unfold saved. cbn. rewrite preSave_project.
    by apply lookup_alter_ne.
  - intros pid Hnone. unfold Project.findById in *.
    unfold Task.save, Task.postSave. cbn [snd].
    case_match; [|done]. unfold Db.set_projects, Db.set_tasks. cbn [Db.projects].
    destruct (decide (pid = project (saved now this))) as [->|Hne].
    + by rewrite lookup_alter_eq, Hnone.
    + by rewrite lookup_alter_ne.
  - intros p Hp. unfold Project.findById in *.
    destruct (save_writes_rounded_mean now this db p Hp) as [_ H]. eauto.
Qed.

(** The other sample task is not touched when one is saved. *)
Lemma task_save_frame_witness :
  Task.findById Sample.review
    (Task.save 20 Sample.draft_40
       (Sample.db_of [Sample.draft_40; Sample.review_60] Sample.site_project)).2
  = Task.findById Sample.review
      (Sample.db_of [Sample.draft_40; Sample.review_60] Sample.site_project).
Proof.
  apply (task_save_frame 20 Sample.draft_40
           (Sample.db_of [Sample.draft_40; Sample.review_60] Sample.site_project)).
  discriminate.
Defined.

(** Saving again the document a save returned, on the store it returned,
    changes neither: a save with nothing assigned in between is without
    effect, the clock apart. *)
Theorem task_save_idempotent (now now' : Date) (this : TaskSchema.t) (db : Db.t) :
  Task.save now' (Task.save now this db).1 (Task.save now this db).2
  = Task.save now this db.
Proof. apply save_saved_again. Qed.

End SaveFrame.

(** ** The dashboard rates are percentages *)

Section DashboardBounds.

Import TaskSchema Dashboard.

Lemma filter_and_le {A} (f g : A → bool) (l : list A) :
  (length (List.filter (λ x, f x && g x) l) ≤ length (List.filter f l))%nat.
Proof.
  induction l as [|x l IH]; cbn; [lia|].
  destruct (f x), (g x); cbn; lia.
Qed.

Lemma filter_disjoint_le {A} (f g h : A → bool) (l : list A) :
  (∀ x, g x = true → h x = true → False) →
  (length (List.filter (λ x, f x && g x) l)
   + length (List.filter (λ x, f x && h x) l)
   ≤ length (List.filter f l))%nat.
Proof.
  intros Hd. induction l as [|x l IH]; cbn; [lia|].
  specialize (Hd x). destruct (f x), (g x), (h x); cbn; try lia.
  all: by destruct Hd.
Qed.

Lemma percent_bounds (c t : Z) :
  0 < t → 0 ≤ c ≤ t →
  0 ≤ Math_round (Double.mul (Double.div (Number c) (Number t)) (Number 100)) ≤ 100.
Proof. intros Ht Hc. by apply Math_round_percent_range. Qed.

(** On any store, at any time and for any user, the counts the handler
    reads are consistent, completed and overdue tasks being disjoint parts
    of the total, and the three metrics it answers are percentages: each
    lies between 0 and 100, and the productivity never exceeds the
    completion rate. *)
Theorem dashboard_rates_are_percentages (now : Date) (userId : ObjectId)
    (db : Db.t) :
  let total := countDocuments userId (λ _, true) db in
  let completed_ :=
    countDocuments userId (λ task, bool_decide (task.(status) = completed)) db in
  let overdue :=
    countDocuments userId
      (λ task,
         match task.(dueDate) with Some d => d <? now | None => false end
         && negb (bool_decide (task.(status) = completed))
         && negb (bool_decide (task.(status) = cancelled))) db in
  let m := get_stats now userId db in
  0 ≤ completed_ ∧ 0 ≤ overdue ∧ completed_ + overdue ≤ total
  ∧ 0 ≤ m.(completionRate) ≤ 100
  ∧ 0 ≤ m.(overdueRate) ≤ 100
  ∧ 0 ≤ m.(productivity) ≤ m.(completionRate).
Proof.
  cbn zeta.
  set (base := λ task : TaskSchema.t,
         (bool_decide (task.(assignee) = Some userId)
          || String.eqb task.(creator) userId) && negb task.(isArchived)).
  set (l := (map_to_list db.(Db.tasks)).*2).
  assert (Hcount : ∀ extra, countDocuments userId extra db
            = Z.of_nat (length (List.filter (λ task, base task && extra task) l)))
    by reflexivity.
  assert (Hsum : countDocuments userId
                   (λ task, bool_decide (task.(status) = completed)) db
                 + countDocuments userId
                     (λ task,
                        match task.(dueDate) with Some d => d <? now | None => false end
                        && negb (bool_decide (task.(status) = completed))
                        && negb (bool_decide (task.(status) = cancelled))) db
                 ≤ countDocuments userId (λ _, true) db).
  { rewrite !Hcount.
    pose proof (filter_disjoint_le base
                  (λ task, bool_decide (task.(status) = completed))
                  (λ task,
                     match task.(dueDate) with Some d => d <? now | None => false end
                     && negb (bool_decide (task.(status) = completed))
                     && negb (bool_decide (task.(status) = cancelled))) l) as Hd.
    assert (Hall : length (List.filter (λ task, base task && true) l)
                   = length (List.filter base l)).
    { f_equal. apply List.filter_ext. intros x. apply andb_true_r. }
    rewrite Hall. apply Nat2Z.inj_le in Hd; [lia|].
    intros x Hc Ho. rewrite Hc in Ho. cbn in Ho. by rewrite andb_false_r in Ho. }
  assert (H0c : 0 ≤ countDocuments userId
                      (λ task, bool_decide (task.(status) = completed)) db)
    by (rewrite Hcount; lia).
  assert (H0o : 0 ≤ countDocuments userId
                      (λ task,
                         match task.(dueDate) with Some d => d <? now | None => false end
                         && negb (bool_decide (task.(status) = completed))
                         && negb (bool_decide (task.(status) = cancelled))) db)
    by (rewrite Hcount; lia).
  split; [done|]. split; [done|]. split; [done|].
  unfold get_stats, metrics. cbn [completionRate overdueRate productivity].
  unfold Math_max.
  destruct (0 <? countDocuments userId (λ _, true) db) eqn:Ht.
  - apply Z.ltb_lt in Ht.
    set (t := countDocuments userId (λ _, true) db) in *.
    set (c := countDocuments userId _ db) in Hsum, H0c |- *.
    set (o := countDocuments userId _ db) in Hsum, H0o |- *.
    assert (Hc : 0 ≤ c ≤ t) by lia.
    assert (Ho : 0 ≤ o ≤ t) by lia.
    pose proof (percent_bounds c t Ht Hc).
    pose proof (percent_bounds o t Ht Ho).
    lia.
  - lia.
Qed.

End DashboardBounds.

(** ** The task list and its pages *)

Section TaskListPages.

Import TaskSchema TaskQueries TaskList.

Lemma Math_ceil_ratio (a b : Z) :
  0 < b → Math_ceil (Number a / Number b)%Q = (a + b - 1) / b.
Proof.
  intros Hb. destruct b as [|p|p]; try lia.
  unfold Math_ceil, Number.
  rewrite (Qceiling_comp _ (a # p)).
  - unfold Qceiling, Qfloor, Qopp. cbn [Qnum Qden].
    apply Z.div_unique with (r := Z.pos p - 1 - (- a) mod Z.pos p).
    + left. pose proof (Z.mod_pos_bound (- a) (Z.pos p)). lia.
    + pose proof (Z.div_mod (- a) (Z.pos p)). lia.
  - unfold Qeq, Qdiv, Qmult, Qinv, inject_Z. simpl. lia.
Qed.

Lemma ceil_bounds (a b : Z) :
  0 < b → ((a + b - 1) / b - 1) * b < a ≤ (a + b - 1) / b * b.
Proof.
  intros Hb.
  pose proof (Z.div_mod (a + b - 1) b ltac:(lia)).
  pose proof (Z.mod_pos_bound (a + b - 1) b ltac:(lia)). nia.
Qed.

(** Cutting a list into consecutive pages of [n] loses nothing. *)
Lemma pages_cover {A} (n : nat) (l : list A) : ∀ m,
  (0 < n)%nat → (length l ≤ m * n)%nat →
  flat_map (λ k, take n (drop (k * n) l)) (seq 0 m) = l.
Proof.
  intros m Hn. revert l. induction m as [|m IH]; intros l Hl.
  - destruct l; [done | cbn in Hl; lia].
  - transitivity (take n l ++ drop n l); [|apply take_drop].
    cbn [seq flat_map]. rewrite Nat.mul_0_l, drop_0. f_equal.
    transitivity (flat_map (λ k, take n (drop (k * n) (drop n l))) (seq 0 m));
      [|apply IH; rewrite length_drop; lia].
    rewrite <- seq_shift, !flat_map_concat_map, List.map_map. f_equal.
    apply List.map_ext. intros k. rewrite drop_drop.
    replace (S k * n)%nat with (n + k * n)%nat by lia. reflexivity.
Qed.

End TaskListPages.

Section PageCount.

Import Double TaskList.
Open Scope Q_scope.

(** The page count is the one the double quotient gives. *)
Lemma Math_ceil_div_exact (a b : Z) :
  (0 <= a < 2 ^ 52)%Z → (0 < b)%Z →
  Math_ceil (Double.div (Number a) (Number b)) = Math_ceil (Number a / Number b).
Proof.
  intros [Ha0 Ha1] Hb0.
  rewrite (Math_ceil_ratio a b Hb0).
  pose proof (Z.div_mod (a + b - 1) b ltac:(lia)) as Hdm.
  pose proof (Z.mod_pos_bound (a + b - 1) b ltac:(lia)) as Hm.
  set (c := ((a + b - 1) / b)%Z) in *.
  assert (Hc1 : (a <= b * c)%Z) by lia.
  assert (Hc2 : (b * c - b + 1 <= a)%Z) by lia.
  assert (Hc0 : (0 <= c)%Z) by nia.
  unfold Math_ceil, div, Number.
  assert (HB : 0 < inject_Z b)
    by (change 0 with (inject_Z 0); rewrite <- Zlt_Qlt; lia).
  assert (HA0 : 0 <= inject_Z a)
    by (change 0 with (inject_Z 0); rewrite <- Zle_Qle; lia).
  assert (HA1 : inject_Z a < 4503599627370496)
    by (change 4503599627370496 with (inject_Z (2 ^ 52)); rewrite <- Zlt_Qlt; lia).
  rewrite Zle_Qle in Hc1, Hc2. unfold Z.sub in Hc2.
  repeat rewrite ?inject_Z_plus, ?inject_Z_opp, ?inject_Z_mult in Hc1, Hc2.
  change (inject_Z 1) with 1 in *.
  set (A := inject_Z a) in *. set (B := inject_Z b) in *. set (C := inject_Z c) in *.
  assert (Hq : A / B * B == A) by (field; lra).
  set (x := A / B) in *.
  assert (Hx0 : 0 <= x) by (apply Qle_shift_div_l; lra).
  pose proof (nearest_error x Hx0) as [H1 H2].
  unfold unit_roundoff in *.
  set (y := nearest x) in *.
  destruct (decide (a = b * c)%Z) as [Hint|Hne].
  - (* the quotient is an integer *)
    assert (Hx : x == C).
    { assert (HT : A == B * C).
      { assert (H : inject_Z a == inject_Z (b * c)) by (by rewrite <- Hint).
        rewrite inject_Z_mult in H. exact H. }
      unfold x. rewrite HT. field. lra. }
    destruct (decide (c = 0)%Z) as [Hc|Hc].
    + assert (HC : C == 0) by (unfold C; by rewrite Hc).
      apply Qceiling_unique; fold C; fold y;
        clearbody x y A B C; clear -Hx HC H1 H2; lra.
    + assert (Hx' : x == inject_Z (2 * c) / 2).
      { rewrite Hx, inject_Z_mult. fold C. change (inject_Z 2) with 2. field. }
      assert (Hk : (0 < 2 * c < 2 ^ 53)%Z) by nia.
      pose proof (nearest_half_integer x _ Hx' Hk) as Hn. fold y in Hn.
      apply Qceiling_unique; fold C; fold y;
        clearbody x y A B C; clear -Hx Hn; lra.
  - assert (Hc1' : A + 1 <= B * C).
    { assert (H : (a + 1 <= b * c)%Z) by lia.
      rewrite Zle_Qle in H. repeat rewrite ?inject_Z_plus, ?inject_Z_mult in H.
      exact H. }
    assert (Hc2' : B * C - B + 1 <= A).
    { assert (H : (b * c + - b + 1 <= a)%Z) by lia.
      rewrite Zle_Qle in H.
      repeat rewrite ?inject_Z_plus, ?inject_Z_opp, ?inject_Z_mult in H.
      fold A B C in H. change (inject_Z 1) with 1 in H. lra. }
    assert (HBy1 : B * (x * (1 - (1 # 9007199254740992))) <= B * y)
      by (apply Qmult_le_l; lra).
    assert (HBy2 : B * y <= B * (x * (1 + (1 # 9007199254740992))))
      by (apply Qmult_le_l; lra).
    assert (E1 : B * (x * (1 - (1 # 9007199254740992)))
                 == A * (1 - (1 # 9007199254740992))) by (rewrite <- Hq; ring).
    assert (E2 : B * (x * (1 + (1 # 9007199254740992)))
                 == A * (1 + (1 # 9007199254740992))) by (rewrite <- Hq; ring).
    rewrite E1 in HBy1. rewrite E2 in HBy2.
    apply Qceiling_unique; fold C; fold y;
      clearbody x y A B C; clear -HB HA0 HA1 Hc1' Hc2' HBy1 HBy2.
    + apply (Qmult_lt_l _ _ B); [lra|]. nra.
    + apply (Qmult_le_l _ _ B); [lra|]. nra.
Qed.

End PageCount.

Section TaskListFacts.

Import TaskSchema TaskQueries TaskList.

Variable text_matches : string → TaskSchema.t → bool.
Variable sorted : option string → list TaskSchema.t → list TaskSchema.t.

(** Sorting rearranges: it neither drops nor adds a task. *)
Hypothesis sorted_perm : ∀ s l, sorted s l ≡ₚ l.

Lemma sorted_length s l : length (sorted s l) = length l.
Proof. by rewrite sorted_perm. Qed.

Lemma get_tasks_ok now userId q db :
  page_valid q = true → limit_valid q = true →
  get_tasks text_matches sorted now userId true q db =
    let page := default 1 q.(q_page) in
    let limit := default 20 q.(q_limit) in
    let found := List.filter (matches text_matches now userId q) (all_tasks db) in
    (json 200 true "",
     Some (take (Z.to_nat limit)
             (drop (Z.to_nat ((page - 1) * limit)) (sorted (searching q) found)),
           mkPagination page
             (Math_ceil (Number (Z.of_nat (length found)) / Number limit))
             (Z.of_nat (length found))
             (page <? Math_ceil (Number (Z.of_nat (length found)) / Number limit))
             (1 <? page))).
Proof. intros Hp Hl. unfold get_tasks. rewrite Hp, Hl. reflexivity. Qed.


Lemma limit_valid_iff q :
  limit_valid q = true ↔ 1 ≤ default 20 q.(q_limit) ≤ 100.
Proof.
  unfold limit_valid. destruct (q_limit q); cbn; [|split; [lia | done]].
  rewrite andb_true_iff, !Z.leb_le. done.
Qed.


(** Read page after page, from the first to the last one announced, the
    answers give every match once, in the sorted order. *)
Theorem get_tasks_pages_cover (now : Date) (userId : ObjectId) (q : Query)
    (db : Db.t) :
  limit_valid q = true →
  flat_map
    (λ k, page_tasks
            (get_tasks text_matches sorted now userId true
               (on_page (Z.of_nat k) q) db))
    (seq 1 (Z.to_nat
              (page_count
                 (get_tasks text_matches sorted now userId true (on_page 1 q) db))))
  = sorted (searching q)
      (List.filter (matches text_matches now userId q) (all_tasks db)).
Proof.
  intros Hl. pose proof (proj1 (limit_valid_iff q) Hl) as Hlim.
  set (limit := default 20 (q_limit q)) in *.
  set (found := List.filter (matches text_matches now userId q) (all_tasks db)).
  assert (Hpage : ∀ k, (1 ≤ k)%nat →
            page_tasks (get_tasks text_matches sorted now userId true
                          (on_page (Z.of_nat k) q) db)
            = take (Z.to_nat limit)
                (drop ((k - 1) * Z.to_nat limit) (sorted (searching q) found))).
  { intros k Hk. rewrite get_tasks_ok; [| cbn; apply Z.leb_le; lia | exact Hl].
    cbn zeta. unfold page_tasks. cbn [snd default q_page on_page q_limit]. unfold id.
    change (searching (on_page (Z.of_nat k) q)) with (searching q).
    change (matches text_matches now userId (on_page (Z.of_nat k) q))
      with (matches text_matches now userId q).
    fold limit. fold found. do 2 f_equal.
    change (from_option (λ x : Z, x) 20 (q_limit q)) with limit.
    rewrite Z2Nat.inj_mul by lia. f_equal. lia. }
  assert (Hcount : page_count
                     (get_tasks text_matches sorted now userId true (on_page 1 q) db)
                   = (Z.of_nat (length found) + limit - 1) / limit).
  { rewrite get_tasks_ok; [| done | exact Hl].
    cbn zeta. unfold page_count. cbn [snd totalPages q_limit on_page].
    fold limit. apply Math_ceil_ratio. lia. }
  rewrite Hcount.
  pose proof (ceil_bounds (Z.of_nat (length found)) limit ltac:(lia)) as Hc.
  set (pages := (Z.of_nat (length found) + limit - 1) / limit) in *.
  transitivity
    (flat_map (λ k, take (Z.to_nat limit)
                      (drop (k * Z.to_nat limit) (sorted (searching q) found)))
       (seq 0 (Z.to_nat pages)));
    [|apply pages_cover; [lia | rewrite sorted_length; nia]].
  rewrite <- seq_shift, flat_map_concat_map, List.map_map, <- flat_map_concat_map.
  apply flat_map_ext. intros k. rewrite Hpage by lia.
  do 2 f_equal. lia.
Qed.

(** With [overdue=true] the status sent is not looked at: the handler
    replaces the status condition by "neither completed nor cancelled".
    Every task of the answer is then overdue as the [isOverdue] virtual has
    it, belongs to the requester as assignee or creator, and is not
    archived. *)
Theorem get_tasks_overdue_overrides_status (now : Date) (userId : ObjectId)
    (ok : bool) (q : Query) (db : Db.t) (s : option Status) :
  q.(q_overdue) = Some "true" →
  get_tasks text_matches sorted now userId ok (with_status s q) db
  = get_tasks text_matches sorted now userId ok q db
  ∧ ∀ task, task ∈ page_tasks (get_tasks text_matches sorted now userId ok q db) →
            isOverdue now task = true
            ∧ of_user userId task = true
            ∧ task.(isArchived) = false.
Proof.
  intros Ho. split.
  - assert (Hm : ∀ task, matches text_matches now userId (with_status s q) task
                         = matches text_matches now userId q task).
    { intros task. unfold matches. cbn [with_status q_overdue q_project q_status
        q_priority q_assignee q_search]. rewrite Ho.
      rewrite bool_decide_eq_true_2 by done. reflexivity. }
    unfold get_tasks.
    change (page_valid (with_status s q)) with (page_valid q).
    change (limit_valid (with_status s q)) with (limit_valid q).
    change (searching (with_status s q)) with (searching q).
    cbn [with_status q_page q_limit].
    by rewrite (List.filter_ext _ _ Hm).
  - intros task. unfold page_tasks, get_tasks.
    destruct (negb _); cbn [snd]; [intros H; by apply not_elem_of_nil in H|].
    intros H. apply elem_of_take in H as (i & H & _).
    rewrite lookup_drop in H. apply list_elem_of_lookup_2 in H.
    rewrite sorted_perm in H.
    apply list_elem_of_In, List.filter_In in H as [_ H].
    unfold matches in H. rewrite Ho in H.
    rewrite bool_decide_eq_true_2 in H by done.
    repeat (apply andb_true_iff in H as [H ?]).
    match goal with Hd : due_before _ _ = true |- _ => rename Hd into Hdue end.
    match goal with Hd : status_open _ = true |- _ => rename Hd into Hopen end.
    match goal with Hd : negb (isArchived _) = true |- _ => rename Hd into Harch end.
    split; [|split; [exact H | by apply negb_true_iff in Harch]].
    unfold isOverdue. unfold due_before, status_open in *.
    destruct (dueDate task); [|done].
    apply andb_true_iff in Hopen as [? ?].
    by repeat (apply andb_true_iff; split).
Qed.

End TaskListFacts.


Lemma get_tasks_pages_cover_witness :
  flat_map
    (λ k, TaskList.page_tasks
            (TaskList.get_tasks (λ _ _, true) (λ _ l, l) 50 Sample.cat true
               (TaskList.on_page (Z.of_nat k)
                  (TaskList.mkQuery None None None None None None None (Some 1)))
               (Sample.db_of [Sample.draft_40; Sample.review_60] Sample.site_project)))
    (seq 1 (Z.to_nat
              (TaskList.page_count
                 (TaskList.get_tasks (λ _ _, true) (λ _ l, l) 50 Sample.cat true
                    (TaskList.on_page 1
                       (TaskList.mkQuery None None None None None None None (Some 1)))
                    (Sample.db_of [Sample.draft_40; Sample.review_60]
                       Sample.site_project)))))
  = List.filter
      (TaskList.matches (λ _ _, true) 50 Sample.cat
         (TaskList.mkQuery None None None None None None None (Some 1)))
      (TaskQueries.all_tasks
         (Sample.db_of [Sample.draft_40; Sample.review_60] Sample.site_project)).
Proof.
  apply (get_tasks_pages_cover (λ _ _, true) (λ _ l, l) (λ _ _, reflexivity _)
           50 Sample.cat
           (TaskList.mkQuery None None None None None None None (Some 1))
           (Sample.db_of [Sample.draft_40; Sample.review_60] Sample.site_project)).
  reflexivity.
Defined.

Lemma get_tasks_overdue_overrides_status_witness :
  TaskList.get_tasks (λ _ _, true) (λ _ l, l) 50 Sample.cat true
    (TaskList.with_status (Some TaskSchema.completed)
       (TaskList.mkQuery None None None None None (Some "true") None None))
    (Sample.db_of [Sample.draft_40; Sample.review_60] Sample.site_project)
  = TaskList.get_tasks (λ _ _, true) (λ _ l, l) 50 Sample.cat true
      (TaskList.mkQuery None None None None None (Some "true") None None)
      (Sample.db_of [Sample.draft_40; Sample.review_60] Sample.site_project).
Proof.
  apply (get_tasks_overdue_overrides_status (λ _ _, true) (λ _ l, l)
           (λ _ _, reflexivity _) 50 Sample.cat true
           (TaskList.mkQuery None None None None None (Some "true") None None)
           (Sample.db_of [Sample.draft_40; Sample.review_60] Sample.site_project)
           (Some TaskSchema.completed) eq_refl).
Defined.

(** ** Overdue tasks: the query, the virtual and the dashboard count *)

Section Overdue.

Import TaskSchema TaskQueries.

Lemma isOverdue_query now task :
  isOverdue now task = due_before now task && status_open task.
Proof.
  unfold isOverdue, due_before, status_open.
  destruct (dueDate task); [by rewrite andb_assoc | done].
Qed.

(** [findOverdue] returns exactly the stored tasks assigned to or created
    by the user that are not archived and that the [isOverdue] virtual
    calls overdue at that time; none of them is completed or cancelled, and
    each has a due date in the past. Their number is the overdue count of
    the dashboard. *)
Theorem findOverdue_matches_virtual (now : Date) (userId : ObjectId) (db : Db.t) :
  (∀ task,
     task ∈ findOverdue now userId db
     ↔ (∃ id, Task.findById id db = Some task)
       ∧ of_user userId task = true
       ∧ isOverdue now task = true
       ∧ task.(isArchived) = false)
  ∧ (∀ task, task ∈ findOverdue now userId db →
             task.(status) ≠ completed ∧ task.(status) ≠ cancelled
             ∧ ∃ d, task.(dueDate) = Some d ∧ d < now)
  ∧ Z.of_nat (length (findOverdue now userId db))
    = Dashboard.countDocuments userId
        (λ task,
           match task.(dueDate) with Some d => d <? now | None => false end
           && negb (bool_decide (task.(status) = completed))
           && negb (bool_decide (task.(status) = cancelled))) db.
Proof.
  assert (Hin : ∀ task,
            task ∈ findOverdue now userId db
            ↔ (∃ id, Task.findById id db = Some task)
              ∧ of_user userId task = true
              ∧ isOverdue now task = true
              ∧ task.(isArchived) = false).
  { intros task. unfold findOverdue, all_tasks, Task.findById.
    rewrite list_elem_of_In, List.filter_In, <- list_elem_of_In, list_elem_of_fmap.
    rewrite isOverdue_query, !andb_true_iff, negb_true_iff. split.
    - intros [([id x] & -> & Hx) (((? & ?) & ?) & ?)].
      apply elem_of_map_to_list in Hx. split; [by exists id | done].
    - intros ((id & Hid) & ? & (? & ?) & ?). split; [|done].
      exists (id, task). split; [done | by apply elem_of_map_to_list]. }
  split; [exact Hin|]. split.
  - intros task Ht. apply Hin in Ht as (_ & _ & Ho & _).
    rewrite isOverdue_query in Ho. apply andb_true_iff in Ho as [Hd Hs].
    unfold status_open in Hs. apply andb_true_iff in Hs as [Hc Hx].
    apply negb_true_iff, bool_decide_eq_false_1 in Hc.
    apply negb_true_iff, bool_decide_eq_false_1 in Hx.
    split; [done|]. split; [done|].
    unfold due_before in Hd. destruct (dueDate task) as [d|]; [|done].
    exists d. split; [done | by apply Z.ltb_lt].
  - unfold findOverdue, Dashboard.countDocuments, all_tasks. do 2 f_equal.
    apply List.filter_ext. intros task.
    unfold of_user, due_before, status_open.
    destruct (bool_decide (assignee task = Some userId) || _),
      (match dueDate task with Some d => d <? now | None => false end),
      (negb (bool_decide (status task = completed))),
      (negb (bool_decide (status task = cancelled))),
      (isArchived task); reflexivity.
Qed.

(** At time 50 a task of [cat]'s that was due at 40 and is in review. *)
Lemma findOverdue_matches_virtual_witness :
  let late :=
    TaskSchema.mk Sample.review Sample.site (Some Sample.cat) Sample.cat
      in_review medium (Some 40) 60 [] false None None false in
  late ∈ findOverdue 50 Sample.cat (Sample.db_of [late] Sample.site_project).
Proof.
  cbn zeta.
  apply (findOverdue_matches_virtual 50 Sample.cat).
  split; [by exists Sample.review|]. repeat split.
Defined.

End Overdue.

(** ** The authentication middleware *)

Section Authentication.

Import AuthMiddleware.

Lemma substring_all (s : string) : String.substring 0 (String.length s) s = s.
Proof. induction s as [|a s IH]; cbn; [done | by rewrite IH]. Qed.

Lemma append_cons a (p s : string) :
  (String a p +:+ s) = String a (p +:+ s).
Proof. reflexivity. Qed.

Lemma append_nil (s : string) : ("" +:+ s) = s.
Proof. reflexivity. Qed.

Lemma prefix_split (p s : string) :
  String.prefix p s = true →
  s = p +:+ String.substring (String.length p)
              (String.length s - String.length p) s.
Proof.
  revert s. induction p as [|a p IH]; intros s H.
  - rewrite append_nil. cbn. by rewrite Nat.sub_0_r, substring_all.
  - destruct s as [|b s]; cbn in H; [done|].
    destruct (Ascii.ascii_dec a b) as [->|]; [|done].
    rewrite append_cons. cbn. f_equal. by apply IH.
Qed.

Lemma prefix_app (p s : string) : String.prefix p (p +:+ s) = true.
Proof.
  induction p as [|a p IH]; [rewrite append_nil; by destruct s|].
  rewrite append_cons. cbn. destruct (Ascii.ascii_dec a a); [exact IH | done].
Qed.

Lemma substring_after_prefix (p s : string) :
  String.substring (String.length p)
    (String.length (p +:+ s) - String.length p) (p +:+ s) = s.
Proof.
  induction p as [|a p IH].
  - rewrite append_nil. cbn. by rewrite Nat.sub_0_r, substring_all.
  - rewrite append_cons. cbn. exact IH.
Qed.

Variable verify : string → Verified.
Variable castObjectId : string → option ObjectId.

(** The middleware lets a request through only with a header of the form
    "Bearer " followed by a non-empty token that verifies to a payload
    whose [userId] casts to the identifier of a stored, active user, and
    then the request carries that [userId] and that user. Everything else
    is answered on the spot, with 401 or with 500; 500 is the answer
    exactly when the verification fails in an unexpected way or yields a
    [userId] that is no identifier; a bare "Bearer " gets its own 401. *)
Theorem authMiddleware_lets_through (authHeader : option string)
    (users : gmap ObjectId User) :
  (∀ x, authMiddleware verify castObjectId authHeader users = Next x
        ↔ ∃ userId _id user token,
            x = Some (userId, user)
            ∧ authHeader = Some ("Bearer " +:+ token)
            ∧ token ≠ ""
            ∧ verify token = Decoded userId
            ∧ castObjectId userId = Some _id
            ∧ users !! _id = Some user
            ∧ user.(isActive) = true)
  ∧ (∀ r, authMiddleware verify castObjectId authHeader users = Respond r →
          r.(success) = false
          ∧ (r.(statusCode) = 401 ∨ r.(statusCode) = 500)
          ∧ (r.(statusCode) = 500
             ↔ ∃ token, authHeader = Some ("Bearer " +:+ token)
                        ∧ token ≠ ""
                        ∧ (verify token = OtherError
                           ∨ ∃ userId, verify token = Decoded userId
                                       ∧ castObjectId userId = None)))
  ∧ (authHeader = Some "Bearer " →
     authMiddleware verify castObjectId authHeader users
     = Respond (json 401 false "Access denied. Invalid token format.")).
Proof.
  assert (Hsub : ∀ token, substring_7 ("Bearer " +:+ token) = token)
    by (intros token; apply (substring_after_prefix "Bearer " token)).
  split; [|split].
  - intros x. split.
    + unfold authMiddleware, User_findById.
      destruct authHeader as [h|]; [|done].
      destruct (String.prefix "Bearer " h) eqn:Hp; cbn [negb]; [|done].
      destruct (String.eqb (substring_7 h) "") eqn:He; [done|].
      apply String.eqb_neq in He.
      destruct (verify (substring_7 h)) as [uid| | |] eqn:Hv; try done.
      destruct (castObjectId uid) as [id|] eqn:Hc; [|done].
      destruct (users !! id) as [user|] eqn:Hu; [|done].
      destruct (isActive user) eqn:Ha; cbn [negb]; [|done].
      intros [= <-]. exists uid, id, user, (substring_7 h).
      repeat split; try done. f_equal. by apply (prefix_split "Bearer " h).
    + intros (uid & id & user & token & -> & -> & Hne & Hv & Hc & Hu & Ha).
      unfold authMiddleware, User_findById. rewrite prefix_app. cbn [negb].
      rewrite Hsub, (proj2 (String.eqb_neq token "")) by done.
      by rewrite Hv, Hc, Hu, Ha.
  - intros r. unfold authMiddleware, User_findById.
    destruct authHeader as [h|].
    2:{ intros [= <-]. cbn. repeat split; eauto; try done.
        intros (token & ? & _). done. }
    destruct (String.prefix "Bearer " h) eqn:Hp; cbn [negb].
    2:{ intros [= <-]. cbn. repeat split; eauto; try done.
        intros (token & [= ->] & _). by rewrite prefix_app in Hp. }
    pose proof (prefix_split "Bearer " h Hp) as Hh.
    change (String.substring _ _ h) with (substring_7 h) in Hh.
    destruct (String.eqb (substring_7 h) "") eqn:He.
    { apply String.eqb_eq in He.
      intros [= <-]. cbn. repeat split; eauto; try done.
      intros (token & [= ->] & Hne & _). by rewrite Hsub in He. }
    apply String.eqb_neq in He.
    assert (Htok : ∀ token, Some h = Some ("Bearer " +:+ token) →
                            token = substring_7 h).
    { intros token [= ->]. by rewrite Hsub. }
    destruct (verify (substring_7 h)) as [uid| | |] eqn:Hv.
    + destruct (castObjectId uid) as [id|] eqn:Hc.
      * destruct (users !! id) as [user|].
        -- destruct (isActive user); cbn [negb]; [done|].
           intros [= <-]. cbn. repeat split; eauto; try done.
           intros (token & Ht & _ & [H|(u & H & Hn)]);
             apply Htok in Ht; subst token; congruence.
        -- intros [= <-]. cbn. repeat split; eauto; try done.
           intros (token & Ht & _ & [H|(u & H & Hn)]);
             apply Htok in Ht; subst token; congruence.
      * intros [= <-]. cbn. repeat split; eauto; try done.
        intros _. exists (substring_7 h). split; [by f_equal|].
        split; [done|]. right. by exists uid.
    + intros [= <-]. cbn. repeat split; eauto; try done.
      intros (token & Ht & _ & [H|(u & H & Hn)]);
        apply Htok in Ht; subst token; congruence.
    + intros [= <-]. cbn. repeat split; eauto; try done.
      intros (token & Ht & _ & [H|(u & H & Hn)]);
        apply Htok in Ht; subst token; congruence.
    + intros [= <-]. cbn. repeat split; eauto; try done.
      intros _. exists (substring_7 h). split; [by f_equal|].
      split; [done|]. by left.
  - intros ->. reflexivity.
Qed.

(** [jwt.verify] throws on an empty token. *)
Hypothesis verify_empty : ∀ userId, verify "" ≠ Decoded userId.

(** [optionalAuth] always hands over, and it attaches a user to the request
    exactly when [authMiddleware] would have let the request through, the
    same user in both. *)
Theorem optionalAuth_agrees (authHeader : option string)
    (users : gmap ObjectId User) :
  (∃ x, optionalAuth verify castObjectId authHeader users = Next x)
  ∧ ∀ u, optionalAuth verify castObjectId authHeader users = Next (Some u)
         ↔ authMiddleware verify castObjectId authHeader users = Next (Some u).
Proof.
  unfold optionalAuth, authMiddleware, User_findById.
  destruct authHeader as [h|].
  2:{ split; [eauto | done]. }
  destruct (String.prefix "Bearer " h); cbn [negb].
  2:{ split; [eauto | done]. }
  destruct (String.eqb (substring_7 h) "") eqn:He.
  - apply String.eqb_eq in He. rewrite He.
    destruct (verify "") as [uid| | |] eqn:Hv;
      try (split; [eauto | done]).
    by destruct (verify_empty uid).
  - destruct (verify (substring_7 h)) as [uid| | |];
      try (split; [eauto | done]).
    destruct (castObjectId uid) as [id|]; [|split; [eauto | done]].
    destruct (users !! id) as [user|]; [|split; [eauto | done]].
    destruct (isActive user); cbn [negb]; split; eauto; done.
Qed.

End Authentication.

(** A verifier that knows two tokens, one of them for a [userId] that is
    no identifier, a cast that accepts the 24 characters of an identifier,
    and one active user: the first token is let through, the second is
    answered 500. *)
Lemma authMiddleware_lets_through_witness :
  let verify token :=
    if String.eqb token "t0k3n" then AuthMiddleware.Decoded Sample.ann
    else if String.eqb token "f0r31gn" then AuthMiddleware.Decoded "nobody"
    else AuthMiddleware.JsonWebTokenError in
  let castObjectId id :=
    if (String.length id =? 24)%nat then Some id else None in
  let users : gmap ObjectId AuthMiddleware.User :=
    {[ Sample.ann := AuthMiddleware.mkUser true "user" ]} in
  AuthMiddleware.authMiddleware verify castObjectId (Some "Bearer t0k3n") users
  = AuthMiddleware.Next (Some (Sample.ann, AuthMiddleware.mkUser true "user"))
  ∧ AuthMiddleware.authMiddleware verify castObjectId (Some "Bearer f0r31gn") users
    = AuthMiddleware.Respond (json 500 false "Server error during authentication.").
Proof.
  cbn zeta. split; [|vm_compute; reflexivity].
  apply (authMiddleware_lets_through
           (λ token,
              if String.eqb token "t0k3n" then AuthMiddleware.Decoded Sample.ann
              else if String.eqb token "f0r31gn" then AuthMiddleware.Decoded "nobody"
              else AuthMiddleware.JsonWebTokenError)
           (λ id, if (String.length id =? 24)%nat then Some id else None)
           (Some "Bearer t0k3n") {[ Sample.ann := AuthMiddleware.mkUser true "user" ]}).
  exists Sample.ann, Sample.ann, (AuthMiddleware.mkUser true "user"), "t0k3n".
  repeat split; try reflexivity. discriminate.
Defined.

Lemma optionalAuth_agrees_witness :
  AuthMiddleware.optionalAuth
    (λ token, if String.eqb token "t0k3n" then AuthMiddleware.Decoded Sample.ann
              else AuthMiddleware.JsonWebTokenError)
    Some
    (Some "Bearer t0k3n") {[ Sample.ann := AuthMiddleware.mkUser true "user" ]}
  = AuthMiddleware.Next (Some (Sample.ann, AuthMiddleware.mkUser true "user")).
Proof.
  apply (optionalAuth_agrees
           (λ token, if String.eqb token "t0k3n" then AuthMiddleware.Decoded Sample.ann
                     else AuthMiddleware.JsonWebTokenError)
           Some
           (λ userId, ltac:(discriminate))
           (Some "Bearer t0k3n") {[ Sample.ann := AuthMiddleware.mkUser true "user" ]}).
  reflexivity.
Defined.

(** ** Creating, updating and deleting a project *)

Section ProjectCrudFacts.

Import ProjectSchema ProjectCrud.





(** [router.delete("/:id")] answers 200 exactly when the project exists
    and the requester is its owner; an admin cannot delete. The project is
    then gone together with every task that names it, and every other task
    and project is kept. In every other case the store is left as it
    was. *)
Theorem delete_project_outcome (req_userId params_id : ObjectId) (db : Db.t) :
  let out := delete_project req_userId params_id db in
  (out.1.(statusCode) = 200
   ↔ ∃ p, Project.findById params_id db = Some p ∧ p.(owner) = req_userId)
  ∧ (out.1.(statusCode) ≠ 200 → out.2 = db)
  ∧ (out.1.(statusCode) = 200 →
     ∃ p, Project.findById params_id db = Some p
          ∧ Project.findById params_id out.2 = None
          ∧ Task.find_project p.(_id) out.2 = []
          ∧ (∀ id task, Task.findById id out.2 = Some task
                        ↔ Task.findById id db = Some task
                          ∧ task.(TaskSchema.project) ≠ p.(_id))
          ∧ (∀ id, id ≠ params_id →
                   Project.findById id out.2 = Project.findById id db)).
Proof.
  cbn zeta. unfold delete_project.
  destruct (Project.findById params_id db) as [p|] eqn:Hp;
    [|cbn; repeat split; try done; intros (p & ? & _); done].
  destruct (String.eqb (owner p) req_userId) eqn:Ho; cbn [negb].
  - apply String.eqb_eq in Ho. cbn [fst snd statusCode].
    split; [split; [intros _; by exists p | done]|].
    split; [done|]. intros _. exists p. split; [done|].
    assert (Hlook : ∀ id task,
              Task.findById id
                (Db.set_projects
                   (delete params_id (Db.projects (Task_deleteMany (_id p) db)))
                   (Task_deleteMany (_id p) db)) = Some task
              ↔ Task.findById id db = Some task
                ∧ task.(TaskSchema.project) ≠ p.(_id)).
    { intros id task. unfold Task.findById, Task_deleteMany. cbn.
      by rewrite map_lookup_filter_Some. }
    split; [unfold Project.findById; cbn; apply lookup_delete_eq|].
    split; [|split; [exact Hlook|]].
    + destruct (Task.find_project (_id p) _) as [|t l] eqn:Hf; [done|].
      assert (Hin : t ∈ t :: l) by left. rewrite <- Hf in Hin.
      apply find_project_spec in Hin as (id & Hl & Hpr).
      apply (Hlook id t) in Hl as [_ Hne]. done.
    + intros id Hne. unfold Project.findById. cbn. by apply lookup_delete_ne.
  - apply String.eqb_neq in Ho. cbn. repeat split; try done.
    intros (p' & [= <-] & ?). done.
Qed.

(** [ann] deletes the sample project: its two tasks go with it. *)
Lemma delete_project_outcome_witness :
  (delete_project Sample.ann Sample.site
     (Sample.db_of [Sample.draft_40; Sample.review_60] Sample.site_project)).1.(statusCode)
  = 200.
Proof.
  apply (delete_project_outcome Sample.ann Sample.site
           (Sample.db_of [Sample.draft_40; Sample.review_60] Sample.site_project)).
  by exists Sample.site_project.
Defined.

End ProjectCrudFacts.

(** ** Task statistics of a project *)

Section TaskStatistics.

Import TaskSchema ProjectProgress.

Lemma status_name_inj s s' : status_name s = status_name s' → s = s'.
Proof. destruct s, s'; cbn; intros H; try reflexivity; discriminate H. Qed.

Lemma statusCounts_lookup (stats : list Stat) : ∀ (acc : gmap string nat) s,
  NoDup (stat_id <$> stats) →
  fold_left (λ obj stat, <[status_name stat.(stat_id) := stat.(count)]> obj)
    stats acc !! status_name s
  = match List.find (λ st, bool_decide (st.(stat_id) = s)) stats with
    | Some st => Some st.(count)
    | None => acc !! status_name s
    end.
Proof.
  induction stats as [|st stats IH]; intros acc s Hnd; cbn [fold_left List.find]; [done|].
  rewrite fmap_cons in Hnd. apply NoDup_cons in Hnd as [Hnotin Hnd].
  rewrite IH by done. case_bool_decide as Hs.
  - subst s.
    destruct (List.find _ stats) as [st'|] eqn:Hf.
    + apply List.find_some in Hf as [Hin Heq].
      apply bool_decide_eq_true_1 in Heq. destruct Hnotin.
      rewrite <- Heq. apply list_elem_of_fmap. exists st'.
      split; [done | by apply list_elem_of_In].
    + apply lookup_insert_eq.
  - destruct (List.find _ stats); [done|].
    apply lookup_insert_ne. intros E. by apply status_name_inj in E.
Qed.

Lemma statusCounts_sum (stats : list Stat) : ∀ (acc : gmap string nat),
  NoDup (stat_id <$> stats) →
  (∀ st, st ∈ stats → acc !! status_name st.(stat_id) = None) →
  sum_list
    (map_to_list
       (fold_left (λ obj stat, <[status_name stat.(stat_id) := stat.(count)]> obj)
          stats acc)).*2
  = (sum_list (map_to_list acc).*2 + sum_list (count <$> stats))%nat.
Proof.
  induction stats as [|st stats IH]; intros acc Hnd Hfresh; cbn [fold_left].
  - cbn. lia.
  - rewrite fmap_cons in Hnd. apply NoDup_cons in Hnd as [Hnotin Hnd].
    rewrite IH; [|done|].
    + rewrite map_to_list_insert by (apply Hfresh; left).
      cbn. lia.
    + intros st' Hin. rewrite lookup_insert_ne; [apply Hfresh; by right|].
      intros E. apply status_name_inj in E. destruct Hnotin.
      rewrite E. apply list_elem_of_fmap. by exists st'.
Qed.

Lemma find_row (f : Status → nat) (D : list Status) (s : Status) :
  List.find (λ st, bool_decide (st.(stat_id) = s)) ((λ x, mkStat x (f x)) <$> D)
  = if decide (s ∈ D) then Some (mkStat s (f s)) else None.
Proof.
  induction D as [|x D IH]; cbn; [done|].
  case_bool_decide as E.
  - subst x. rewrite decide_True by left. done.
  - rewrite IH. destruct (decide (s ∈ D)) as [Hin|Hnin].
    + rewrite decide_True by (by right). done.
    + rewrite decide_False; [done|].
      intros Hc. apply elem_of_cons in Hc as [->|?]; done.
Qed.

Lemma indicator_sum (D : list Status) (x : Status) :
  NoDup D → x ∈ D →
  sum_list ((λ s, if bool_decide (x = s) then 1 else 0)%nat <$> D) = 1%nat.
Proof.
  induction D as [|y D IH]; intros Hnd Hin; [by apply not_elem_of_nil in Hin|].
  apply NoDup_cons in Hnd as [Hnotin Hnd]. cbn.
  case_bool_decide as E.
  - subst y. clear IH Hin.
    assert (H0 : sum_list ((λ s, if bool_decide (x = s) then 1 else 0)%nat <$> D) = 0%nat).
    { induction D as [|z D IH]; [done|]. cbn.
      rewrite bool_decide_eq_false_2.
      - apply IH; [intros ?; apply Hnotin; by right | by apply NoDup_cons in Hnd as [_ ?]].
      - intros ->. apply Hnotin. left. }
    rewrite H0. done.
  - apply elem_of_cons in Hin as [->|Hin]; [done|]. by rewrite IH.
Qed.

Lemma sum_list_fmap_add {A} (f g : A → nat) (D : list A) :
  sum_list ((λ s, f s + g s)%nat <$> D)
  = (sum_list (f <$> D) + sum_list (g <$> D))%nat.
Proof.
  induction D as [|s D IH]; [done|].
  rewrite !fmap_cons. change (sum_list (?x :: ?l)) with (x + sum_list l)%nat.
  rewrite IH. lia.
Qed.

Lemma counts_sum (D : list Status) (tasks : list TaskSchema.t) :
  NoDup D → (∀ task, task ∈ tasks → task.(status) ∈ D) →
  sum_list
    ((λ s, length (List.filter (λ task, bool_decide (task.(status) = s)) tasks))
       <$> D)
  = length tasks.
Proof.
  intros Hnd. induction tasks as [|t tasks IH]; intros Hall.
  - cbn. clear. induction D as [|s D IHD]; [done|]. cbn. exact IHD.
  - transitivity
      (sum_list ((λ s, if bool_decide (status t = s) then 1 else 0)%nat <$> D)
       + sum_list
           ((λ s, length (List.filter (λ task, bool_decide (task.(status) = s)) tasks))
              <$> D))%nat.
    + rewrite <- sum_list_fmap_add. f_equal. apply list_fmap_ext.
      intros _ s _. cbn [List.filter]. by destruct (bool_decide (status t = s)).
    + rewrite indicator_sum by (done || apply Hall; left).
      rewrite IH; [done|]. intros task Hin. apply Hall. by right.
Qed.

(** The statistics of a project count its tasks. Each of the five fields
    is the number of the project's stored tasks in that status, 0 for a
    status that does not occur; [total], the sum over the rows of the
    aggregation, is the number of the project's stored tasks and the sum of
    the five fields. *)
Theorem taskStats_counts (projectId : ObjectId) (db : Db.t) :
  let tasks := Task.find_project projectId db in
  let n := λ s, length (List.filter (λ task, bool_decide (task.(status) = s)) tasks) in
  let st := taskStats projectId db in
  st.(ts_todo) = n todo
  ∧ st.(ts_inProgress) = n in_progress
  ∧ st.(ts_inReview) = n in_review
  ∧ st.(ts_completed) = n completed
  ∧ st.(ts_cancelled) = n cancelled
  ∧ st.(ts_total) = length tasks
  ∧ st.(ts_total)
    = (st.(ts_todo) + st.(ts_inProgress) + st.(ts_inReview)
       + st.(ts_completed) + st.(ts_cancelled))%nat.
Proof.
  cbn zeta. set (tasks := Task.find_project projectId db).
  set (n := λ s, length (List.filter (λ task, bool_decide (task.(status) = s)) tasks)).
  assert (Hnd : NoDup (stat_id <$> aggregate_by_status projectId db)).
  { unfold aggregate_by_status. rewrite <- list_fmap_compose.
    rewrite (list_fmap_ext (stat_id ∘ _) id) by done.
    rewrite list_fmap_id. apply NoDup_remove_dups. }
  assert (Hfield : ∀ s,
            default 0%nat (statusCounts (aggregate_by_status projectId db)
                           !! status_name s) = n s).
  { intros s. unfold statusCounts. rewrite statusCounts_lookup by done.
    unfold aggregate_by_status. fold tasks. rewrite (find_row n).
    destruct (decide (s ∈ remove_dups (status <$> tasks))) as [Hin|Hnin]; [done|].
    rewrite lookup_empty. cbn. symmetry. subst n. cbn.
    apply length_zero_iff_nil.
    destruct (List.filter _ tasks) as [|t l] eqn:Hf; [done|].
    assert (Ht : In t (List.filter (λ task, bool_decide (status task = s)) tasks))
      by (rewrite Hf; left; done).
    apply List.filter_In in Ht as [Ht Hs]. apply bool_decide_eq_true_1 in Hs.
    destruct Hnin. apply elem_of_remove_dups, list_elem_of_fmap.
    exists t. split; [done | by apply list_elem_of_In]. }
  assert (Htotal : sum_list (map_to_list
                     (statusCounts (aggregate_by_status projectId db))).*2
                   = length tasks).
  { unfold statusCounts. rewrite statusCounts_sum; [|done|intros; apply lookup_empty].
    rewrite map_to_list_empty. cbn.
    unfold aggregate_by_status. fold tasks. rewrite <- list_fmap_compose.
    apply (counts_sum (remove_dups (status <$> tasks)) tasks).
    - apply NoDup_remove_dups.
    - intros task Hin. apply elem_of_remove_dups, list_elem_of_fmap. by exists task. }
  unfold taskStats.
  cbn [ts_todo ts_inProgress ts_inReview ts_completed ts_cancelled ts_total].
  pose proof (Hfield todo) as H1. pose proof (Hfield in_progress) as H2.
  pose proof (Hfield in_review) as H3. pose proof (Hfield completed) as H4.
  pose proof (Hfield cancelled) as H5. cbn [status_name] in H1, H2, H3, H4, H5.
  rewrite H1, H2, H3, H4, H5, Htotal.
  repeat split; try done.
  pose proof (counts_sum [todo; in_progress; in_review; completed; cancelled] tasks)
    as Hfive.
  cbn in Hfive. fold (n todo) (n in_progress) (n in_review) (n completed)
    (n cancelled) in Hfive.
  rewrite <- Hfive; [subst n; cbn; lia | |].
  - compute_done.
  - intros task _. destruct (status task); compute_done.
Qed.

End TaskStatistics.
